(** * Rabby call form: wallet adapter, chain registry and value conversion

    A shallow embedding of [src/utils/wallet.ts], [src/utils/eip7702.ts],
    [src/types/wallet.ts] and the value handling of
    [src/components/TransactionForm.tsx], with the properties the
    specification states about them.

    Conventions.  Strings are sequences of ASCII characters.  A JavaScript
    Number is modelled when it is NaN, an infinity, or a double holding an
    integer; the signed zero is not distinguished from zero.  An awaited
    provider request settles: it resolves or it rejects. *)

From Stdlib Require Import ZArith Ascii String List Lia Bool.
From stdpp Require Import base gmap strings list.

Local Open Scope Z_scope.
Set Warnings "-register-all".

(** ** Characters and regular expressions *)

Module Regex.

(** An inclusive range of characters, [lo-hi] inside a bracket class. *)
Definition inRange (lo hi c : ascii) : bool :=
  (N_of_ascii lo <=? N_of_ascii c)%N && (N_of_ascii c <=? N_of_ascii hi)%N.

Definition inClass (rs : list (ascii * ascii)) (c : ascii) : bool :=
  existsb (fun r => inRange (fst r) (snd r) c) rs.

(** The fragment of the pattern language the sources use: literal
    characters, bracket classes, concatenation, [*] and [{n}]. *)
Inductive regex : Type :=
| Void
| Eps
| Chr (c : ascii)
| Class (rs : list (ascii * ascii))
| Seq (r1 r2 : regex)
| Alt (r1 r2 : regex)
| Star (r : regex).

(** [r{n}] is [n] copies of [r] in sequence. *)
Fixpoint Times (n : nat) (r : regex) : regex :=
  match n with
  | O => Eps
  | S k => Seq r (Times k r)
  end.

Fixpoint lit (s : string) : regex :=
  match s with
  | EmptyString => Eps
  | String c s' => Seq (Chr c) (lit s')
  end.

Fixpoint nullable (r : regex) : bool :=
  match r with
  | Void => false
  | Eps => true
  | Chr _ => false
  | Class _ => false
  | Seq r1 r2 => nullable r1 && nullable r2
  | Alt r1 r2 => nullable r1 || nullable r2
  | Star _ => true
  end.

Fixpoint deriv (c : ascii) (r : regex) : regex :=
  match r with
  | Void => Void
  | Eps => Void
  | Chr d => if Ascii.eqb c d then Eps else Void
  | Class rs => if inClass rs c then Eps else Void
  | Seq r1 r2 =>
      if nullable r1
      then Alt (Seq (deriv c r1) r2) (deriv c r2)
      else Seq (deriv c r1) r2
  | Alt r1 r2 => Alt (deriv c r1) (deriv c r2)
  | Star r1 => Seq (deriv c r1) (Star r1)
  end.

(** [/^r$/.test(s)]: the whole of [s] is matched by [r]. *)
Fixpoint test (r : regex) (s : string) : bool :=
  match s with
  | EmptyString => nullable r
  | String c s' => test (deriv c r) s'
  end.

(** The language of a pattern, as a relation. *)
Inductive Matches : regex -> string -> Prop :=
| MEps : Matches Eps EmptyString
| MChr c : Matches (Chr c) (String c EmptyString)
| MClass rs c : inClass rs c = true -> Matches (Class rs) (String c EmptyString)
| MSeq r1 r2 s1 s2 :
    Matches r1 s1 -> Matches r2 s2 -> Matches (Seq r1 r2) (String.append s1 s2)
| MAltL r1 r2 s : Matches r1 s -> Matches (Alt r1 r2) s
| MAltR r1 r2 s : Matches r2 s -> Matches (Alt r1 r2) s
| MStar0 r : Matches (Star r) EmptyString
| MStarS r s1 s2 :
    Matches r s1 -> Matches (Star r) s2 -> Matches (Star r) (String.append s1 s2).

(** Every character of the string satisfies the predicate. *)
Fixpoint allChars (p : ascii -> bool) (s : string) : bool :=
  match s with
  | EmptyString => true
  | String c s' => p c && allChars p s'
  end.

End Regex.

(** ** [src/utils/wallet.ts]: validation *)

Module Validation.
Import Regex.

(** [[a-fA-F0-9]] *)
Definition hexClass : list (ascii * ascii) :=
  [("a", "f"); ("A", "F"); ("0", "9")]%char.

(** [/^0x[a-fA-F0-9]{40}$/] *)
Definition addressPattern : regex :=
  Seq (lit "0x") (Times 40 (Class hexClass)).

(** [/^0x[a-fA-F0-9]*$/] *)
Definition calldataPattern : regex :=
  Seq (lit "0x") (Star (Class hexClass)).

Definition isValidAddress (address : string) : bool :=
  test addressPattern address.

Definition isValidCalldata (calldata : string) : bool :=
  test calldataPattern calldata.

(** A hexadecimal character, spelled out. *)
Definition isHexChar (c : ascii) : bool :=
  match c with
  | "0" | "1" | "2" | "3" | "4" | "5" | "6" | "7" | "8" | "9"
  | "a" | "b" | "c" | "d" | "e" | "f"
  | "A" | "B" | "C" | "D" | "E" | "F" => true
  | _ => false
  end%char.

End Validation.

(** ** Numbers of the runtime

    [parseInt] and [Number.prototype.toString] on the numbers the program
    meets: the results of [parseInt], which are NaN, an infinity or a double
    holding an integer. *)

Module Number.

Inductive number : Type :=
| NaN
| Infinity (negative : bool)
| Int (z : Z).

(** The double nearest to a non-negative integer: 53 significant bits,
    ties to the even mantissa. *)
Definition roundMagnitude (n : Z) : Z :=
  if n <? 2 ^ 53 then n
  else
    let e := Z.log2 n - 52 in
    let q := n / 2 ^ e in
    let r := n mod 2 ^ e in
    let half := 2 ^ (e - 1) in
    let q' := if (half <? r) || ((r =? half) && Z.odd q) then q + 1 else q in
    q' * 2 ^ e.

(** The Number value of a mathematical integer. *)
Definition toDouble (z : Z) : number :=
  let m := roundMagnitude (Z.abs z) in
  if 2 ^ 1024 <=? m then Infinity (z <? 0) else Int (Z.sgn z * m).

(** Digits [0-9a-z] of a radix up to 36. *)
Definition digitChar (d : Z) : ascii :=
  if d <? 10 then ascii_of_N (48 + Z.to_N d) else ascii_of_N (87 + Z.to_N d).

Definition digitValue (c : ascii) : option Z :=
  let n := Z.of_N (N_of_ascii c) in
  if (48 <=? n) && (n <=? 57) then Some (n - 48)
  else if (97 <=? n) && (n <=? 122) then Some (n - 87)
  else if (65 <=? n) && (n <=? 90) then Some (n - 55)
  else None.

Definition isDigitOf (radix : Z) (c : ascii) : bool :=
  match digitValue c with
  | Some d => d <? radix
  | None => false
  end.

(** The numeral of a non-negative integer, most significant digit first. *)
Fixpoint digitsOf (fuel : nat) (radix n : Z) (acc : string) : string :=
  match fuel with
  | O => acc
  | S f =>
      let acc' := String (digitChar (n mod radix)) acc in
      if n <? radix then acc' else digitsOf f radix (n / radix) acc'
  end.

Definition integerToString (radix n : Z) : string :=
  digitsOf (S (Z.to_nat (Z.log2 n))) radix n EmptyString.

(** The integer a string of digits denotes. *)
Fixpoint digitsValueFrom (radix acc : Z) (s : string) : Z :=
  match s with
  | EmptyString => acc
  | String c s' =>
      digitsValueFrom radix (acc * radix + default 0 (digitValue c)) s'
  end.

Definition digitsValue (radix : Z) (s : string) : Z :=
  digitsValueFrom radix 0 s.

(** The longest prefix made of digits of the radix. *)
Fixpoint takeDigits (radix : Z) (s : string) : string :=
  match s with
  | EmptyString => EmptyString
  | String c s' =>
      if isDigitOf radix c then String c (takeDigits radix s') else EmptyString
  end.

Fixpoint trimStart (s : string) : string :=
  match s with
  | EmptyString => EmptyString
  | String c s' => if Ascii.is_space c then trimStart s' else s
  end.

(** [parseInt(string, radix)]; [radix] is [None] when the argument is
    left out.  The digits are read exactly and the integer is rounded
    once, to the nearest double. *)
Definition parseInt (inputString : string) (radix : option Z) : number :=
  let S0 := trimStart inputString in
  let '(negative, S1) :=
    match S0 with
    | String "-" rest => (true, rest)
    | String "+" rest => (false, rest)
    | _ => (false, S0)
    end in
  let R0 := default 0 radix in
  if negb (R0 =? 0) && ((R0 <? 2) || (36 <? R0)) then NaN
  else
    let stripPrefix := (R0 =? 0) || (R0 =? 16) in
    let R1 := if R0 =? 0 then 10 else R0 in
    let '(R, S2) :=
      match stripPrefix, S1 with
      | true, String "0" (String "x" rest) => (16, rest)
      | true, String "0" (String "X" rest) => (16, rest)
      | _, _ => (R1, S1)
      end in
    let Z0 := takeDigits R S2 in
    match Z0 with
    | EmptyString => NaN
    | _ =>
        let mathInt := digitsValue R Z0 in
        toDouble (if negative then - mathInt else mathInt)
    end.

Fixpoint dropTrailingZeros (s : string) : string :=
  match s with
  | EmptyString => EmptyString
  | String c s' =>
      match dropTrailingZeros s' with
      | EmptyString => if Ascii.eqb c "0" then EmptyString else String c EmptyString
      | t => String c t
      end
  end.

(** The multiple of [10^(n-k)] next to [x] that still rounds to the
    double [x], if there is one: the numeral with [k] significant digits. *)
Definition candidate (x : Z) (n k : nat) : option Z :=
  let p := 10 ^ Z.of_nat (n - k) in
  let lo := x / p * p in
  let hi := lo + p in
  match roundMagnitude lo =? x, roundMagnitude hi =? x with
  | true, true =>
      Some (if (x - lo <? hi - x) || ((x - lo =? hi - x) && Z.even (x / p))
            then lo else hi)
  | true, false => Some lo
  | false, true => Some hi
  | false, false => None
  end.

Fixpoint shortestFrom (x : Z) (n k fuel : nat) : Z :=
  match fuel with
  | O => x
  | S f =>
      match candidate x n k with
      | Some v => v
      | None => shortestFrom x n (S k) f
      end
  end.

(** The integer with the fewest significant digits that rounds to [x]. *)
Definition shortestDecimal (x : Z) : Z :=
  shortestFrom x (String.length (integerToString 10 x)) 1 17.

Definition exponential (v : Z) : string :=
  let ds := integerToString 10 v in
  let e := Z.of_nat (String.length ds) - 1 in
  match dropTrailingZeros ds with
  | EmptyString => "0"
  | String d EmptyString => String d ("e+" +:+ integerToString 10 e)
  | String d rest => String d ("." +:+ rest +:+ "e+" +:+ integerToString 10 e)
  end.

(** Decimal rendering of a non-negative double holding an integer.  An
    integer below [2^53] is its own shortest numeral. *)
Definition decimalMagnitude (x : Z) : string :=
  if x <? 2 ^ 53 then integerToString 10 x
  else
    let v := shortestDecimal x in
    if v <? 10 ^ 21 then integerToString 10 v else exponential v.

(** [x.toString(radix)]; [x.toString()] is [toString 10 x].  For a radix
    other than 10 the standard leaves the algorithm to the engine and asks
    for a generalisation of the decimal one; an integer is rendered here
    by its exact digits. *)
Definition toString (radix : Z) (x : number) : string :=
  match x with
  | NaN => "NaN"
  | Infinity negative => if negative then "-Infinity" else "Infinity"
  | Int z =>
      (if z <? 0 then "-" else "") +:+
      (if radix =? 10 then decimalMagnitude (Z.abs z)
       else integerToString radix (Z.abs z))
  end.

End Number.

(** ** Values exchanged with the provider

    What a provider hands back or rejects with is an arbitrary value
    ([Promise<any>]).  The model has the JSON-like values and error
    objects; a function value cannot cross the request interface. *)

Module Js.
Import Number.

Inductive value : Type :=
| Undefined
| Null
| Bool (b : bool)
| Num (n : number)
| Str (s : string)
| Arr (items : list value)
| Obj (isError : bool) (props : list (string * value)).

(** The result of evaluating an expression that may throw. *)
Inductive completion (A : Type) : Type :=
| Normal (a : A)
| Abrupt (thrown : value).
Arguments Normal {A} a.
Arguments Abrupt {A} thrown.

(** [new Error(message)] *)
Definition newError (message : string) : value :=
  Obj true [("message", Str message)].

(** The TypeError the engine raises when a property of [null] or
    [undefined] is read; the wording of its message is the engine's. *)
Definition typeError (key : string) : value :=
  Obj true [("name", Str "TypeError");
            ("message", Str ("Cannot read properties of null or undefined (reading '"
                             +:+ key +:+ "')"))].

Definition truthy (v : value) : bool :=
  match v with
  | Undefined | Null => false
  | Bool b => b
  | Num NaN => false
  | Num (Infinity _) => true
  | Num (Int z) => negb (z =? 0)
  | Str s => negb (String.eqb s "")
  | Arr _ | Obj _ _ => true
  end.

Definition typeof (v : value) : string :=
  match v with
  | Undefined => "undefined"
  | Null | Arr _ | Obj _ _ => "object"
  | Bool _ => "boolean"
  | Num _ => "number"
  | Str _ => "string"
  end.

Fixpoint assoc (key : string) (props : list (string * value)) : option value :=
  match props with
  | [] => None
  | (k, v) :: rest => if String.eqb k key then Some v else assoc key rest
  end.

(** The canonical numeral of an array index. *)
Definition indexKey (i : nat) : string := integerToString 10 (Z.of_nat i).

Fixpoint findIndex {A} (key : string) (i : nat) (items : list A) : option A :=
  match items with
  | [] => None
  | x :: rest => if String.eqb (indexKey i) key then Some x else findIndex key (S i) rest
  end.

Definition chars (s : string) : list value :=
  map (fun c => Str (String c EmptyString)) (list_ascii_of_string s).

(** [v[key]] and [v.key], for the keys the program reads: [length],
    indices, [code], [message] and [name]. *)
Definition getProp (v : value) (key : string) : completion value :=
  match v with
  | Undefined | Null => Abrupt (typeError key)
  | Bool _ | Num _ => Normal Undefined
  | Str s =>
      if String.eqb key "length" then Normal (Num (Int (Z.of_nat (String.length s))))
      else Normal (default Undefined (findIndex key 0 (chars s)))
  | Arr items =>
      if String.eqb key "length" then Normal (Num (Int (Z.of_nat (List.length items))))
      else Normal (default Undefined (findIndex key 0 items))
  | Obj isError props =>
      match assoc key props with
      | Some w => Normal w
      | None =>
          (* [Error.prototype] supplies [message] and [name] *)
          if isError && String.eqb key "message" then Normal (Str "")
          else if isError && String.eqb key "name" then Normal (Str "Error")
          else Normal Undefined
      end
  end.

(** [key in v], for a value whose [typeof] is ["object"] and that is not
    [null]; the program asks for [message]. *)
Definition hasProp (key : string) (v : value) : bool :=
  match v with
  | Arr items =>
      String.eqb key "length" || bool_decide (is_Some (findIndex key 0 items))
  | Obj isError props =>
      bool_decide (is_Some (assoc key props))
      || (isError && (String.eqb key "message" || String.eqb key "name"))
  | _ => false
  end.

(** [error instanceof Error] *)
Definition instanceofError (v : value) : bool :=
  match v with
  | Obj isError _ => isError
  | _ => false
  end.

(** [v === p] where [p] is a primitive: two numbers are compared by
    value (NaN is equal to nothing), two strings character by character,
    and an object is never equal to a primitive. *)
Definition strictEquals (v p : value) : bool :=
  match v, p with
  | Undefined, Undefined => true
  | Null, Null => true
  | Bool a, Bool b => Bool.eqb a b
  | Num (Int a), Num (Int b) => a =? b
  | Num (Infinity a), Num (Infinity b) => Bool.eqb a b
  | Str a, Str b => String.eqb a b
  | _, _ => false
  end.

Fixpoint join (sep : string) (parts : list string) : string :=
  match parts with
  | [] => ""
  | [p] => p
  | p :: rest => p +:+ sep +:+ join sep rest
  end.

(** [String(v)], and the conversion a template literal applies. *)
Fixpoint ToString (v : value) : string :=
  match v with
  | Undefined => "undefined"
  | Null => "null"
  | Bool b => if b then "true" else "false"
  | Num n => toString 10 n
  | Str s => s
  | Arr items =>
      join "," (map (fun x => match x with
                              | Undefined | Null => ""
                              | _ => ToString x
                              end) items)
  | Obj false _ => "[object Object]"
  | Obj true props =>
      (* [Error.prototype.toString]: the name, then the message *)
      let field :=
        fix field (key : string) (ps : list (string * value)) : option string :=
          match ps with
          | [] => None
          | (k, w) :: rest =>
              if String.eqb k key
              then match w with
                   | Undefined => None
                   | _ => Some (ToString w)
                   end
              else field key rest
          end in
      let name := default "Error" (field "name" props) in
      let msg := default "" (field "message" props) in
      if String.eqb name "" then msg
      else if String.eqb msg "" then name
      else name +:+ ": " +:+ msg
  end.

End Js.

(** ** [src/types/wallet.ts] *)

Module RequestArgs.
Record t : Type := mk { method : string; params : option (list Js.value) }.
End RequestArgs.

(** How an awaited request settles. *)
Inductive settled : Type :=
| Resolved (result : Js.value)
| Rejected (reason : Js.value).

Module WalletProvider.
(** [request] answers from the requests it has received before and the
    one it is handed now.  The event interface ([on], [removeListener])
    plays no part in the functions below. *)
Record t : Type := mk {
  request : list RequestArgs.t -> RequestArgs.t -> settled;
  isRabby : option bool
}.
End WalletProvider.

Module TransactionRequest.
Record t : Type := mk { to : string; data : string; value : option string }.
End TransactionRequest.

Module TransactionResult.
(** [hash] holds whatever the provider resolved the send with. *)
Record t : Type := mk { hash : Js.value; success : bool; error : option string }.
End TransactionResult.

Module NetworkInfo.
Record t : Type := mk {
  chainId : string;
  name : string;
  rpcUrl : option string;
  blockExplorer : option string;
  currencySymbol : string
}.
End NetworkInfo.

Module WalletState.
Record t : Type := mk {
  isConnected : bool;
  account : option Js.value;
  chainId : option string;
  provider : option WalletProvider.t
}.
End WalletState.

(** ** Asynchronous code as state passing

    The state is what the functions can change: the module-level provider
    cache and the requests issued so far.  A computation ends normally or
    by throwing; for an [async] function that is a fulfilled or a rejected
    promise. *)

Module Async.
Import Js.

Record World : Type := mkWorld {
  cachedProvider : option WalletProvider.t;
  requests : list RequestArgs.t
}.

Definition M (A : Type) : Type := World -> completion A * World.

Definition ret {A} (a : A) : M A := fun w => (Normal a, w).

Definition throw {A} (e : value) : M A := fun w => (Abrupt e, w).

Definition bind {A B} (m : M A) (k : A -> M B) : M B :=
  fun w =>
    match m w with
    | (Normal a, w') => k a w'
    | (Abrupt e, w') => (Abrupt e, w')
    end.

(** [try { body } catch (error) { handler }] *)
Definition tryCatch {A} (body : M A) (handler : value -> M A) : M A :=
  fun w =>
    match body w with
    | (Normal a, w') => (Normal a, w')
    | (Abrupt e, w') => handler e w'
    end.

(** An expression that may throw, evaluated in place. *)
Definition lift {A} (c : completion A) : M A := fun w => (c, w).

(** [await provider.request(args)] *)
Definition await_request (provider : WalletProvider.t) (args : RequestArgs.t) : M value :=
  fun w =>
    let w' := mkWorld (cachedProvider w) (requests w ++ [args]) in
    match WalletProvider.request provider (requests w) args with
    | Resolved v => (Normal v, w')
    | Rejected e => (Abrupt e, w')
    end.

Definition getCache : M (option WalletProvider.t) :=
  fun w => (Normal (cachedProvider w), w).

Definition setCache (p : option WalletProvider.t) : M unit :=
  fun w => (Normal tt, mkWorld p (requests w)).

End Async.

Notation "'let*' x ':=' m 'in' k" :=
  (Async.bind m (fun x => k))
  (at level 10, x pattern, m at level 100, k at level 200).

(** ** [src/utils/wallet.ts] *)

Module Wallet.
Import Number Js Async.

(** [NETWORKS] *)
Definition NETWORKS : gmap string NetworkInfo.t :=
  {[ "1" := NetworkInfo.mk "1" "Ethereum Mainnet" None
              (Some "https://etherscan.io") "ETH";
     "56" := NetworkInfo.mk "56" "BNB Smart Chain" None
               (Some "https://bscscan.com") "BNB";
     "8453" := NetworkInfo.mk "8453" "Base" None
                 (Some "https://basescan.org") "ETH" ]}.

(** [NETWORKS] is an object literal: a key that is not one of its own is
    looked up on [Object.prototype], whose members are the built-in
    methods and, under [__proto__], the prototype object itself. *)
Inductive registryRead : Type :=
| Registered (network : NetworkInfo.t)
| Inherited (functionName : option string)
| Unset.

Definition objectPrototype (key : string) : option (option string) :=
  if String.eqb key "constructor" then Some (Some "Object")
  else if String.eqb key "__proto__" then Some None
  else if existsb (String.eqb key)
            ["hasOwnProperty"; "isPrototypeOf"; "propertyIsEnumerable";
             "toString"; "toLocaleString"; "valueOf";
             "__defineGetter__"; "__defineSetter__";
             "__lookupGetter__"; "__lookupSetter__"]
       then Some (Some key)
  else None.

(** [NETWORKS[key]] *)
Definition readNETWORKS (key : string) : registryRead :=
  match NETWORKS !! key with
  | Some network => Registered network
  | None =>
      match objectPrototype key with
      | Some member => Inherited member
      | None => Unset
      end
  end.

(** The window of the page: [None] where [typeof window] is
    ["undefined"]. *)
Record Window : Type := mkWindow {
  rabby : option WalletProvider.t;
  ethereum : option WalletProvider.t
}.

Definition detectRabbyWallet (window : option Window) : M (option WalletProvider.t) :=
  let* cached := getCache in
  match cached with
  | Some p => ret (Some p)
  | None =>
      match window with
      | None => ret None
      | Some win =>
          match rabby win with
          | Some p => let* _ := setCache (Some p) in ret (Some p)
          | None =>
              match ethereum win with
              | Some p =>
                  match WalletProvider.isRabby p with
                  | Some true => let* _ := setCache (Some p) in ret (Some p)
                  | _ => ret None
                  end
              | None => ret None
              end
          end
      end
  end.

Definition clearWalletCache : M unit := setCache None.

Module Connection.
Record t : Type := mk {
  provider : WalletProvider.t;
  account : value;
  chainId : string
}.
End Connection.

Section Engine.

(** Whether [ToNumber] of a string is above zero.  The conversion reads
    a floating-point literal and is the engine's; the program meets it
    only where a provider answers [eth_accounts] with an object whose
    [length] is not a number. *)
Variable stringIsPositive : string -> bool.

(** [v > 0] *)
Definition greaterThanZero (v : value) : bool :=
  match v with
  | Undefined | Null => false
  | Bool b => b
  | Num NaN => false
  | Num (Infinity negative) => negb negative
  | Num (Int z) => 0 <? z
  | Str s => stringIsPositive s
  | Arr _ | Obj _ _ => stringIsPositive (ToString v)
  end.

Definition connectWallet (window : option Window) : M Connection.t :=
  let* provider := detectRabbyWallet window in
  match provider with
  | None =>
      throw (newError "Rabby wallet not detected. Please install Rabby wallet extension.")
  | Some provider =>
      tryCatch
        (let* currentAccounts :=
           await_request provider (RequestArgs.mk "eth_accounts" None) in
         let* accounts :=
           (if truthy currentAccounts
            then let* len := lift (getProp currentAccounts "length") in
                 if greaterThanZero len
                 then ret currentAccounts
                 else await_request provider (RequestArgs.mk "eth_requestAccounts" None)
            else await_request provider (RequestArgs.mk "eth_requestAccounts" None)) in
         let* none :=
           (if truthy accounts
            then let* len := lift (getProp accounts "length") in
                 ret (strictEquals len (Num (Int 0)))
            else ret true) in
         if none : bool
         then throw (newError "No accounts found. Please unlock your Rabby wallet.")
         else
           let* hexChainId :=
             await_request provider (RequestArgs.mk "eth_chainId" None) in
           let chainId := toString 10 (parseInt (ToString hexChainId) (Some 16)) in
           let* first := lift (getProp accounts "0") in
           ret (Connection.mk provider first chainId))
        (fun error =>
           if instanceofError error
           then let* message := lift (getProp error "message") in
                throw (newError ("Failed to connect to Rabby wallet: "
                                 +:+ ToString message))
           else throw (newError "Failed to connect to Rabby wallet: Unknown error"))
  end.

End Engine.

(** The message the [catch] of [sendTransaction] keeps.  An [Error]
    instance passes the first test, so the second branch is not reached;
    its message is a string by its type. *)
Definition caughtMessage (error : value) : M string :=
  if truthy error && String.eqb (typeof error) "object" && hasProp "message" error
  then let* message := lift (getProp error "message") in ret (ToString message)
  else if instanceofError error
  then let* message := lift (getProp error "message") in ret (ToString message)
  else ret "Unknown error".

(** [txParams]: the payload of [eth_sendTransaction]; [value] is spread
    in only when it is a non-empty string. *)
Definition txParams (from : value) (transaction : TransactionRequest.t) : value :=
  Obj false
    ([("from", from);
      ("to", Str (TransactionRequest.to transaction));
      ("data", Str (TransactionRequest.data transaction))]
     ++ match TransactionRequest.value transaction with
        | Some v => if truthy (Str v) then [("value", Str v)] else []
        | None => []
        end).

Definition sendTransaction (provider : WalletProvider.t)
    (transaction : TransactionRequest.t) : M TransactionResult.t :=
  tryCatch
    (let* accounts := await_request provider (RequestArgs.mk "eth_accounts" None) in
     let* none :=
       (if truthy accounts
        then let* len := lift (getProp accounts "length") in
             ret (strictEquals len (Num (Int 0)))
        else ret true) in
     if none : bool
     then throw (newError "No accounts connected")
     else
       let* from := lift (getProp accounts "0") in
       let* txHash :=
         await_request provider
           (RequestArgs.mk "eth_sendTransaction" (Some [txParams from transaction])) in
       ret (TransactionResult.mk txHash true None))
    (fun error =>
       let* errorMessage := caughtMessage error in
       ret (TransactionResult.mk (Str "") false (Some errorMessage))).

(** [`0x${parseInt(chainId).toString(16)}`] *)
Definition hexChainId (chainId : string) : string :=
  "0x" +:+ toString 16 (parseInt chainId None).

Definition ofOption (o : option string) : value :=
  match o with
  | Some s => Str s
  | None => Undefined
  end.

(** The parameter object of [wallet_addEthereumChain], from the fields
    read off [network]. *)
Definition addChainParams (chainId : string)
    (name currencySymbol rpcUrl blockExplorer : value) : value :=
  Obj false
    [("chainId", Str (hexChainId chainId));
     ("chainName", name);
     ("nativeCurrency",
       Obj false [("name", currencySymbol);
                  ("symbol", currencySymbol);
                  ("decimals", Num (Int 18))]);
     ("rpcUrls", Arr [rpcUrl]);
     ("blockExplorerUrls",
       if truthy blockExplorer then Arr [blockExplorer] else Arr [])].

Definition switchRequest (chainId : string) : RequestArgs.t :=
  RequestArgs.mk "wallet_switchEthereumChain"
    (Some [Obj false [("chainId", Str (hexChainId chainId))]]).

Definition addRequest (chainId : string) (network : NetworkInfo.t) : RequestArgs.t :=
  RequestArgs.mk "wallet_addEthereumChain"
    (Some [addChainParams chainId
             (Str (NetworkInfo.name network))
             (Str (NetworkInfo.currencySymbol network))
             (ofOption (NetworkInfo.rpcUrl network))
             (ofOption (NetworkInfo.blockExplorer network))]).

(** The same request when [network] is a member of [Object.prototype]:
    a built-in method has a [name] and none of the other fields. *)
Definition addRequestInherited (chainId : string) (functionName : option string)
    : RequestArgs.t :=
  RequestArgs.mk "wallet_addEthereumChain"
    (Some [addChainParams chainId (ofOption functionName)
             Undefined Undefined Undefined]).

Definition switchNetwork (provider : WalletProvider.t) (chainId : string) : M unit :=
  tryCatch
    (tryCatch
       (let* _ := await_request provider (switchRequest chainId) in ret tt)
       (fun error =>
          let* code := lift (getProp error "code") in
          if strictEquals code (Num (Int 4902))
          then
            match readNETWORKS chainId with
            | Registered network =>
                let* _ := await_request provider (addRequest chainId network) in
                ret tt
            | Inherited member =>
                let* _ := await_request provider (addRequestInherited chainId member) in
                ret tt
            | Unset => ret tt
            end
          else throw error))
    (fun error => throw error).

Definition switchNetworkAndUpdateState (provider : WalletProvider.t)
    (chainId : string) (currentState : WalletState.t) : M WalletState.t :=
  tryCatch
    (let* _ := switchNetwork provider chainId in
     ret (WalletState.mk (WalletState.isConnected currentState)
            (WalletState.account currentState)
            (Some chainId)
            (WalletState.provider currentState)))
    (fun error => throw error).

(** [chainId] is [None] for [null]. *)
Definition getCurrencySymbol (chainId : option string) : string :=
  match chainId with
  | None => "ETH"
  | Some chainId =>
      if negb (truthy (Str chainId)) then "ETH"
      else
        let decimalChainId :=
          if String.prefix "0x" chainId
          then toString 10 (parseInt chainId (Some 16))
          else chainId in
        match readNETWORKS decimalChainId with
        | Registered network =>
            if truthy (Str (NetworkInfo.currencySymbol network))
            then NetworkInfo.currencySymbol network
            else "ETH"
        | Inherited _ | Unset => "ETH"
        end
  end.

Definition isChainSupported (chainId : option string) : bool :=
  match chainId with
  | None => false
  | Some chainId =>
      if negb (truthy (Str chainId)) then false
      else
        let decimalChainId :=
          if String.prefix "0x" chainId
          then toString 10 (parseInt chainId (Some 16))
          else chainId in
        match readNETWORKS decimalChainId with
        | Registered _ | Inherited _ => true
        | Unset => false
        end
  end.

End Wallet.

(** ** [src/utils/eip7702.ts] *)

Module Eip7702.
Import Js Async.

Definition checkAddressHasCode (provider : WalletProvider.t) (address : string) : M bool :=
  tryCatch
    (let* code :=
       await_request provider
         (RequestArgs.mk "eth_getCode" (Some [Str address; Str "latest"])) in
     ret (negb (strictEquals code (Str "0x")) && negb (strictEquals code (Str "0x0"))))
    (fun _ => ret false).

Definition detectEIP7702User (provider : WalletProvider.t) (userAddress : string) : M bool :=
  tryCatch
    (let* hasCode := checkAddressHasCode provider userAddress in ret hasCode)
    (fun _ => ret false).

End Eip7702.

(** ** The unit conversions of the [ethers] package

    [TransactionForm.tsx] imports [parseEther] and [formatEther] from
    [ethers]; the package is not part of the sources. *)

Module Ethers.
Import Number Regex.

Definition decimals : nat := 18.

(** The part before the first point and, when there is a point, the part
    after it. *)
Fixpoint splitPoint (s : string) : string * option string :=
  match s with
  | EmptyString => (EmptyString, None)
  | String c s' =>
      if Ascii.eqb c "."
      then (EmptyString, Some s')
      else let '(whole, rest) := splitPoint s' in (String c whole, rest)
  end.

Fixpoint zeros (n : nat) : string :=
  match n with
  | O => EmptyString
  | S k => String "0" (zeros k)
  end.

Fixpoint firstChars (n : nat) (s : string) : string :=
  match n, s with
  | S k, String c s' => String c (firstChars k s')
  | _, _ => EmptyString
  end.

Fixpoint dropChars (n : nat) (s : string) : string :=
  match n, s with
  | S k, String _ s' => dropChars k s'
  | _, _ => s
  end.

(** Modelled from the spec: [toBaseUnits], the [parseEther] of the
    [ethers] package, which is not among the sources.  It parses a
    decimal string into the equivalent integer amount scaled by [10^18],
    and fails ([None]) when the input is not a valid non-negative decimal
    numeral or is not representable within 18 fractional digits. *)
Definition parseEther (ether : string) : option Z :=
  let '(whole, rest) := splitPoint ether in
  let fraction := default EmptyString rest in
  if allChars (isDigitOf 10) whole && allChars (isDigitOf 10) fraction
     && negb (Nat.eqb (String.length whole + String.length fraction) 0)
     && allChars (Ascii.eqb "0") (dropChars decimals fraction)
  then
    let kept := firstChars decimals fraction in
    let scaled := kept +:+ zeros (decimals - String.length kept) in
    Some (digitsValue 10 whole * 10 ^ Z.of_nat decimals + digitsValue 10 scaled)
  else None.

(** The fraction digits shown: trailing zeros trimmed, one digit kept. *)
Definition trimFraction (fraction : string) : string :=
  match dropTrailingZeros fraction with
  | EmptyString => "0"
  | t => t
  end.

(** The last [k] decimal digits of [m], leading zeros included. *)
Fixpoint fixedDigits (k : nat) (m : Z) : string :=
  match k with
  | O => EmptyString
  | S k' => fixedDigits k' (m / 10) +:+ String (digitChar (m mod 10)) EmptyString
  end.

(** The 18 digits of a fraction below [10^18]. *)
Definition fractionDigits (m : Z) : string := fixedDigits decimals m.

(** Modelled from the spec: [fromBaseUnits], the [formatEther] of the
    [ethers] package, which is not among the sources.  It formats a
    base-unit integer string as a decimal string with up to 18 fractional
    digits, trailing zeros trimmed, and fails ([None]) when the input is
    not such an integer string. *)
Definition formatEther (wei : string) : option string :=
  if negb (String.eqb wei "") && allChars (isDigitOf 10) wei
  then
    let n := digitsValue 10 wei in
    let unit := 10 ^ Z.of_nat decimals in
    Some (integerToString 10 (n / unit) +:+ "."
          +:+ trimFraction (fractionDigits (n mod unit)))
  else None.

End Ethers.

(** ** [src/components/TransactionForm.tsx]: the value of the form *)

Module TransactionForm.
Import Number Js Validation Ethers.

Inductive ValueUnit : Type := wei | eth.

(** The state the value handlers read and write. *)
Record State : Type := mkState {
  valueUnit : ValueUnit;
  formData : TransactionRequest.t;
  errors : gmap string string;
  ethValue : string;
  currentCurrencySymbol : string
}.

(** [keyof TransactionRequest] *)
Inductive Field : Type := to | data | value.

Definition fieldName (field : Field) : string :=
  match field with
  | to => "to"
  | data => "data"
  | value => "value"
  end.

(** [{ ...prev, [field]: v }] *)
Definition setField (field : Field) (v : string) (prev : TransactionRequest.t)
    : TransactionRequest.t :=
  match field with
  | to => TransactionRequest.mk v (TransactionRequest.data prev)
            (TransactionRequest.value prev)
  | data => TransactionRequest.mk (TransactionRequest.to prev) v
              (TransactionRequest.value prev)
  | value => TransactionRequest.mk (TransactionRequest.to prev)
               (TransactionRequest.data prev) (Some v)
  end.

(** A string that is present and not empty. *)
Definition nonEmpty (o : option string) : bool :=
  match o with
  | Some s => truthy (Str s)
  | None => false
  end.

(** [bigint.toString()] of a conversion result. *)
Definition bigintToString (n : Z) : string :=
  (if n <? 0 then "-" else "") +:+ integerToString 10 (Z.abs n).

Definition weiToEth (wei : string) : string :=
  if negb (truthy (Str wei)) then ""
  else match formatEther wei with
       | Some s => s
       | None => ""
       end.

Definition handleInputChange (field : Field) (v : string) (st : State) : State :=
  mkState (valueUnit st)
    (setField field v (formData st))
    (if nonEmpty (errors st !! fieldName field)
     then <[fieldName field := ""]> (errors st)
     else errors st)
    (ethValue st)
    (currentCurrencySymbol st).

Definition setEthValue (v : string) (st : State) : State :=
  mkState (valueUnit st) (formData st) (errors st) v (currentCurrencySymbol st).

Definition setErrors (update : gmap string string -> gmap string string)
    (st : State) : State :=
  mkState (valueUnit st) (formData st) (update (errors st)) (ethValue st)
    (currentCurrencySymbol st).

Definition handleValueChange (inputValue : string) (st : State) : State :=
  match valueUnit st with
  | eth =>
      let st1 := setEthValue inputValue st in
      if truthy (Str inputValue) && negb (String.eqb inputValue ".")
      then match parseEther inputValue with
           | Some weiValue => handleInputChange value (bigintToString weiValue) st1
           | None => handleInputChange value "" st1
           end
      else handleInputChange value "" st1
  | wei =>
      handleInputChange value inputValue (setEthValue "" st)
  end.

Definition handleUnitChange (newUnit : ValueUnit) (st : State) : State :=
  mkState newUnit (formData st) (errors st)
    (match newUnit with
     | eth => match TransactionRequest.value (formData st) with
              | Some v => if truthy (Str v) then weiToEth v else ""
              | None => ""
              end
     | wei => ""
     end)
    (currentCurrencySymbol st).

Section Engine.

(** [isNaN(parseFloat(s)) || parseFloat(s) < 0]: the test of
    [validateForm] on the amount typed in the display unit.
    [parseFloat] reads a floating-point literal and is the engine's. *)
Variable parseFloatRejects : string -> bool.

(** [newErrors], as [validateForm] fills it. *)
Definition newErrors (st : State) : gmap string string :=
  let e0 : gmap string string := ∅ in
  let e1 :=
    if negb (truthy (Str (TransactionRequest.to (formData st))))
    then <["to" := "Contract address is required"]> e0
    else if negb (isValidAddress (TransactionRequest.to (formData st)))
    then <["to" := "Invalid Ethereum address format"]> e0
    else e0 in
  let e2 :=
    if negb (truthy (Str (TransactionRequest.data (formData st))))
    then <["data" := "Calldata is required"]> e1
    else if negb (isValidCalldata (TransactionRequest.data (formData st)))
    then <["data" :=
             "Invalid calldata format (must start with 0x and contain hex characters)"]> e1
    else e1 in
  match TransactionRequest.value (formData st) with
  | Some v =>
      if truthy (Str v)
      then match valueUnit st with
           | eth =>
               if parseFloatRejects (ethValue st)
               then <["value" := "Value must be a valid positive number"]> e2
               else e2
           | wei =>
               match formatEther v with
               | Some _ => e2
               | None => <["value" := "Invalid wei value"]> e2
               end
           end
      else e2
  | None => e2
  end.

(** [validateForm]: the errors are stored, and the form is valid when
    there is none. *)
Definition validateForm (st : State) : bool * State :=
  let errs := newErrors st in
  (bool_decide (size errs = 0%nat), setErrors (fun _ => errs) st).

(** [handleSubmit]: the state after it, and the argument of [onSubmit]
    when it is called. *)
Definition handleSubmit (st : State) : State * option TransactionRequest.t :=
  let '(valid, st1) := validateForm st in
  if valid
  then
    let converted :=
      match valueUnit st, truthy (Str (ethValue st)) with
      | eth, true =>
          match parseEther (ethValue st) with
          | Some n => Some (Some (bigintToString n))
          | None => None
          end
      | _, _ => Some (TransactionRequest.value (formData st))
      end in
    match converted with
    | None =>
        (setErrors
           (fun prev =>
              <["value" := "Invalid " +:+ currentCurrencySymbol st +:+ " value"]> prev)
           st1,
         None)
    | Some finalValue =>
        let cleanTransaction :=
          TransactionRequest.mk
            (TransactionRequest.to (formData st))
            (TransactionRequest.data (formData st))
            (match finalValue with
             | Some v =>
                 if truthy (Str v)
                 then Some ("0x" +:+ toString 16 (parseInt v None))
                 else None
             | None => None
             end) in
        (st1, Some cleanTransaction)
    end
  else (st1, None).

End Engine.

End TransactionForm.

(** ** Vocabulary of the specification *)

Module Spec.
Import Number Js Async Wallet.

(** The shape the pattern describes: the prefix [0x] and then exactly
    forty hexadecimal characters. *)
Definition addressShape (s : string) : Prop :=
  exists h, s = String.append "0x" h /\ String.length h = 40%nat /\
            Regex.allChars Validation.isHexChar h = true.

Definition ethAccounts : RequestArgs.t := RequestArgs.mk "eth_accounts" None.
Definition ethRequestAccounts : RequestArgs.t := RequestArgs.mk "eth_requestAccounts" None.
Definition ethChainId : RequestArgs.t := RequestArgs.mk "eth_chainId" None.

Definition ethSendTransaction (from : value) (transaction : TransactionRequest.t)
    : RequestArgs.t :=
  RequestArgs.mk "eth_sendTransaction" (Some [txParams from transaction]).

Definition ethGetCode (address : string) : RequestArgs.t :=
  RequestArgs.mk "eth_getCode" (Some [Str address; Str "latest"]).

(** The failure result [{hash: "", success: false, error}]. *)
Definition failure (message : string) : TransactionResult.t :=
  TransactionResult.mk (Str "") false (Some message).

(** The message a rejection carries, when it is an object with a string
    under [message]. *)
Definition suppliedMessage (e : value) : option string :=
  match e with
  | Obj _ props =>
      match assoc "message" props with
      | Some (Str m) => Some m
      | _ => None
      end
  | _ => None
  end.

(** No account to act for: the answer is absent or an empty list. *)
Definition noAccounts (accounts : value) : Prop :=
  accounts = Undefined \/ accounts = Null \/ accounts = Arr [].

(** The state after [more] further requests. *)
Definition after (w : World) (more : list RequestArgs.t) : World :=
  mkWorld (cachedProvider w) (requests w ++ more).

(** The test [!accounts || accounts.length === 0]. *)
Definition accountsMissing (accounts : value) : bool :=
  negb (truthy accounts) ||
  match getProp accounts "length" with
  | Normal len => strictEquals len (Num (Int 0))
  | Abrupt _ => false
  end.

Definition firstOf (accounts : value) : value :=
  match getProp accounts "0" with
  | Normal x => x
  | Abrupt _ => Undefined
  end.

Definition caught (e : value) : M TransactionResult.t :=
  let* errorMessage := caughtMessage e in ret (failure errorMessage).

(** A provider with one account that declines to sign: the send is
    rejected with the error of a user denial. *)
Definition userDenial : value :=
  Obj false [("code", Num (Int 4001)); ("message", Str "User rejected the request.")].

Definition decliningProvider : WalletProvider.t :=
  WalletProvider.mk
    (fun _ args =>
       if String.eqb (RequestArgs.method args) "eth_accounts"
       then Resolved (Arr [Str "0x6B175474E89094C44Da98b954EedeAC495271d0F"])
       else if String.eqb (RequestArgs.method args) "eth_sendTransaction"
       then Rejected userDenial
       else Resolved Null)
    (Some true).

Definition sampleTransaction : TransactionRequest.t :=
  TransactionRequest.mk "0x6B175474E89094C44Da98b954EedeAC495271d0F" "0xa9059cbb"
    (Some "0xde0b6b3a7640000").

Definition freshWorld : World := mkWorld None [].

(** A provider that does not know the chain: the first request it
    receives is rejected with code 4902, every later one resolves. *)
Definition unknownChain : value :=
  Obj false [("code", Num (Int 4902)); ("message", Str "Unrecognized chain ID")].

Definition unknownChainProvider : WalletProvider.t :=
  WalletProvider.mk
    (fun earlier _ =>
       match earlier with
       | [] => Rejected unknownChain
       | _ => Resolved Null
       end)
    (Some true).

(** The add-chain request is followed, at some point, by another switch
    request. *)
Definition retriesAfterAdd (provider : WalletProvider.t) (chainId : string)
    (w : World) : Prop :=
  exists network before between rest,
    requests (snd (switchNetwork provider chainId w))
    = before ++ addRequest chainId network
             :: between ++ switchRequest chainId :: rest.

(** [normalizeChainId]: an identifier that begins with the hexadecimal
    prefix is parsed in base 16 and rendered in decimal; any other is
    returned as it is. *)
Definition normalizeChainId (id : string) : string :=
  if String.prefix "0x" id
  then toString 10 (parseInt id (Some 16))
  else id.

(** A non-empty string of hexadecimal digits. *)
Definition hexDigits (ds : string) : Prop :=
  ds <> EmptyString /\ Regex.allChars (isDigitOf 16) ds = true.

(** What the [catch] of [connectWallet] throws for a caught [error]. *)
Definition connectFailure (error : value) : value :=
  if instanceofError error
  then match getProp error "message" with
       | Normal message =>
           newError ("Failed to connect to Rabby wallet: " +:+ ToString message)
       | Abrupt t => t
       end
  else newError "Failed to connect to Rabby wallet: Unknown error".

(** The last step of a connection: with the [earlier] requests done, the
    chain identifier is asked for and the connection is returned. *)
Definition connectsWith (provider : WalletProvider.t) (account : value)
    (w : World) (earlier : list RequestArgs.t) : completion Connection.t * World :=
  (match WalletProvider.request provider (requests w ++ earlier) ethChainId with
   | Resolved hexChainId =>
       Normal (Connection.mk provider account
                 (toString 10 (parseInt (ToString hexChainId) (Some 16))))
   | Rejected e => Abrupt (connectFailure e)
   end,
   after w (earlier ++ [ethChainId])).

(** A page where the wallet injected itself as [window.rabby]. *)
Definition rabbyWindow (provider : WalletProvider.t) : option Window :=
  Some (mkWindow (Some provider) None).

(** A provider whose user has not authorised the page yet and does so on
    request; it is on Base. *)
Definition authorisingProvider : WalletProvider.t :=
  WalletProvider.mk
    (fun _ args =>
       if String.eqb (RequestArgs.method args) "eth_accounts"
       then Resolved (Arr [])
       else if String.eqb (RequestArgs.method args) "eth_requestAccounts"
       then Resolved (Arr [Str "0x6B175474E89094C44Da98b954EedeAC495271d0F"])
       else if String.eqb (RequestArgs.method args) "eth_chainId"
       then Resolved (Str "0x2105")
       else Resolved Null)
    None.

(** A non-negative integer that a double holds exactly: a mantissa of at
    most 53 bits times a power of two, within the range of the format. *)
Definition representable (n : Z) : Prop :=
  exists m e, 0 <= m < 2 ^ 53 /\ 0 <= e /\ n = m * 2 ^ e /\ n < 2 ^ 1024.

(** A non-empty string of decimal digits. *)
Definition decimalDigits (d : string) : Prop :=
  d <> EmptyString /\ Regex.allChars (isDigitOf 10) d = true.

(** The integer a [0x]-prefixed hexadecimal quantity denotes. *)
Definition quantity (s : string) : option Z :=
  match s with
  | String "0" (String "x" ds) =>
      if negb (String.eqb ds "") && Regex.allChars (isDigitOf 16) ds
      then Some (digitsValue 16 ds)
      else None
  | _ => None
  end.

(** The base-unit amount the form holds when it is submitted: the stored
    value in the base unit, the conversion of the typed amount in the
    display unit. *)
Definition enteredValue (st : TransactionForm.State) : option string :=
  match TransactionForm.valueUnit st, truthy (Str (TransactionForm.ethValue st)) with
  | TransactionForm.eth, true =>
      option_map TransactionForm.bigintToString
        (Ethers.parseEther (TransactionForm.ethValue st))
  | _, _ => TransactionRequest.value (TransactionForm.formData st)
  end.

(** The [value] field [handleSubmit] builds from a base-unit amount. *)
Definition submittedValue (finalValue : string) : string :=
  "0x" +:+ toString 16 (parseInt finalValue None).

(** A form filled in the base unit. *)
Definition weiForm (amount : string) : TransactionForm.State :=
  TransactionForm.mkState TransactionForm.wei
    (TransactionRequest.mk "0x6B175474E89094C44Da98b954EedeAC495271d0F"
       "0xa9059cbb" (Some amount))
    ∅ "" "ETH".

(** A non-negative decimal amount with at most 18 fractional digits:
    the digits before and after the point. *)
Definition validAmount (whole fraction : string) : Prop :=
  Regex.allChars (isDigitOf 10) whole = true /\
  Regex.allChars (isDigitOf 10) fraction = true /\
  (0 < String.length whole + String.length fraction)%nat /\
  (String.length fraction <= 18)%nat.

(** The ways of writing it: with a point, or without one when there is
    no fractional digit. *)
Definition amountString (whole fraction x : string) : Prop :=
  x = whole +:+ "." +:+ fraction \/ (fraction = EmptyString /\ x = whole).

(** Two amounts are the same number: the digits of each, scaled by the
    number of fractional digits of the other, agree. *)
Definition sameAmount (whole1 fraction1 whole2 fraction2 : string) : Prop :=
  digitsValue 10 (whole1 +:+ fraction1) * 10 ^ Z.of_nat (String.length fraction2)
  = digitsValue 10 (whole2 +:+ fraction2) * 10 ^ Z.of_nat (String.length fraction1).

(** What [getCurrencySymbol] and [isChainSupported] make of the value
    read from the registry. *)
Definition symbolOf (r : registryRead) : string :=
  match r with
  | Registered network =>
      if truthy (Str (NetworkInfo.currencySymbol network))
      then NetworkInfo.currencySymbol network
      else "ETH"
  | Inherited _ | Unset => "ETH"
  end.

Definition definedRead (r : registryRead) : bool :=
  match r with
  | Registered _ | Inherited _ => true
  | Unset => false
  end.

End Spec.

(** ** [src/utils/wallet.ts]: display and discovery *)

Module WalletUtils.
Import Number Js Async Wallet Ethers.

(** [s.slice(start, end)]; [end_] is [None] when the argument is left
    out.  A negative index counts from the end of the string. *)
Definition slice (s : string) (start : Z) (end_ : option Z) : string :=
  let len := Z.of_nat (String.length s) in
  let from := if start <? 0 then Z.max (len + start) 0 else Z.min start len in
  let to :=
    match end_ with
    | None => len
    | Some e => if e <? 0 then Z.max (len + e) 0 else Z.min e len
    end in
  firstChars (Z.to_nat (to - from)) (dropChars (Z.to_nat from) s).

Definition formatAddress (address : string) : string :=
  if negb (truthy (Str address)) then ""
  else slice address 0 (Some 6) +:+ "..." +:+ slice address (-4) None.

Module AvailableWallet.
Record t : Type := mk { name : string; provider : WalletProvider.t }.
End AvailableWallet.

(** [getAvailableWallets] reads [window] inside its [try]: where there is
    no window the read throws and the list stays empty. *)
Definition getAvailableWallets (window : option Window) : list AvailableWallet.t :=
  match window with
  | None => []
  | Some win =>
      match rabby win with
      | Some p => [AvailableWallet.mk "Rabby" p]
      | None => []
      end
      ++ match ethereum win with
         | Some p =>
             match WalletProvider.isRabby p with
             | Some true => [AvailableWallet.mk "Rabby" p]
             | _ => []
             end
         | None => []
         end
  end.

End WalletUtils.

(** ** The header component (the second part of [src/utils/wallet.ts]) *)

Module Header.
Import Number Js Async Wallet.

(** What the header keeps for itself. *)
Record State : Type := mkState {
  showChainSelector : bool;
  isConnecting : bool
}.

(** [handleChainChanged]: the argument it hands to [onChainSelect]. *)
Definition handleChainChanged (chainId : value) : string :=
  toString 10 (parseInt (ToString chainId) (Some 16)).

(** The identifiers the header hands to [onChainSelect], and through it
    to [switchNetwork]: the [chainId] of a network option, which is a key
    of [NETWORKS], or what [handleChainChanged] makes of the argument of
    a [chainChanged] event. *)
Inductive selects : string -> Prop :=
| selects_option (chainId : string) (network : NetworkInfo.t) :
    NETWORKS !! chainId = Some network -> selects chainId
| selects_changed (event : value) : selects (handleChainChanged event).

(** [handleAccountsChanged]: the state it hands to [onWalletConnect]. *)
Definition handleAccountsChanged (walletState : WalletState.t)
    (accounts : list value) : WalletState.t :=
  match accounts with
  | [] =>
      WalletState.mk false None
        (WalletState.chainId walletState) (WalletState.provider walletState)
  | first :: _ =>
      WalletState.mk (WalletState.isConnected walletState) (Some first)
        (WalletState.chainId walletState) (WalletState.provider walletState)
  end.

(** [handleDisconnect]: the state it hands to [onWalletConnect]. *)
Definition handleDisconnect : WalletState.t :=
  WalletState.mk false None None None.

Section Engine.
Variable stringIsPositive : string -> bool.

(** [handleConnect]: the header's state after it, and the state handed
    to [onWalletConnect] when the connection succeeded. *)
Definition handleConnect (window : option Window) (st : State)
    : M (State * option WalletState.t) :=
  tryCatch
    (let* connection := connectWallet stringIsPositive window in
     let newState :=
       WalletState.mk true
         (Some (Connection.account connection))
         (Some (Connection.chainId connection))
         (Some (Connection.provider connection)) in
     ret (mkState (showChainSelector st) false, Some newState))
    (fun _ => ret (mkState (showChainSelector st) false, None)).

End Engine.

Definition getNetworkName (chainId : option string) : string :=
  match chainId with
  | None => "Unknown"
  | Some chainId =>
      if negb (truthy (Str chainId)) then "Unknown"
      else
        let decimalChainId :=
          if String.prefix "0x" chainId
          then toString 10 (parseInt chainId (Some 16))
          else chainId in
        let fallback := "Chain ID: " +:+ decimalChainId in
        match readNETWORKS decimalChainId with
        | Registered network =>
            if truthy (Str (NetworkInfo.name network))
            then NetworkInfo.name network
            else fallback
        | Inherited (Some functionName) =>
            if truthy (Str functionName) then functionName else fallback
        | Inherited None | Unset => fallback
        end
  end.

(** What [getNetworkIcon] renders: the link emoji, one of the three
    network images, or the grey placeholder with a question mark. *)
Inductive NetworkIcon : Type :=
| LinkEmoji
| EthereumIcon
| BnbIcon
| BaseIcon
| Placeholder.

Definition getNetworkIcon (chainId : option string) : NetworkIcon :=
  match chainId with
  | None => LinkEmoji
  | Some chainId =>
      if negb (truthy (Str chainId)) then LinkEmoji
      else
        let decimalChainId :=
          if String.prefix "0x" chainId
          then toString 10 (parseInt chainId (Some 16))
          else chainId in
        match readNETWORKS decimalChainId with
        | Unset => LinkEmoji
        | Registered _ | Inherited _ =>
            if String.eqb decimalChainId "1" then EthereumIcon
            else if String.eqb decimalChainId "56" then BnbIcon
            else if String.eqb decimalChainId "8453" then BaseIcon
            else Placeholder
        end
  end.

End Header.

(** ** The application component ([src/unnamed/part_001]) *)

Module App.
Import Number Js Async Wallet.

Record State : Type := mkState {
  walletState : WalletState.t;
  isSubmitting : bool;
  error : option string;
  showNotification : bool;
  isUnsupportedChain : bool
}.

Definition initialState : State :=
  mkState (WalletState.mk false None None None) false None false false.

Definition handleWalletConnect (state : WalletState.t) (st : State) : State :=
  mkState state (isSubmitting st) None false
    (match WalletState.isConnected state, WalletState.chainId state with
     | true, Some chainId =>
         if truthy (Str chainId)
         then negb (isChainSupported (Some chainId))
         else false
     | _, _ => false
     end).

Definition handleTransactionSubmit (transaction : TransactionRequest.t) (st : State)
    : M State :=
  match WalletState.provider (walletState st) with
  | None =>
      ret (mkState (walletState st) (isSubmitting st) (Some "No wallet connected")
             true (isUnsupportedChain st))
  | Some provider =>
      tryCatch
        (let* result := sendTransaction provider transaction in
         if negb (TransactionResult.success result)
         then
           let shown :=
             match TransactionResult.error result with
             | Some message =>
                 if truthy (Str message) then message else "Transaction failed"
             | None => "Transaction failed"
             end in
           ret (mkState (walletState st) false (Some shown) true
                  (isUnsupportedChain st))
         else
           ret (mkState (walletState st) false None false (isUnsupportedChain st)))
        (fun error =>
           let* errorMessage :=
             (if instanceofError error
              then let* message := lift (getProp error "message") in
                   ret (ToString message)
              else ret "Unknown error occurred") in
           ret (mkState (walletState st) false (Some errorMessage) true
                  (isUnsupportedChain st)))
  end.

Definition handleChainSelect (chainId : string) (st : State) : M State :=
  match WalletState.provider (walletState st), WalletState.isConnected (walletState st) with
  | Some provider, true =>
      tryCatch
        (let* updatedState :=
           switchNetworkAndUpdateState provider chainId (walletState st) in
         ret (mkState updatedState (isSubmitting st) (error st) (showNotification st)
                (negb (isChainSupported (Some chainId)))))
        (fun _ => ret st)
  | _, _ =>
      ret (mkState
             (WalletState.mk
                (WalletState.isConnected (walletState st))
                (WalletState.account (walletState st))
                (Some chainId)
                (WalletState.provider (walletState st)))
             (isSubmitting st) (error st) (showNotification st)
             (negb (isChainSupported (Some chainId))))
  end.

Definition handleNotificationClose (st : State) : State :=
  mkState (walletState st) (isSubmitting st) None false (isUnsupportedChain st).

Section Engine.
Variable stringIsPositive : string -> bool.

Definition autoConnect (window : option Window) (st : State) : M State :=
  tryCatch
    (let* connection := connectWallet stringIsPositive window in
     let newState :=
       WalletState.mk true
         (Some (Connection.account connection))
         (Some (Connection.chainId connection))
         (Some (Connection.provider connection)) in
     ret (mkState newState (isSubmitting st) (error st) (showNotification st)
            (negb (isChainSupported (Some (Connection.chainId connection))))))
    (fun _ => ret st).

End Engine.

End App.

(** ** The notification component ([src/unnamed/part_002]) *)

Module Notification.

(** The component's own state: [timeLeft], and whether the interval of
    the first effect is running.  The component stays mounted while the
    notification is hidden (it renders [null]), so the state is kept from
    one showing to the next. *)
Record State : Type := mkState {
  timeLeft : Z;
  timer : bool
}.

(** [useState(10)], before the first showing. *)
Definition initialState : State := mkState 10 false.

(** The update the interval applies to [timeLeft] every second. *)
Definition tick (prev : Z) : Z :=
  if prev <=? 1 then 0 else prev - 1.

(** The condition under which the second effect calls [onClose], on the
    [timeLeft] of the render the effect belongs to. *)
Definition closes (timeLeft : Z) (isVisible : bool) : bool :=
  (timeLeft =? 0) && isVisible.

(** The commit in which [isVisible] turns true, with [message]: both
    effects run, on the [timeLeft] of that render.  The first sets
    [timeLeft] to 10 and starts the interval when the message is not
    empty; the second calls [onClose] when the rendered [timeLeft] is 0.
    The update takes hold in the next render, where the second effect
    runs again if [timeLeft] has changed.  The result is the state
    afterwards and whether [onClose] was called. *)
Definition show (message : string) (st : State) : State * bool :=
  let rendered := timeLeft st in
  let starts := Js.truthy (Js.Str message) in
  let next := if starts then 10 else rendered in
  (mkState next starts,
   closes rendered true || (negb (next =? rendered) && closes next true)).

(** The commit in which [isVisible] turns false: the cleanup of the first
    effect clears the interval, the second effect finds [isVisible]
    false, and [timeLeft] stays as it is. *)
Definition hide (st : State) : State := mkState (timeLeft st) false.

(** The interval firing once while the notification is shown: the state
    afterwards and whether the second effect, which runs again when
    [timeLeft] has changed, called [onClose]. *)
Definition interval (st : State) : State * bool :=
  if timer st
  then
    let next := tick (timeLeft st) in
    (mkState next true, negb (next =? timeLeft st) && closes next true)
  else (st, false).

(** The state after the interval has fired [n] times. *)
Definition afterTicks (n : nat) (st : State) : State :=
  Nat.iter n (fun s => fst (interval s)) st.

End Notification.

(** ** [src/components/TransactionForm.tsx]: the effects *)

Module FormEffects.
Import Number Js Async Wallet TransactionForm.

Definition setCurrentCurrencySymbol (symbol : string) (st : State) : State :=
  mkState (valueUnit st) (formData st) (errors st) (ethValue st) symbol.

(** [updateCurrencySymbol], for the [provider] the form was given. *)
Definition updateCurrencySymbol (provider : option WalletProvider.t) (st : State)
    : M State :=
  match provider with
  | None => ret st
  | Some provider =>
      tryCatch
        (let* chainId := await_request provider (RequestArgs.mk "eth_chainId" None) in
         let decimalChainId := toString 10 (parseInt (ToString chainId) (Some 16)) in
         let symbol := getCurrencySymbol (Some decimalChainId) in
         ret (setCurrentCurrencySymbol symbol st))
        (fun _ => ret (setCurrentCurrencySymbol "ETH" st))
  end.

(** The [chainChanged] listener of the form. *)
Definition handleChainChanged (chainId : Js.value) (st : State) : State :=
  let decimalChainId := toString 10 (parseInt (ToString chainId) (Some 16)) in
  setCurrentCurrencySymbol (getCurrencySymbol (Some decimalChainId)) st.

Definition setTo (v : string) (st : State) : State :=
  mkState (valueUnit st) (setField to v (formData st)) (errors st) (ethValue st)
    (currentCurrencySymbol st).

(** The effect that fills in the user's own address for an EIP-7702
    user. *)
Definition autoFillEffect (isEIP7702User : bool) (userAddress : option string)
    (st : State) : State :=
  match userAddress with
  | Some address =>
      if isEIP7702User && truthy (Str address) then setTo address st else st
  | None => st
  end.

(** The effect that clears the address again when the user is not an
    EIP-7702 user. *)
Definition resetEffect (isEIP7702User : bool) (userAddress : option string)
    (st : State) : State :=
  match userAddress with
  | Some address =>
      if negb isEIP7702User && truthy (Str address)
         && String.eqb (TransactionRequest.to (formData st)) address
      then setTo "" st
      else st
  | None => st
  end.

End FormEffects.

(** * Properties *)

Module StringFacts.

Lemma append_cons c s t : String.append (String c s) t = String c (String.append s t).
Proof. reflexivity. Qed.

Lemma append_empty_l t : String.append EmptyString t = t.
Proof. reflexivity. Qed.

Lemma append_empty_r s : String.append s EmptyString = s.
Proof. induction s as [|c s IH]; [reflexivity|]. rewrite append_cons, IH. reflexivity. Qed.

Lemma append_eq_empty s t :
  String.append s t = EmptyString -> s = EmptyString /\ t = EmptyString.
Proof. destruct s; [intros H; rewrite append_empty_l in H; auto | discriminate]. Qed.

Lemma append_assoc s t u :
  String.append (String.append s t) u = String.append s (String.append t u).
Proof.
  induction s as [|c s IH]; [reflexivity|]. rewrite !append_cons, IH. reflexivity.
Qed.

Lemma length_append s t :
  String.length (String.append s t) = (String.length s + String.length t)%nat.
Proof.
  induction s as [|c s IH]; [reflexivity|]. rewrite append_cons. simpl. rewrite IH.
  reflexivity.
Qed.

End StringFacts.

Module RegexFacts.
Import Regex StringFacts.

Lemma nullable_spec r : nullable r = true <-> Matches r EmptyString.
Proof.
  split.
  - induction r; simpl; intros H; try discriminate.
    + constructor.
    + apply andb_true_iff in H as [H1 H2].
      change EmptyString with (String.append EmptyString EmptyString).
      constructor; auto.
    + apply orb_true_iff in H as [H|H]; [apply MAltL | apply MAltR]; auto.
    + constructor.
  - intros H. remember EmptyString as s eqn:E.
    induction H; simpl; try discriminate; auto.
    + apply append_eq_empty in E as [-> ->]. rewrite IHMatches1, IHMatches2; auto.
    + rewrite IHMatches; auto.
    + rewrite IHMatches; auto using orb_true_r.
Qed.

Ltac invert H := inversion H; subst; clear H.

Lemma deriv_sound c r s : Matches (deriv c r) s -> Matches r (String c s).
Proof.
  revert s. induction r; simpl; intros s H.
  - invert H.
  - invert H.
  - destruct (Ascii.eqb_spec c c0); invert H. constructor.
  - destruct (inClass rs c) eqn:E; invert H. constructor; auto.
  - destruct (nullable r1) eqn:N.
    + invert H.
      * match goal with M : Matches (Seq _ _) _ |- _ => invert M end.
        rewrite <- append_cons. constructor; auto.
      * rewrite <- (append_empty_l (String c s)). constructor; auto.
        apply nullable_spec; auto.
    + invert H. rewrite <- append_cons. constructor; auto.
  - invert H; [apply MAltL | apply MAltR]; auto.
  - invert H. rewrite <- append_cons. constructor; auto.
Qed.

Lemma deriv_complete c r s : Matches r (String c s) -> Matches (deriv c r) s.
Proof.
  intros H. remember (String c s) as cs eqn:E. revert s E.
  induction H; intros s0 E; simpl; try discriminate.
  - injection E as -> <-. rewrite Ascii.eqb_refl. constructor.
  - injection E as -> <-. rewrite H. constructor.
  - destruct s1 as [|d s1].
    + rewrite append_empty_l in E. subst s2.
      assert (N : nullable r1 = true) by (apply nullable_spec; auto).
      rewrite N. apply MAltR. auto.
    + rewrite append_cons in E. injection E as -> <-.
      destruct (nullable r1); [apply MAltL|]; constructor; auto.
  - apply MAltL; auto.
  - apply MAltR; auto.
  - destruct s1 as [|d s1].
    + rewrite append_empty_l in E. auto.
    + rewrite append_cons in E. injection E as -> <-.
      constructor; auto.
Qed.

(** The derivative matcher decides the language of the pattern. *)
Theorem test_spec r s : test r s = true <-> Matches r s.
Proof.
  revert r. induction s as [|c s IH]; intros r; simpl.
  - apply nullable_spec.
  - rewrite IH. split; [apply deriv_sound | apply deriv_complete].
Qed.

Lemma Matches_seq r1 r2 s :
  Matches (Seq r1 r2) s <->
  exists s1 s2, s = String.append s1 s2 /\ Matches r1 s1 /\ Matches r2 s2.
Proof.
  split.
  - intros H. invert H. eauto.
  - intros (s1 & s2 & -> & H1 & H2). constructor; auto.
Qed.

Lemma Matches_lit p s : Matches (lit p) s <-> s = p.
Proof.
  revert s. induction p as [|c p IH]; intros s; simpl.
  - split; intros H; [invert H | subst]; auto using MEps.
  - rewrite Matches_seq. split.
    + intros (s1 & s2 & -> & H1 & H2). invert H1.
      apply IH in H2. subst. reflexivity.
    + intros ->. exists (String c EmptyString), p.
      repeat split; [constructor | apply IH; reflexivity].
Qed.

Lemma Matches_times_class n rs s :
  Matches (Times n (Class rs)) s <->
  String.length s = n /\ allChars (inClass rs) s = true.
Proof.
  revert s. induction n as [|n IH]; intros s; simpl.
  - split.
    + intros H. invert H. auto.
    + intros [L _]. destruct s; [constructor | discriminate].
  - rewrite Matches_seq. split.
    + intros (s1 & s2 & -> & H1 & H2). invert H1.
      apply IH in H2 as [L A]. rewrite append_cons, append_empty_l. simpl.
      split; [congruence|]. apply andb_true_iff; auto.
    + intros [L A]. destruct s as [|c s]; [discriminate|].
      simpl in *. apply andb_true_iff in A as [A1 A2].
      exists (String c EmptyString), s.
      repeat split; [constructor; auto | apply IH; split; congruence].
Qed.

Lemma allChars_ext p q s :
  (forall c, p c = q c) -> allChars p s = allChars q s.
Proof. intros E. induction s as [|c s IH]; simpl; [|rewrite E, IH]; reflexivity. Qed.

End RegexFacts.

Module ValidationFacts.
Import Regex Validation Spec StringFacts RegexFacts.

Lemma hexClass_spec c : inClass hexClass c = isHexChar c.
Proof. destruct c as [[] [] [] [] [] [] [] []]; reflexivity. Qed.

(** C4.  [isValidAddress] is a total Boolean function; it answers [true]
    exactly on the strings made of [0x] and forty hexadecimal characters,
    and [false] on every other string. *)
Theorem isValidAddress_iff (s : string) :
  (isValidAddress s = true <-> addressShape s) /\
  (~ addressShape s -> isValidAddress s = false).
Proof.
  assert (E : isValidAddress s = true <-> addressShape s).
  { unfold isValidAddress, addressPattern, addressShape.
    rewrite test_spec, Matches_seq. split.
    - intros (s1 & s2 & -> & H1 & H2).
      apply Matches_lit in H1. apply Matches_times_class in H2 as [L A].
      subst s1. exists s2. rewrite <- (allChars_ext _ _ _ hexClass_spec). auto.
    - intros (h & -> & L & A). exists "0x", h.
      repeat split; [apply Matches_lit; reflexivity|].
      apply Matches_times_class. rewrite (allChars_ext _ _ _ hexClass_spec). auto. }
  split; [exact E|].
  intros N. destruct (isValidAddress s) eqn:V; [|reflexivity].
  exfalso. apply N, E. reflexivity.
Qed.

Lemma isValidAddress_iff_witness :
  ~ addressShape "0x6B175474E89094C44Da98b954EedeAC495271d0F1" /\
  isValidAddress "0x6B175474E89094C44Da98b954EedeAC495271d0F1" = false.
Proof.
  assert (N : ~ addressShape "0x6B175474E89094C44Da98b954EedeAC495271d0F1").
  { intros (h & E & L & _). rewrite !append_cons, append_empty_l in E.
    injection E as <-. discriminate L. }
  split; [exact N|].
  exact (proj2 (isValidAddress_iff _) N).
Defined.

End ValidationFacts.

Module NumberFacts.
Import Number Regex StringFacts.

Lemma digitValue_digitChar d : 0 <= d < 36 -> digitValue (digitChar d) = Some d.
Proof.
  intros H. assert (E : d = Z.of_nat (Z.to_nat d)) by lia.
  assert (L : (Z.to_nat d < 36)%nat) by lia.
  rewrite E. generalize dependent (Z.to_nat d). clear. intros n _ L.
  do 36 (destruct n as [|n]; [reflexivity|]). lia.
Qed.

Lemma isDigitOf_digitChar radix d :
  0 <= d < radix -> radix <= 36 -> isDigitOf radix (digitChar d) = true.
Proof.
  intros H R. unfold isDigitOf. rewrite digitValue_digitChar by lia.
  apply Z.ltb_lt. lia.
Qed.

Lemma digitsValueFrom_append radix acc s t :
  digitsValueFrom radix acc (String.append s t)
  = digitsValueFrom radix (digitsValueFrom radix acc s) t.
Proof.
  revert acc. induction s as [|c s IH]; intros acc; [reflexivity|].
  rewrite append_cons. simpl. apply IH.
Qed.

Lemma digitsValueFrom_shift radix acc s :
  digitsValueFrom radix acc s
  = acc * radix ^ Z.of_nat (String.length s) + digitsValue radix s.
Proof.
  unfold digitsValue. revert acc. induction s as [|c s IH]; intros acc.
  - simpl. lia.
  - cbn [digitsValueFrom String.length]. rewrite IH, (IH (0 * radix + _)).
    rewrite Nat2Z.inj_succ, Z.pow_succ_r by lia. ring.
Qed.

Lemma digitsValue_append radix s t :
  digitsValue radix (String.append s t)
  = digitsValue radix s * radix ^ Z.of_nat (String.length t) + digitsValue radix t.
Proof.
  unfold digitsValue at 1. rewrite digitsValueFrom_append, digitsValueFrom_shift.
  reflexivity.
Qed.

Lemma digitsValue_cons radix c s :
  digitsValue radix (String c s)
  = default 0 (digitValue c) * radix ^ Z.of_nat (String.length s) + digitsValue radix s.
Proof.
  unfold digitsValue at 1. cbn [digitsValueFrom]. rewrite digitsValueFrom_shift. ring.
Qed.

(** The numeral printed for [n] is made of digits of the radix and reads
    back as [n]. *)
Lemma digitsOf_spec radix fuel :
  2 <= radix <= 36 ->
  forall n acc,
    0 <= n < radix ^ Z.of_nat (S fuel) ->
    exists ds,
      digitsOf (S fuel) radix n acc = String.append ds acc /\
      digitsValue radix ds = n /\
      allChars (isDigitOf radix) ds = true /\
      ds <> EmptyString.
Proof.
  intros R. induction fuel as [|fuel IH]; intros n acc H;
    rewrite Nat2Z.inj_succ, Z.pow_succ_r in H by lia;
    cbn [digitsOf]; destruct (n <? radix) eqn:L.
  1, 3: apply Z.ltb_lt in L; rewrite Z.mod_small by lia;
    exists (String (digitChar n) EmptyString); repeat split;
    [ unfold digitsValue; simpl; rewrite digitValue_digitChar by lia; reflexivity
    | simpl; rewrite isDigitOf_digitChar by lia; reflexivity
    | discriminate ].
  - apply Z.ltb_ge in L. simpl in H. lia.
  - apply Z.ltb_ge in L.
    assert (M : 0 <= n mod radix < radix) by (apply Z.mod_pos_bound; lia).
    destruct (IH (n / radix) (String (digitChar (n mod radix)) acc))
      as (ds & E & V & A & N).
    { split; [apply Z.div_pos; lia|]. apply Z.div_lt_upper_bound; lia. }
    exists (String.append ds (String (digitChar (n mod radix)) EmptyString)).
    repeat split.
    + cbn [digitsOf] in E. rewrite E, append_assoc. reflexivity.
    + rewrite digitsValue_append, V. unfold digitsValue at 1. simpl.
      rewrite digitValue_digitChar by lia.
      change (Z.of_nat 1) with 1. rewrite Z.pow_1_r.
      change (default 0 (Some (n mod radix))) with (n mod radix).
      pose proof (Z.div_mod n radix ltac:(lia)). lia.
    + clear -A M R. induction ds as [|c ds IHd].
      * simpl. rewrite isDigitOf_digitChar by lia. reflexivity.
      * rewrite append_cons. simpl in *. apply andb_true_iff in A as [-> A].
        simpl. auto.
    + destruct ds; [congruence | discriminate].
Qed.

Lemma integerToString_spec radix n :
  2 <= radix <= 36 -> 0 <= n ->
  digitsValue radix (integerToString radix n) = n /\
  allChars (isDigitOf radix) (integerToString radix n) = true /\
  integerToString radix n <> EmptyString.
Proof.
  intros R H. unfold integerToString.
  destruct (digitsOf_spec radix (Z.to_nat (Z.log2 n)) R n EmptyString)
    as (ds & E & V & A & N).
  - split; [lia|].
    destruct (Z.eq_dec n 0) as [->|NZ].
    + simpl. lia.
    + rewrite Nat2Z.inj_succ, Z2Nat.id by apply Z.log2_nonneg.
      apply Z.lt_le_trans with (2 ^ Z.succ (Z.log2 n)).
      * apply Z.log2_spec. lia.
      * apply Z.pow_le_mono_l. lia.
  - rewrite E, append_empty_r. auto.
Qed.

Lemma digitsValue_nonneg radix s : 0 <= radix -> 0 <= digitsValue radix s.
Proof.
  intros R. unfold digitsValue.
  assert (G : forall acc, 0 <= acc -> 0 <= digitsValueFrom radix acc s).
  { induction s as [|c s IH]; intros acc H; simpl; [lia|].
    apply IH. assert (0 <= default 0 (digitValue c)).
    { unfold digitValue. repeat case_match; simpl; lia. }
    nia. }
  apply G. lia.
Qed.

Lemma takeDigits_all radix s :
  allChars (isDigitOf radix) s = true -> takeDigits radix s = s.
Proof.
  induction s as [|c s IH]; simpl; [reflexivity|].
  intros H. apply andb_true_iff in H as [-> H]. rewrite IH; auto.
Qed.

Lemma toDouble_small n : 0 <= n < 2 ^ 53 -> toDouble n = Int n.
Proof.
  intros H. unfold toDouble, roundMagnitude.
  rewrite Z.abs_eq by lia.
  destruct (n <? 2 ^ 53) eqn:L; [|apply Z.ltb_ge in L; lia].
  destruct (2 ^ 1024 <=? n) eqn:B.
  - apply Z.leb_le in B. assert (2 ^ 53 < 2 ^ 1024) by reflexivity. lia.
  - f_equal. destruct (Z.eq_dec n 0) as [->|NZ]; [reflexivity|].
    rewrite Z.sgn_pos by lia. lia.
Qed.

Lemma toString_small n :
  0 <= n < 2 ^ 53 -> toString 10 (Int n) = integerToString 10 n.
Proof.
  intros H. unfold toString, decimalMagnitude.
  rewrite Z.abs_eq by lia.
  assert (L : (n <? 0) = false) by (apply Z.ltb_ge; lia).
  assert (B : (n <? 2 ^ 53) = true) by (apply Z.ltb_lt; lia).
  rewrite L, B. reflexivity.
Qed.

(** A hexadecimal chain identifier below [2^53] is rendered as the
    decimal numeral of the integer its digits denote. *)
Lemma parseInt_hex ds :
  ds <> EmptyString ->
  allChars (isDigitOf 16) ds = true ->
  parseInt (String.append "0x" ds) (Some 16) = toDouble (digitsValue 16 ds).
Proof.
  intros N A. unfold parseInt.
  rewrite !append_cons, append_empty_l.
  change (trimStart (String "0" (String "x" ds))) with (String "0" (String "x" ds)).
  cbv beta iota zeta.
  change (default 0 (Some 16)) with 16.
  change (negb (16 =? 0) && ((16 <? 2) || (36 <? 16))) with false.
  change ((16 =? 0) || (16 =? 16)) with true.
  cbv beta iota zeta.
  rewrite takeDigits_all by assumption.
  destruct ds; [congruence | reflexivity].
Qed.

Lemma normalize_hex ds :
  ds <> EmptyString ->
  allChars (isDigitOf 16) ds = true ->
  digitsValue 16 ds < 2 ^ 53 ->
  toString 10 (parseInt (String.append "0x" ds) (Some 16))
  = integerToString 10 (digitsValue 16 ds).
Proof.
  intros N A B. rewrite parseInt_hex by assumption.
  pose proof (digitsValue_nonneg 16 ds ltac:(lia)).
  rewrite toDouble_small by lia. apply toString_small. lia.
Qed.

Lemma roundMagnitude_fixed n :
  0 <= n ->
  roundMagnitude n = n <-> exists m e, 0 <= m < 2 ^ 53 /\ 0 <= e /\ n = m * 2 ^ e.
Proof.
  intros H. unfold roundMagnitude.
  destruct (n <? 2 ^ 53) eqn:L.
  { apply Z.ltb_lt in L. split; [|reflexivity].
    intros _. exists n, 0. rewrite Z.pow_0_r. lia. }
  apply Z.ltb_ge in L.
  assert (P53 : 0 < 2 ^ 53) by reflexivity.
  assert (LG : 53 <= Z.log2 n) by (apply Z.log2_le_pow2; lia).
  set (e := Z.log2 n - 52) in *.
  assert (E : 1 <= e) by (subst e; lia).
  assert (PE : 0 < 2 ^ e) by (apply Z.pow_pos_nonneg; lia).
  cbv zeta. split.
  - intros F.
    assert (Q : n / 2 ^ e < 2 ^ 53).
    { apply Z.div_lt_upper_bound; [lia|].
      rewrite <- Z.pow_add_r by lia.
      replace (e + 53) with (Z.succ (Z.log2 n)) by (subst e; lia).
      apply Z.log2_spec. lia. }
    assert (Q0 : 0 <= n / 2 ^ e) by (apply Z.div_pos; lia).
    destruct ((2 ^ (e - 1) <? n mod 2 ^ e)
              || ((n mod 2 ^ e =? 2 ^ (e - 1)) && Z.odd (n / 2 ^ e))).
    + destruct (Z.eq_dec (n / 2 ^ e + 1) (2 ^ 53)) as [T|T].
      * exists (2 ^ 52), (e + 1). rewrite T in F.
        rewrite Z.pow_add_r, Z.pow_1_r by lia.
        change (2 ^ 53) with (2 ^ 52 * 2) in F.
        repeat split; try reflexivity; try lia.
      * exists (n / 2 ^ e + 1), e. lia.
    + exists (n / 2 ^ e), e. lia.
  - intros (m & e0 & M & E0 & N).
    assert (M0 : 0 < m) by nia.
    assert (LE : e <= e0).
    { assert (Z.log2 n = e0 + Z.log2 m)
        by (rewrite N; apply Z.log2_mul_pow2; lia).
      assert (Z.log2 m < 53) by (apply Z.log2_lt_pow2; lia).
      subst e. lia. }
    assert (D : n = m * 2 ^ (e0 - e) * 2 ^ e).
    { rewrite <- Z.mul_assoc, <- Z.pow_add_r by lia.
      replace (e0 - e + e) with e0 by lia. exact N. }
    assert (R0 : n mod 2 ^ e = 0) by (rewrite D; apply Z.mod_mul; lia).
    assert (Q0 : n / 2 ^ e = m * 2 ^ (e0 - e)) by (rewrite D at 1; apply Z.div_mul; lia).
    assert (HP : 0 < 2 ^ (e - 1)) by (apply Z.pow_pos_nonneg; lia).
    rewrite R0.
    replace (2 ^ (e - 1) <? 0) with false by (symmetry; apply Z.ltb_ge; lia).
    replace (0 =? 2 ^ (e - 1)) with false by (symmetry; apply Z.eqb_neq; lia).
    cbn [orb andb]. rewrite Q0. lia.
Qed.

Lemma roundMagnitude_nonneg n : 0 <= n -> 0 <= roundMagnitude n.
Proof.
  intros H. unfold roundMagnitude. destruct (n <? 2 ^ 53); [lia|].
  cbv zeta.
  assert (P : 0 <= 2 ^ (Z.log2 n - 52)) by (apply Z.pow_nonneg; lia).
  assert (Q : 0 <= n / 2 ^ (Z.log2 n - 52)) by (apply Z_div_nonneg_nonneg; lia).
  destruct (_ || _); nia.
Qed.

(** The double of a non-negative integer is that integer exactly when
    the integer is representable. *)
Lemma toDouble_exact n :
  0 <= n ->
  toDouble n = Int n <->
  exists m e, 0 <= m < 2 ^ 53 /\ 0 <= e /\ n = m * 2 ^ e /\ n < 2 ^ 1024.
Proof.
  intros H. unfold toDouble. rewrite Z.abs_eq by lia.
  pose proof (roundMagnitude_nonneg n H) as RN.
  pose proof (roundMagnitude_fixed n H) as RF.
  destruct (2 ^ 1024 <=? roundMagnitude n) eqn:B.
  - apply Z.leb_le in B. split; [discriminate|].
    intros (m & e & M & E & N & U).
    assert (roundMagnitude n = n) by (apply RF; eauto). lia.
  - apply Z.leb_gt in B. split.
    + intros [= F]. destruct (Z.eq_dec n 0) as [->|NZ].
      * exists 0, 0. repeat split; try reflexivity; lia.
      * rewrite Z.sgn_pos in F by lia.
        assert (R : roundMagnitude n = n) by lia.
        destruct (proj1 RF R) as (m & e & M & E & N).
        exists m, e. repeat split; try lia.
    + intros (m & e & M & E & N & U).
      assert (R : roundMagnitude n = n) by (apply RF; eauto).
      rewrite R. f_equal. destruct (Z.eq_dec n 0) as [->|NZ]; [reflexivity|].
      rewrite Z.sgn_pos by lia. lia.
Qed.

Lemma toDouble_nonneg n :
  0 <= n ->
  toDouble n = Infinity false \/ exists m, 0 <= m /\ toDouble n = Int m.
Proof.
  intros H. unfold toDouble. rewrite Z.abs_eq by lia.
  pose proof (roundMagnitude_nonneg n H) as RN.
  destruct (2 ^ 1024 <=? roundMagnitude n).
  - left. f_equal. apply Z.ltb_ge. lia.
  - right. eexists. split; [|reflexivity].
    destruct (Z.eq_dec n 0) as [->|NZ]; [reflexivity|].
    rewrite Z.sgn_pos by lia. lia.
Qed.

Lemma toString16_nonneg m :
  0 <= m -> toString 16 (Int m) = integerToString 16 m.
Proof.
  intros H. unfold toString.
  replace (m <? 0) with false by (symmetry; apply Z.ltb_ge; lia).
  rewrite Z.abs_eq by lia. reflexivity.
Qed.

Lemma digit10_cases c :
  isDigitOf 10 c = true ->
  In c ["0"; "1"; "2"; "3"; "4"; "5"; "6"; "7"; "8"; "9"]%char.
Proof.
  destruct c as [[] [] [] [] [] [] [] []]; try discriminate; simpl; tauto.
Qed.

(** [parseInt] of a decimal numeral is the double of the integer it
    denotes. *)
Lemma parseInt_decimal d :
  d <> EmptyString ->
  allChars (isDigitOf 10) d = true ->
  parseInt d None = toDouble (digitsValue 10 d).
Proof.
  intros N A.
  assert (T : takeDigits 10 d = d) by (apply takeDigits_all; assumption).
  destruct d as [|c d]; [congruence|].
  simpl in A. apply andb_true_iff in A as [C A].
  assert (E : parseInt (String c d) None
              = match takeDigits 10 (String c d) with
                | EmptyString => NaN
                | z => toDouble (digitsValue 10 z)
                end).
  { apply digit10_cases in C. simpl in C.
    destruct C as [<-|[<-|[<-|[<-|[<-|[<-|[<-|[<-|[<-|[<-|[]]]]]]]]]]];
      try reflexivity.
    destruct d as [|c2 d]; [reflexivity|].
    simpl in A. apply andb_true_iff in A as [C2 _].
    apply digit10_cases in C2. simpl in C2.
    destruct C2 as [<-|[<-|[<-|[<-|[<-|[<-|[<-|[<-|[<-|[<-|[]]]]]]]]]]];
      reflexivity. }
  rewrite E, T. reflexivity.
Qed.

End NumberFacts.



Module JsFacts.
Import Number Js.

Lemma strictEquals_Str v s : strictEquals v (Str s) = true <-> v = Str s.
Proof.
  destruct v as [| |b|[|?|?]|t|?|? ?]; simpl; try (split; [discriminate|discriminate]).
  rewrite String.eqb_eq. split; congruence.
Qed.

Lemma strictEquals_Int v z : strictEquals v (Num (Int z)) = true <-> v = Num (Int z).
Proof.
  destruct v as [| |b|[|?|y]|t|?|? ?]; simpl; try (split; [discriminate|discriminate]).
  rewrite Z.eqb_eq. split; congruence.
Qed.

Lemma strictEquals_Int_false v z : strictEquals v (Num (Int z)) = false <-> v <> Num (Int z).
Proof.
  rewrite <- strictEquals_Int. destruct (strictEquals v (Num (Int z))); split; congruence.
Qed.

End JsFacts.

Module WalletFacts.
Import Number Js Async Wallet Spec JsFacts.

Ltac case_if :=
  match goal with
  | |- context [if ?c then _ else _] => destruct c eqn:?
  | |- context [match ?c with Some _ => _ | None => _ end] => destruct c eqn:?
  end.

Lemma caughtMessage_total e w : exists m, caughtMessage e w = (Normal m, w).
Proof.
  unfold caughtMessage, bind, lift, ret.
  destruct e as [| |b|[| |z]|s|items|isError props]; simpl;
    repeat (case_if; simpl); eauto.
Qed.

Lemma caughtMessage_supplied e m w :
  suppliedMessage e = Some m -> caughtMessage e w = (Normal m, w).
Proof.
  unfold suppliedMessage, caughtMessage.
  destruct e as [| |b|n|s|items|isError props]; try discriminate.
  destruct (assoc "message" props) as [[| | | |t| |]|] eqn:A; try discriminate.
  intros [= ->]. unfold hasProp, getProp, bind, lift, ret. rewrite !A.
  reflexivity.
Qed.

Lemma getProp_truthy v key : truthy v = true -> exists x, getProp v key = Normal x.
Proof.
  destruct v as [| |b|n|s|items|isError props]; try discriminate; intros _; simpl;
    repeat (case_if; simpl); eauto.
Qed.

Lemma sendTransaction_run provider transaction w :
  sendTransaction provider transaction w =
  match WalletProvider.request provider (requests w) ethAccounts with
  | Rejected e => caught e (after w [ethAccounts])
  | Resolved accounts =>
      if accountsMissing accounts
      then caught (newError "No accounts connected") (after w [ethAccounts])
      else
        let send := ethSendTransaction (firstOf accounts) transaction in
        match WalletProvider.request provider (requests w ++ [ethAccounts]) send with
        | Resolved txHash =>
            (Normal (TransactionResult.mk txHash true None),
             after w [ethAccounts; send])
        | Rejected e => caught e (after w [ethAccounts; send])
        end
  end.
Proof.
  unfold sendTransaction, tryCatch, bind, await_request, caught, accountsMissing, firstOf.
  fold ethAccounts. fold (after w [ethAccounts]).
  destruct (WalletProvider.request provider (requests w) ethAccounts)
    as [accounts|e]; [|reflexivity].
  destruct (truthy accounts) eqn:T; [|reflexivity].
  destruct (getProp_truthy accounts "length" T) as [len ->].
  destruct (getProp_truthy accounts "0" T) as [from ->].
  unfold lift, ret, bind, failure. cbn [negb orb].
  destruct (strictEquals len (Num (Int 0))); [reflexivity|].
  cbn [requests cachedProvider after]. fold (ethSendTransaction from transaction).
  destruct (WalletProvider.request _ _ _); unfold after; cbn [requests cachedProvider];
    rewrite <- ?app_assoc; reflexivity.
Qed.

Lemma caught_total e w :
  exists msg, caught e w = (Normal (failure msg), w) /\
              (forall m, suppliedMessage e = Some m -> msg = m).
Proof.
  destruct (caughtMessage_total e w) as [msg C]. exists msg.
  unfold caught, bind, ret. rewrite C. split; [reflexivity|].
  intros m S. rewrite (caughtMessage_supplied _ _ w S) in C. congruence.
Qed.

Lemma accountsMissing_noAccounts accounts :
  noAccounts accounts -> accountsMissing accounts = true.
Proof. intros [->|[->| ->]]; reflexivity. Qed.

Lemma accountsMissing_cons first rest : accountsMissing (Arr (first :: rest)) = false.
Proof.
  unfold accountsMissing. cbn [truthy negb orb getProp String.eqb Ascii.eqb Bool.eqb].
  apply strictEquals_Int_false. intros [= E].
Qed.

Lemma firstOf_cons first rest : firstOf (Arr (first :: rest)) = first.
Proof. reflexivity. Qed.

(** C1.  [sendTransaction] always ends normally, with a result value.  The
    result is [{hash, success: true}] when the accounts were listed and
    the send resolved with [hash]; it is [{hash: "", success: false,
    error}] in every other case: with "No accounts connected" when no
    account was listed, and with the message of the rejection when the
    provider rejected one of the two requests. *)
Theorem sendTransaction_never_throws
    (provider : WalletProvider.t) (transaction : TransactionRequest.t) (w : World) :
  exists result w',
    sendTransaction provider transaction w = (Normal result, w') /\
    (forall first rest txHash,
        WalletProvider.request provider (requests w) ethAccounts
          = Resolved (Arr (first :: rest)) ->
        WalletProvider.request provider (requests w ++ [ethAccounts])
          (ethSendTransaction first transaction) = Resolved txHash ->
        result = TransactionResult.mk txHash true None) /\
    (forall accounts,
        WalletProvider.request provider (requests w) ethAccounts = Resolved accounts ->
        noAccounts accounts ->
        result = failure "No accounts connected") /\
    (forall e,
        WalletProvider.request provider (requests w) ethAccounts = Rejected e \/
        (exists first rest,
            WalletProvider.request provider (requests w) ethAccounts
              = Resolved (Arr (first :: rest)) /\
            WalletProvider.request provider (requests w ++ [ethAccounts])
              (ethSendTransaction first transaction) = Rejected e) ->
        exists msg, result = failure msg /\
                    (forall m, suppliedMessage e = Some m -> msg = m)) /\
    (TransactionResult.success result = false ->
     TransactionResult.hash result = Str "" /\
     is_Some (TransactionResult.error result)).
Proof.
  rewrite sendTransaction_run.
  destruct (WalletProvider.request provider (requests w) ethAccounts)
    as [accounts|e] eqn:R1.
  - destruct (accountsMissing accounts) eqn:Miss.
    + (* no account: the throw is caught *)
      destruct (caught_total (newError "No accounts connected") (after w [ethAccounts]))
        as (msg & C & S).
      rewrite (S "No accounts connected" eq_refl) in C.
      eexists _, _. split; [exact C|]. repeat split; eauto.
      * intros first rest txHash [= ->]. rewrite accountsMissing_cons in Miss.
        discriminate.
      * intros e [E|(first & rest & [= ->] & _)]; [discriminate|].
        rewrite accountsMissing_cons in Miss. discriminate.
    + cbv zeta.
      destruct (WalletProvider.request provider (requests w ++ [ethAccounts])
                  (ethSendTransaction (firstOf accounts) transaction))
        as [txHash|e] eqn:R2.
      * eexists _, _. split; [reflexivity|]. repeat split; try discriminate.
        -- intros first rest h [= ->]. rewrite firstOf_cons in R2. congruence.
        -- intros a [= <-] N. rewrite accountsMissing_noAccounts in Miss by auto.
           discriminate.
        -- intros e [E|(first & rest & [= ->] & R)]; [discriminate|].
           rewrite firstOf_cons in R2. congruence.
      * destruct (caught_total e (after w [ethAccounts;
                    ethSendTransaction (firstOf accounts) transaction]))
          as (msg & C & S).
        eexists _, _. split; [exact C|]. repeat split; eauto.
        -- intros first rest h [= ->]. rewrite firstOf_cons in R2. congruence.
        -- intros a [= <-] N. rewrite accountsMissing_noAccounts in Miss by auto.
           discriminate.
        -- intros e' [E|(first & rest & [= ->] & R)]; [discriminate|].
           rewrite firstOf_cons in R2. rewrite R in R2. injection R2 as ->.
           eauto.
  - destruct (caught_total e (after w [ethAccounts])) as (msg & C & S).
    eexists _, _. split; [exact C|]. repeat split; eauto; try discriminate.
    intros e' [[= ->]|(first & rest & E & _)]; [eauto | discriminate].
Qed.

Lemma sendTransaction_never_throws_witness :
  exists w',
    sendTransaction decliningProvider sampleTransaction freshWorld
    = (Normal (failure "User rejected the request."), w').
Proof.
  destruct (sendTransaction_never_throws decliningProvider sampleTransaction freshWorld)
    as (result & w' & E & _ & _ & F & _).
  exists w'. rewrite E. f_equal. f_equal.
  destruct (F userDenial) as (msg & -> & S).
  - right. eexists _, _. split; reflexivity.
  - f_equal. apply S. reflexivity.
Defined.

(** C8.  [checkAddressHasCode] always ends normally with a Boolean: when
    the [eth_getCode] query resolves, [true] exactly when the code is
    neither ["0x"] nor ["0x0"]; when the query is rejected, [false]. *)
Theorem checkAddressHasCode_never_throws
    (provider : WalletProvider.t) (address : string) (w : World) :
  exists b,
    Eip7702.checkAddressHasCode provider address w
    = (Normal b, after w [ethGetCode address]) /\
    match WalletProvider.request provider (requests w) (ethGetCode address) with
    | Resolved code => b = true <-> (code <> Str "0x" /\ code <> Str "0x0")
    | Rejected _ => b = false
    end.
Proof.
  unfold Eip7702.checkAddressHasCode, tryCatch, bind, await_request, ret.
  fold (ethGetCode address). fold (after w [ethGetCode address]).
  destruct (WalletProvider.request provider (requests w) (ethGetCode address))
    as [code|e].
  - eexists. split; [reflexivity|].
    rewrite andb_true_iff, !negb_true_iff.
    rewrite <- !strictEquals_Str.
    destruct (strictEquals code (Str "0x")), (strictEquals code (Str "0x0"));
      split; intros [? ?]; split; congruence.
  - eexists. split; reflexivity.
Qed.

Lemma switchNetwork_run provider chainId w :
  switchNetwork provider chainId w =
  let switch := switchRequest chainId in
  match WalletProvider.request provider (requests w) switch with
  | Resolved _ => (Normal tt, after w [switch])
  | Rejected e =>
      match getProp e "code" with
      | Abrupt t => (Abrupt t, after w [switch])
      | Normal code =>
          if strictEquals code (Num (Int 4902))
          then
            let add :=
              match readNETWORKS chainId with
              | Registered network => Some (addRequest chainId network)
              | Inherited member => Some (addRequestInherited chainId member)
              | Unset => None
              end in
            match add with
            | Some add =>
                match WalletProvider.request provider (requests w ++ [switch]) add with
                | Resolved _ => (Normal tt, after w [switch; add])
                | Rejected e' => (Abrupt e', after w [switch; add])
                end
            | None => (Normal tt, after w [switch])
            end
          else (Abrupt e, after w [switch])
      end
  end.
Proof.
  unfold switchNetwork, tryCatch, bind, await_request, lift, ret, throw, after.
  cbv zeta.
  destruct (WalletProvider.request provider (requests w) (switchRequest chainId))
    as [v|e]; [reflexivity|].
  destruct (getProp e "code") as [code|t]; [|reflexivity].
  destruct (strictEquals code (Num (Int 4902))); [|reflexivity].
  destruct (readNETWORKS chainId) as [network|member|]; [| |reflexivity].
  - simpl. destruct (WalletProvider.request _ _ _);
      rewrite <- List.app_assoc; reflexivity.
  - simpl. destruct (WalletProvider.request _ _ _);
      rewrite <- List.app_assoc; reflexivity.
Qed.

Lemma readNETWORKS_registered chainId network :
  NETWORKS !! chainId = Some network -> readNETWORKS chainId = Registered network.
Proof. unfold readNETWORKS. intros ->. reflexivity. Qed.

(** C2, as the code has it.  When the provider rejects the switch request
    with code 4902 and the target chain is a key of the registry,
    [switchNetwork] issues one [wallet_addEthereumChain] request built
    from the registry entry and nothing after it: it ends as that request
    ends.  When the rejection carries any other code, the rejection
    itself is thrown to the caller and no further request is issued. *)
Theorem switchNetwork_unknown_chain
    (provider : WalletProvider.t) (chainId : string) (w : World) (e : value) :
  WalletProvider.request provider (requests w) (switchRequest chainId) = Rejected e ->
  (forall network,
      getProp e "code" = Normal (Num (Int 4902)) ->
      NETWORKS !! chainId = Some network ->
      switchNetwork provider chainId w
      = (match WalletProvider.request provider (requests w ++ [switchRequest chainId])
                 (addRequest chainId network) with
         | Resolved _ => Normal tt
         | Rejected e' => Abrupt e'
         end,
         after w [switchRequest chainId; addRequest chainId network]) /\
      RequestArgs.method (addRequest chainId network) = "wallet_addEthereumChain" /\
      exists urls,
        RequestArgs.params (addRequest chainId network)
        = Some [Obj false
                  (("chainId", Str (hexChainId chainId))
                   :: ("chainName", Str (NetworkInfo.name network))
                   :: ("nativeCurrency",
                        Obj false
                          [("name", Str (NetworkInfo.currencySymbol network));
                           ("symbol", Str (NetworkInfo.currencySymbol network));
                           ("decimals", Num (Int 18))])
                   :: urls)]) /\
  (forall code,
      getProp e "code" = Normal code ->
      code <> Num (Int 4902) ->
      switchNetwork provider chainId w = (Abrupt e, after w [switchRequest chainId])).
Proof.
  intros R. split.
  - intros network C K. split; [|split; [reflexivity | eexists; reflexivity]].
    rewrite switchNetwork_run. cbv zeta. rewrite R, C.
    cbn [strictEquals]. rewrite Z.eqb_refl.
    rewrite (readNETWORKS_registered _ _ K).
    destruct (WalletProvider.request provider (requests w ++ _) _); reflexivity.
  - intros code C N. rewrite switchNetwork_run. cbv zeta. rewrite R, C.
    apply strictEquals_Int_false in N. rewrite N. reflexivity.
Qed.

Lemma switchNetwork_unknown_chain_witness :
  switchNetwork unknownChainProvider "56" freshWorld
  = (Normal tt,
     after freshWorld
       [switchRequest "56";
        addRequest "56" (NetworkInfo.mk "56" "BNB Smart Chain" None
                          (Some "https://bscscan.com") "BNB")]).
Proof.
  exact (proj1 (proj1 (switchNetwork_unknown_chain unknownChainProvider "56" freshWorld
                 unknownChain eq_refl) _ eq_refl eq_refl)).
Defined.

Lemma switchNetwork_bnb_requests :
  requests (snd (switchNetwork unknownChainProvider "56" freshWorld))
  = [switchRequest "56";
     addRequest "56" (NetworkInfo.mk "56" "BNB Smart Chain" None
                       (Some "https://bscscan.com") "BNB")].
Proof. reflexivity. Qed.

(** C2, as stated, fails: with the registered chain 56 and a provider that
    rejects the switch with code 4902, the add-chain request is the last
    request; no second switch request follows it. *)
Lemma switchNetwork_retry_counterexample :
  WalletProvider.request unknownChainProvider (requests freshWorld) (switchRequest "56")
    = Rejected unknownChain /\
  getProp unknownChain "code" = Normal (Num (Int 4902)) /\
  is_Some (NETWORKS !! "56") /\
  ~ retriesAfterAdd unknownChainProvider "56" freshWorld.
Proof.
  split; [reflexivity|]. split; [reflexivity|]. split; [eexists; reflexivity|].
  intros (network & before & between & rest & E).
  rewrite switchNetwork_bnb_requests in E.
  destruct before as [|a before]; [discriminate E|].
  injection E as _ E. apply (f_equal (@List.length _)) in E.
  rewrite List.length_app in E. cbn [List.length] in E.
  rewrite List.length_app in E. cbn [List.length] in E. lia.
Qed.

(** With code 4902 and a key that [NETWORKS[chainId]] does not find at
    all, [switchNetwork] ends normally after the one switch request. *)
Lemma switchNetwork_unset_key provider chainId w e :
  WalletProvider.request provider (requests w) (switchRequest chainId) = Rejected e ->
  getProp e "code" = Normal (Num (Int 4902)) ->
  readNETWORKS chainId = Unset ->
  switchNetwork provider chainId w = (Normal tt, after w [switchRequest chainId]).
Proof.
  intros R C U. rewrite switchNetwork_run. cbv zeta. rewrite R, C, U.
  reflexivity.
Qed.

(** The function taken alone, at a name the registry object inherits
    from its prototype: [NETWORKS["constructor"]] finds the [Object]
    function, and after the rejection with code 4902 a
    [wallet_addEthereumChain] request is issued, with chain id ["0xNaN"]
    and chain name ["Object"].  The header never selects such a name. *)
Lemma switchNetwork_inherited_key :
  NETWORKS !! "constructor" = None /\
  WalletProvider.request unknownChainProvider (requests freshWorld)
    (switchRequest "constructor") = Rejected unknownChain /\
  switchNetwork unknownChainProvider "constructor" freshWorld
  = (Normal tt,
     after freshWorld
       [switchRequest "constructor";
        RequestArgs.mk "wallet_addEthereumChain"
          (Some [Obj false
                   [("chainId", Str "0xNaN");
                    ("chainName", Str "Object");
                    ("nativeCurrency",
                      Obj false [("name", Undefined); ("symbol", Undefined);
                                 ("decimals", Num (Int 18))]);
                    ("rpcUrls", Arr [Undefined]);
                    ("blockExplorerUrls", Arr [])]])]).
Proof. repeat split. Qed.

End WalletFacts.

Module RegistryFacts.
Import Number Js Wallet Spec StringFacts NumberFacts.

Lemma readNETWORKS_empty : readNETWORKS "" = Unset.
Proof. reflexivity. Qed.

Lemma getCurrencySymbol_normalized id :
  getCurrencySymbol (Some id) = symbolOf (readNETWORKS (normalizeChainId id)).
Proof.
  unfold getCurrencySymbol, normalizeChainId.
  destruct id as [|c id]; reflexivity.
Qed.

Lemma isChainSupported_normalized id :
  isChainSupported (Some id) = definedRead (readNETWORKS (normalizeChainId id)).
Proof.
  unfold isChainSupported, normalizeChainId.
  destruct id as [|c id]; reflexivity.
Qed.

Lemma normalizeChainId_hex ds :
  hexDigits ds -> digitsValue 16 ds < 2 ^ 53 ->
  normalizeChainId (String.append "0x" ds) = integerToString 10 (digitsValue 16 ds).
Proof.
  intros [N A] B. unfold normalizeChainId.
  rewrite !append_cons, append_empty_l.
  replace (String.prefix "0x" (String "0" (String "x" ds))) with true
    by (destruct ds; reflexivity).
  rewrite <- (normalize_hex ds N A B).
  rewrite !append_cons, append_empty_l. reflexivity.
Qed.

(** C5.  Both lookups read the registry at the normal form of the chain
    identifier, and at nothing else: [isChainSupported] answers whether
    [NETWORKS] holds something under the normal form, and
    [getCurrencySymbol] answers the currency symbol registered under it,
    or ["ETH"].  So identifiers with the same normal form get the same
    answers.  The normal form of an identifier without the prefix [0x] is
    the identifier; the normal form of [0x] followed by hexadecimal
    digits is the decimal numeral of the integer they denote (below
    [2^53], where the numeral is exact).  In particular ["0x1"] and ["1"]
    both normalise to ["1"], and the two lookups agree on them: the
    chain is supported and its symbol is ["ETH"]; likewise ["0x38"] and
    ["56"] both give ["BNB"]. *)
Theorem chain_lookups_normalize :
  (forall id,
      isChainSupported (Some id)
      = match readNETWORKS (normalizeChainId id) with
        | Registered _ | Inherited _ => true
        | Unset => false
        end /\
      getCurrencySymbol (Some id)
      = match readNETWORKS (normalizeChainId id) with
        | Registered network =>
            if String.eqb (NetworkInfo.currencySymbol network) ""
            then "ETH" else NetworkInfo.currencySymbol network
        | Inherited _ | Unset => "ETH"
        end) /\
  (forall id id',
      normalizeChainId id = normalizeChainId id' ->
      getCurrencySymbol (Some id) = getCurrencySymbol (Some id') /\
      isChainSupported (Some id) = isChainSupported (Some id')) /\
  (forall id, String.prefix "0x" id = false -> normalizeChainId id = id) /\
  (forall ds,
      hexDigits ds -> digitsValue 16 ds < 2 ^ 53 ->
      normalizeChainId (String.append "0x" ds)
      = integerToString 10 (digitsValue 16 ds)) /\
  (forall ds,
      hexDigits ds -> digitsValue 16 ds < 2 ^ 53 ->
      isChainSupported (Some (String.append "0x" ds))
      = isChainSupported (Some (integerToString 10 (digitsValue 16 ds))) /\
      getCurrencySymbol (Some (String.append "0x" ds))
      = getCurrencySymbol (Some (integerToString 10 (digitsValue 16 ds)))) /\
  normalizeChainId "0x1" = "1" /\
  normalizeChainId "1" = "1" /\
  isChainSupported (Some "0x1") = true /\
  isChainSupported (Some "1") = true /\
  getCurrencySymbol (Some "0x1") = "ETH" /\
  getCurrencySymbol (Some "1") = "ETH" /\
  getCurrencySymbol (Some "0x38") = "BNB" /\
  getCurrencySymbol (Some "56") = "BNB" /\
  isChainSupported (Some "0x2") = false /\
  isChainSupported (Some "2") = false.
Proof.
  assert (Read : forall id,
             isChainSupported (Some id)
             = match readNETWORKS (normalizeChainId id) with
               | Registered _ | Inherited _ => true
               | Unset => false
               end /\
             getCurrencySymbol (Some id)
             = match readNETWORKS (normalizeChainId id) with
               | Registered network =>
                   if String.eqb (NetworkInfo.currencySymbol network) ""
                   then "ETH" else NetworkInfo.currencySymbol network
               | Inherited _ | Unset => "ETH"
               end).
  { intros id. rewrite getCurrencySymbol_normalized, isChainSupported_normalized.
    destruct (readNETWORKS (normalizeChainId id)) as [network| |];
      split; try reflexivity.
    simpl. destruct (NetworkInfo.currencySymbol network); reflexivity. }
  assert (Agree : forall id id',
             normalizeChainId id = normalizeChainId id' ->
             getCurrencySymbol (Some id) = getCurrencySymbol (Some id') /\
             isChainSupported (Some id) = isChainSupported (Some id')).
  { intros id id' E.
    rewrite !getCurrencySymbol_normalized, !isChainSupported_normalized, E. auto. }
  assert (Plain : forall id, String.prefix "0x" id = false -> normalizeChainId id = id).
  { intros id P. unfold normalizeChainId. rewrite P. reflexivity. }
  split; [exact Read|]. split; [exact Agree|]. split; [exact Plain|].
  split; [apply normalizeChainId_hex|]. split; [|repeat split].
  intros ds H B.
  pose proof (digitsValue_nonneg 16 ds ltac:(lia)) as P.
  destruct (integerToString_spec 10 (digitsValue 16 ds) ltac:(lia) P) as (_ & A & N).
  destruct (Agree (String.append "0x" ds) (integerToString 10 (digitsValue 16 ds)))
    as [S C]; [|auto].
  rewrite normalizeChainId_hex by assumption. symmetry. apply Plain.
  destruct (integerToString 10 (digitsValue 16 ds)) as [|c1 [|c2 d]]; [congruence| |].
  - simpl in A. apply andb_true_iff in A as [C1 _].
    apply digit10_cases in C1. simpl in C1.
    repeat (destruct C1 as [<-|C1]; [reflexivity|]). destruct C1.
  - simpl in A. apply andb_true_iff in A as [C1 A].
    apply andb_true_iff in A as [C2 _].
    apply digit10_cases in C1. apply digit10_cases in C2. simpl in C1, C2.
    repeat (destruct C1 as [<-|C1];
            [repeat (destruct C2 as [<-|C2]; [reflexivity|]); destruct C2|]).
    destruct C1.
Qed.

Lemma chain_lookups_normalize_witness :
  normalizeChainId "0x2105" = "8453" /\
  getCurrencySymbol (Some "0x2105") = getCurrencySymbol (Some "8453") /\
  isChainSupported (Some "0x2105") = isChainSupported (Some "8453").
Proof.
  destruct chain_lookups_normalize as (_ & Agree & _ & Hex & _).
  assert (E : normalizeChainId "0x2105" = "8453").
  { apply (Hex "2105"); [split; [discriminate | reflexivity] | reflexivity]. }
  split; [exact E|]. apply Agree. rewrite E. reflexivity.
Defined.

(** C7.  [getCurrencySymbol("56")] is ["BNB"], [getCurrencySymbol(null)] is
    the fallback ["ETH"], and the fallback is the answer for every
    identifier whose normal form is not a key of the registry. *)
Theorem getCurrencySymbol_fallback :
  getCurrencySymbol (Some "56") = "BNB" /\
  getCurrencySymbol None = "ETH" /\
  (forall id,
      NETWORKS !! normalizeChainId id = None ->
      getCurrencySymbol (Some id) = "ETH").
Proof.
  repeat split.
  intros id K. rewrite getCurrencySymbol_normalized.
  unfold readNETWORKS. rewrite K.
  destruct (objectPrototype (normalizeChainId id)); reflexivity.
Qed.

Lemma getCurrencySymbol_fallback_witness :
  getCurrencySymbol (Some "0x89") = "ETH" /\
  getCurrencySymbol (Some "constructor") = "ETH".
Proof.
  destruct getCurrencySymbol_fallback as (_ & _ & F).
  split; apply F; reflexivity.
Defined.

End RegistryFacts.

Module ConnectFacts.
Import Number Js Async Wallet Spec JsFacts WalletFacts.

Lemma detectRabbyWallet_requests window w :
  exists found w1,
    detectRabbyWallet window w = (Normal found, w1) /\
    requests w1 = requests w.
Proof.
  unfold detectRabbyWallet, bind, getCache, setCache, ret.
  destruct (cachedProvider w); [eauto|].
  destruct window as [win|]; [|eauto].
  destruct (rabby win); [eauto|].
  destruct (ethereum win) as [p|]; [|eauto].
  destruct (WalletProvider.isRabby p) as [[|]|]; eauto.
Qed.

Section WithEngine.
Variable stringIsPositive : string -> bool.

Lemma connectWallet_undetected window w0 w :
  detectRabbyWallet window w0 = (Normal None, w) ->
  connectWallet stringIsPositive window w0
  = (Abrupt (newError
               "Rabby wallet not detected. Please install Rabby wallet extension."),
     w).
Proof. intros D. unfold connectWallet. unfold bind at 1. rewrite D. reflexivity. Qed.

Ltac run_connect D :=
  unfold connectWallet; unfold bind at 1; rewrite D;
  unfold tryCatch, bind, await_request, lift, ret, throw;
  fold ethAccounts ethRequestAccounts ethChainId.

Ltac finish_connect :=
  unfold connectsWith, connectFailure, after; simpl;
  rewrite <- ?List.app_assoc; simpl;
  repeat match goal with
    | |- context [WalletProvider.request ?p ?h ethChainId] =>
        destruct (WalletProvider.request p h ethChainId)
    | |- context [instanceofError ?e] => destruct (instanceofError e)
    | |- context [getProp ?e "message"] => destruct (getProp e "message")
    end;
  rewrite <- ?List.app_assoc; reflexivity.

Lemma connectWallet_listed window w0 provider w first rest :
  detectRabbyWallet window w0 = (Normal (Some provider), w) ->
  WalletProvider.request provider (requests w) ethAccounts
    = Resolved (Arr (first :: rest)) ->
  connectWallet stringIsPositive window w0
  = connectsWith provider first w [ethAccounts].
Proof. intros D R. run_connect D. rewrite R. simpl. finish_connect. Qed.

Lemma connectWallet_authorised window w0 provider w first rest :
  detectRabbyWallet window w0 = (Normal (Some provider), w) ->
  WalletProvider.request provider (requests w) ethAccounts = Resolved (Arr []) ->
  WalletProvider.request provider (requests w ++ [ethAccounts]) ethRequestAccounts
    = Resolved (Arr (first :: rest)) ->
  connectWallet stringIsPositive window w0
  = connectsWith provider first w [ethAccounts; ethRequestAccounts].
Proof.
  intros D R1 R2. run_connect D. rewrite R1. simpl. rewrite R2. simpl.
  finish_connect.
Qed.

Lemma connectWallet_refused window w0 provider w :
  detectRabbyWallet window w0 = (Normal (Some provider), w) ->
  WalletProvider.request provider (requests w) ethAccounts = Resolved (Arr []) ->
  WalletProvider.request provider (requests w ++ [ethAccounts]) ethRequestAccounts
    = Resolved (Arr []) ->
  connectWallet stringIsPositive window w0
  = (Abrupt (newError ("Failed to connect to Rabby wallet: "
                       +:+ "No accounts found. Please unlock your Rabby wallet.")),
     after w [ethAccounts; ethRequestAccounts]).
Proof.
  intros D R1 R2. run_connect D. rewrite R1. simpl. rewrite R2. simpl.
  unfold after. rewrite <- List.app_assoc. reflexivity.
Qed.

Lemma connectWallet_rejected window w0 provider w e :
  detectRabbyWallet window w0 = (Normal (Some provider), w) ->
  WalletProvider.request provider (requests w) ethAccounts = Rejected e ->
  connectWallet stringIsPositive window w0
  = (Abrupt (connectFailure e), after w [ethAccounts]).
Proof. intros D R. run_connect D. rewrite R. simpl. finish_connect. Qed.

Lemma connectWallet_first_request window w0 provider w :
  detectRabbyWallet window w0 = (Normal (Some provider), w) ->
  exists more,
    requests (snd (connectWallet stringIsPositive window w0))
    = requests w ++ ethAccounts :: more.
Proof.
  intros D. run_connect D.
  destruct (WalletProvider.request provider (requests w) ethAccounts) as [v|e];
    simpl.
  2: { destruct (instanceofError e); [destruct (getProp e "message")|];
       simpl; eexists; reflexivity. }
  repeat (match goal with
          | |- context [match ?x with _ => _ end] =>
              lazymatch x with
              | context [match _ with _ => _ end] => fail
              | _ => destruct x eqn:?
              end
          end; simpl);
    rewrite <- ?List.app_assoc; simpl; eexists; reflexivity.
Qed.

(** C6.  [connectWallet] throws when no provider is detected, without
    issuing a request.  With a provider its first request is always for
    the accounts already authorised ([eth_accounts]); when that list is
    not empty the next and last request is [eth_chainId].  Only when the list is empty
    does it ask for authorisation ([eth_requestAccounts]): it throws
    when that yields no account either, and otherwise goes on to
    [eth_chainId].  On success it returns the provider, the first
    account and the chain identifier parsed in base 16 and rendered in
    decimal. *)
Theorem connectWallet_spec (window : option Window) (w0 : World) :
  exists found w,
    detectRabbyWallet window w0 = (Normal found, w) /\
    requests w = requests w0 /\
    match found with
    | None =>
        connectWallet stringIsPositive window w0
        = (Abrupt (newError
             "Rabby wallet not detected. Please install Rabby wallet extension."),
           w)
    | Some provider =>
        (exists more,
            requests (snd (connectWallet stringIsPositive window w0))
            = requests w ++ ethAccounts :: more) /\
        (forall first rest,
            WalletProvider.request provider (requests w) ethAccounts
              = Resolved (Arr (first :: rest)) ->
            connectWallet stringIsPositive window w0
            = connectsWith provider first w [ethAccounts]) /\
        (WalletProvider.request provider (requests w) ethAccounts
           = Resolved (Arr []) ->
         (WalletProvider.request provider (requests w ++ [ethAccounts])
            ethRequestAccounts = Resolved (Arr []) ->
          connectWallet stringIsPositive window w0
          = (Abrupt (newError
               ("Failed to connect to Rabby wallet: "
                +:+ "No accounts found. Please unlock your Rabby wallet.")),
             after w [ethAccounts; ethRequestAccounts])) /\
         (forall first rest,
             WalletProvider.request provider (requests w ++ [ethAccounts])
               ethRequestAccounts = Resolved (Arr (first :: rest)) ->
             connectWallet stringIsPositive window w0
             = connectsWith provider first w [ethAccounts; ethRequestAccounts]))
    end /\
    (forall ds,
        hexDigits ds -> digitsValue 16 ds < 2 ^ 53 ->
        toString 10 (parseInt (ToString (Str (String.append "0x" ds))) (Some 16))
        = integerToString 10 (digitsValue 16 ds)).
Proof.
  destruct (detectRabbyWallet_requests window w0) as (found & w & D & Q).
  exists found, w. split; [exact D|]. split; [exact Q|]. split.
  - destruct found as [provider|].
    + split; [eapply connectWallet_first_request; eauto|].
      split; [|intros R1; split].
      * intros first rest R. eapply connectWallet_listed; eauto.
      * intros R2. eapply connectWallet_refused; eauto.
      * intros first rest R2. eapply connectWallet_authorised; eauto.
    + apply connectWallet_undetected, D.
  - intros ds [N A] B. apply NumberFacts.normalize_hex; assumption.
Qed.

End WithEngine.

Lemma connectWallet_spec_witness :
  fst (connectWallet (fun _ => false) (rabbyWindow authorisingProvider) freshWorld)
  = Normal (Wallet.Connection.mk authorisingProvider
              (Str "0x6B175474E89094C44Da98b954EedeAC495271d0F") "8453").
Proof.
  destruct (connectWallet_spec (fun _ => false) (rabbyWindow authorisingProvider)
              freshWorld) as (found & w & D & _ & C & _).
  injection D as <- <-.
  destruct C as (_ & _ & C). destruct (C eq_refl) as (_ & C').
  rewrite (C' _ _ eq_refl). reflexivity.
Defined.

End ConnectFacts.

Module FormFacts.
Import Number Js Regex Ethers TransactionForm Spec StringFacts NumberFacts.

Lemma truthy_Str s : s <> EmptyString -> truthy (Str s) = true.
Proof. destruct s; [congruence | reflexivity]. Qed.

Lemma quantity_hex m :
  0 <= m -> quantity (String.append "0x" (integerToString 16 m)) = Some m.
Proof.
  intros H. destruct (integerToString_spec 16 m ltac:(lia) H) as (V & A & N).
  rewrite !append_cons, append_empty_l. unfold quantity.
  rewrite A, V. destruct (integerToString 16 m); [congruence | reflexivity].
Qed.

Lemma submittedValue_decimal d :
  decimalDigits d ->
  quantity (submittedValue d) = Some (digitsValue 10 d)
  <-> representable (digitsValue 10 d).
Proof.
  intros [N A]. unfold submittedValue, representable.
  rewrite parseInt_decimal by assumption.
  pose proof (digitsValue_nonneg 10 d ltac:(lia)) as P.
  rewrite <- (toDouble_exact _ P).
  destruct (toDouble_nonneg _ P) as [I|(m & M & I)]; rewrite I.
  - split; discriminate.
  - rewrite toString16_nonneg, quantity_hex by assumption.
    split; congruence.
Qed.

Lemma representable_small n : 0 <= n < 2 ^ 53 -> representable n.
Proof.
  intros H. exists n, 0. rewrite Z.pow_0_r.
  assert (2 ^ 53 < 2 ^ 1024) by reflexivity. lia.
Qed.

Section WithEngine.
Variable parseFloatRejects : string -> bool.

Lemma handleSubmit_entered st d :
  fst (validateForm parseFloatRejects st) = true ->
  enteredValue st = Some d ->
  d <> EmptyString ->
  snd (handleSubmit parseFloatRejects st)
  = Some (TransactionRequest.mk
            (TransactionRequest.to (formData st))
            (TransactionRequest.data (formData st))
            (Some (submittedValue d))).
Proof.
  intros V E N. unfold handleSubmit.
  destruct (validateForm parseFloatRejects st) as [valid st1].
  simpl in V. subst valid. unfold enteredValue in E.
  pose proof (truthy_Str d N) as T.
  destruct (valueUnit st), (truthy (Str (ethValue st))); cbv beta iota in *.
  1, 2, 4: rewrite E; cbv beta iota; rewrite T; reflexivity.
  destruct (parseEther (ethValue st)) as [n|]; [|discriminate].
  injection E as E. cbv beta iota. rewrite E, T. reflexivity.
Qed.

(** C9.  When the form is valid and holds a non-empty base-unit amount,
    [handleSubmit] hands over the payload whose [value] is ["0x"]
    followed by [parseInt(amount).toString(16)].  For a decimal amount
    that field denotes the entered integer exactly when the integer is
    representable as a double; every integer below [2^53] is, and above
    [2^53] there is a valid amount whose submitted value differs from
    it. *)
Theorem handleSubmit_value (st : State) (d : string) :
  fst (validateForm parseFloatRejects st) = true ->
  enteredValue st = Some d ->
  d <> EmptyString ->
  snd (handleSubmit parseFloatRejects st)
  = Some (TransactionRequest.mk
            (TransactionRequest.to (formData st))
            (TransactionRequest.data (formData st))
            (Some (submittedValue d))) /\
  (decimalDigits d ->
   quantity (submittedValue d) = Some (digitsValue 10 d)
   <-> representable (digitsValue 10 d)) /\
  (forall n, 0 <= n < 2 ^ 53 -> representable n) /\
  (exists d',
      decimalDigits d' /\
      2 ^ 53 < digitsValue 10 d' /\
      fst (validateForm parseFloatRejects (weiForm d')) = true /\
      enteredValue (weiForm d') = Some d' /\
      quantity (submittedValue d') <> Some (digitsValue 10 d')).
Proof.
  intros V E N. split; [apply handleSubmit_entered; assumption|].
  split; [apply submittedValue_decimal|].
  split; [apply representable_small|].
  exists "9007199254740993".
  split; [split; [discriminate | reflexivity]|].
  split; [reflexivity|].
  split; [vm_compute; reflexivity|].
  split; [reflexivity|].
  vm_compute. discriminate.
Qed.

End WithEngine.

Lemma handleSubmit_value_witness :
  snd (handleSubmit (fun _ => false) (weiForm "9007199254740993"))
  = Some (TransactionRequest.mk "0x6B175474E89094C44Da98b954EedeAC495271d0F"
            "0xa9059cbb" (Some "0x20000000000000")).
Proof.
  assert (V : fst (validateForm (fun _ => false) (weiForm "9007199254740993")) = true)
    by (vm_compute; reflexivity).
  exact (proj1 (handleSubmit_value (fun _ => false) (weiForm "9007199254740993")
                  "9007199254740993" V eq_refl ltac:(discriminate))).
Defined.

End FormFacts.

Module EthersFacts.
Import Number Js Regex Ethers TransactionForm Spec StringFacts NumberFacts.

Lemma digit_not_point c : isDigitOf 10 c = true -> Ascii.eqb c "." = false.
Proof. destruct c as [[] [] [] [] [] [] [] []]; try discriminate; reflexivity. Qed.

Lemma splitPoint_digits w :
  allChars (isDigitOf 10) w = true -> splitPoint w = (w, None).
Proof.
  induction w as [|c w IH]; simpl; [reflexivity|].
  intros H. apply andb_true_iff in H as [C H].
  rewrite (digit_not_point c C), (IH H). reflexivity.
Qed.

Lemma splitPoint_point w f :
  allChars (isDigitOf 10) w = true ->
  splitPoint (w +:+ "." +:+ f) = (w, Some f).
Proof.
  induction w as [|c w IH]; intros H.
  - reflexivity.
  - simpl in H. apply andb_true_iff in H as [C H].
    rewrite append_cons. simpl. rewrite (digit_not_point c C), (IH H). reflexivity.
Qed.

Lemma firstChars_all n s : (String.length s <= n)%nat -> firstChars n s = s.
Proof.
  revert n. induction s as [|c s IH]; intros [|n] H; simpl in *; try reflexivity; try lia.
  rewrite IH by lia. reflexivity.
Qed.

Lemma dropChars_all n s : (String.length s <= n)%nat -> dropChars n s = EmptyString.
Proof.
  revert n. induction s as [|c s IH]; intros [|n] H; simpl in *; try reflexivity; try lia.
  apply IH. lia.
Qed.

Lemma length_zeros k : String.length (zeros k) = k.
Proof. induction k; simpl; congruence. Qed.

Lemma digitsValue_zeros k : digitsValue 10 (zeros k) = 0.
Proof.
  induction k as [|k IH]; [reflexivity|].
  cbn [zeros]. rewrite digitsValue_cons, IH. reflexivity.
Qed.

Lemma allChars_append p s t :
  allChars p (s +:+ t) = allChars p s && allChars p t.
Proof.
  induction s as [|c s IH]; [reflexivity|].
  rewrite append_cons. simpl. rewrite IH, andb_assoc. reflexivity.
Qed.

Lemma digitValue_bound radix c :
  isDigitOf radix c = true -> 0 <= default 0 (digitValue c) < radix.
Proof.
  unfold isDigitOf. destruct (digitValue c) as [d|] eqn:E; [|discriminate].
  intros L. apply Z.ltb_lt in L. simpl. split; [|exact L].
  unfold digitValue in E. repeat case_match; try discriminate; injection E as <-; lia.
Qed.

Lemma digitsValue_bound radix s :
  0 < radix ->
  allChars (isDigitOf radix) s = true ->
  0 <= digitsValue radix s < radix ^ Z.of_nat (String.length s).
Proof.
  intros R. induction s as [|c s IH]; intros A.
  - unfold digitsValue. simpl. lia.
  - simpl in A. apply andb_true_iff in A as [C A].
    rewrite digitsValue_cons. cbn [String.length].
    rewrite Nat2Z.inj_succ, Z.pow_succ_r by lia.
    pose proof (digitValue_bound radix c C). specialize (IH A).
    assert (0 < radix ^ Z.of_nat (String.length s)) by (apply Z.pow_pos_nonneg; lia).
    nia.
Qed.

Lemma fixedDigits_spec k m :
  0 <= m ->
  String.length (fixedDigits k m) = k /\
  allChars (isDigitOf 10) (fixedDigits k m) = true /\
  digitsValue 10 (fixedDigits k m) = m mod 10 ^ Z.of_nat k.
Proof.
  revert m. induction k as [|k IH]; intros m H.
  - simpl. rewrite Z.mod_1_r. auto.
  - cbn [fixedDigits].
    assert (D : 0 <= m / 10) by (apply Z.div_pos; lia).
    assert (M : 0 <= m mod 10 < 10) by (apply Z.mod_pos_bound; lia).
    destruct (IH (m / 10) D) as (L & A & V).
    rewrite length_append, allChars_append, digitsValue_append, L, A, V.
    repeat split.
    + simpl. lia.
    + simpl. rewrite isDigitOf_digitChar by lia. reflexivity.
    + unfold digitsValue at 1. simpl. rewrite digitValue_digitChar by lia.
      cbn [default]. change (Z.of_nat 1) with 1. rewrite Z.pow_1_r.
      rewrite Nat2Z.inj_succ, Z.pow_succ_r by lia.
      rewrite Z.rem_mul_r by (try apply Z.pow_pos_nonneg; lia).
      unfold id. lia.
Qed.

Lemma dropTrailingZeros_spec s :
  exists j, s = dropTrailingZeros s +:+ zeros j.
Proof.
  induction s as [|c s [j IH]]; [exists 0%nat; reflexivity|].
  cbn [dropTrailingZeros].
  destruct (dropTrailingZeros s) as [|d t] eqn:E.
  - rewrite append_empty_l in IH.
    destruct (Ascii.eqb_spec c "0") as [->|N].
    + exists (S j). rewrite IH. reflexivity.
    + exists j. rewrite IH. reflexivity.
  - exists j. rewrite IH at 1. reflexivity.
Qed.

Lemma dropTrailingZeros_idem s :
  dropTrailingZeros (dropTrailingZeros s) = dropTrailingZeros s.
Proof.
  induction s as [|c s IH]; [reflexivity|].
  cbn [dropTrailingZeros].
  destruct (dropTrailingZeros s) as [|d t] eqn:E.
  - destruct (Ascii.eqb_spec c "0") as [->|N]; [reflexivity|].
    simpl. destruct (Ascii.eqb_spec c "0"); congruence.
  - cbn [dropTrailingZeros]. cbn [dropTrailingZeros] in IH.
    rewrite IH. reflexivity.
Qed.

Lemma trimFraction_idem s : trimFraction (trimFraction s) = trimFraction s.
Proof.
  unfold trimFraction.
  destruct (dropTrailingZeros s) as [|d t] eqn:E; [reflexivity|].
  rewrite <- E, dropTrailingZeros_idem, E. reflexivity.
Qed.

(** What trimming keeps: the digits up to the last one that is not zero,
    or a single zero. *)
Lemma trimFraction_spec s :
  allChars (isDigitOf 10) s = true ->
  allChars (isDigitOf 10) (trimFraction s) = true /\
  ((exists j, s = trimFraction s +:+ zeros j) \/
   (trimFraction s = "0" /\ digitsValue 10 s = 0)).
Proof.
  intros A. destruct (dropTrailingZeros_spec s) as [j E].
  unfold trimFraction. destruct (dropTrailingZeros s) as [|d t].
  - split; [reflexivity|]. right. split; [reflexivity|].
    rewrite E, append_empty_l. apply digitsValue_zeros.
  - rewrite E, allChars_append in A. apply andb_true_iff in A as [A _].
    split; [exact A|]. left. exists j. exact E.
Qed.

Lemma decimal_digit_char c :
  isDigitOf 10 c = true -> c = digitChar (default 0 (digitValue c)).
Proof. destruct c as [[] [] [] [] [] [] [] []]; try discriminate; reflexivity. Qed.

(** Two strings of decimal digits of the same length that denote the
    same integer are the same string. *)
Lemma digits_injective s :
  forall t,
    allChars (isDigitOf 10) s = true ->
    allChars (isDigitOf 10) t = true ->
    String.length s = String.length t ->
    digitsValue 10 s = digitsValue 10 t ->
    s = t.
Proof.
  induction s as [|c s IH]; intros [|d t] AS AT L V; try discriminate; [reflexivity|].
  simpl in AS, AT. apply andb_true_iff in AS as [C AS].
  apply andb_true_iff in AT as [D AT].
  injection L as L. rewrite !digitsValue_cons, L in V.
  pose proof (digitsValue_bound 10 s ltac:(lia) AS) as BS.
  pose proof (digitsValue_bound 10 t ltac:(lia) AT) as BT.
  rewrite L in BS.
  pose proof (digitValue_bound 10 c C) as BC.
  pose proof (digitValue_bound 10 d D) as BD.
  assert (P : 0 < 10 ^ Z.of_nat (String.length t)) by (apply Z.pow_pos_nonneg; lia).
  assert (EC : default 0 (digitValue c) = default 0 (digitValue d)) by nia.
  assert (ES : digitsValue 10 s = digitsValue 10 t) by nia.
  rewrite (decimal_digit_char c C), (decimal_digit_char d D), EC.
  f_equal. apply IH; assumption.
Qed.

Lemma allChars_zeros k : allChars (isDigitOf 10) (zeros k) = true.
Proof. induction k; simpl; auto. Qed.

Lemma dropTrailingZeros_zeros j : dropTrailingZeros (zeros j) = EmptyString.
Proof. induction j as [|j IH]; [reflexivity|]. simpl. rewrite IH. reflexivity. Qed.

Lemma dropTrailingZeros_append_zeros s j :
  dropTrailingZeros (s +:+ zeros j) = dropTrailingZeros s.
Proof.
  induction s as [|c s IH].
  - rewrite append_empty_l. apply dropTrailingZeros_zeros.
  - rewrite append_cons. cbn [dropTrailingZeros]. rewrite IH. reflexivity.
Qed.

(** The 18 digits printed for a fraction are the digits entered, padded
    with zeros. *)
Lemma fractionDigits_padded fraction :
  allChars (isDigitOf 10) fraction = true ->
  (String.length fraction <= 18)%nat ->
  fractionDigits (digitsValue 10 fraction
                  * 10 ^ (18 - Z.of_nat (String.length fraction)))
  = fraction +:+ zeros (18 - String.length fraction).
Proof.
  intros A L.
  pose proof (digitsValue_bound 10 fraction ltac:(lia) A) as B.
  set (k := Z.of_nat (String.length fraction)) in *.
  assert (PK : 0 < 10 ^ k) by (apply Z.pow_pos_nonneg; lia).
  assert (PJ : 0 < 10 ^ (18 - k)) by (apply Z.pow_pos_nonneg; lia).
  assert (P18 : 10 ^ 18 = 10 ^ k * 10 ^ (18 - k)).
  { rewrite <- Z.pow_add_r by lia. f_equal. lia. }
  set (F := digitsValue 10 fraction * 10 ^ (18 - k)).
  assert (BF : 0 <= F < 10 ^ 18) by (subst F; nia).
  destruct (fixedDigits_spec 18 F ltac:(lia)) as (L18 & A18 & V18).
  change (10 ^ Z.of_nat 18) with (10 ^ 18) in V18.
  rewrite Z.mod_small in V18 by lia.
  apply digits_injective.
  - exact A18.
  - rewrite allChars_append, A, allChars_zeros. reflexivity.
  - unfold fractionDigits, decimals. rewrite L18, length_append, length_zeros. lia.
  - unfold fractionDigits, decimals. rewrite V18.
    rewrite digitsValue_append, digitsValue_zeros, length_zeros.
    rewrite Nat2Z.inj_sub by lia. change (Z.of_nat 18) with 18. fold k.
    subst F. lia.
Qed.

Lemma parseEther_value whole fraction x :
  validAmount whole fraction ->
  amountString whole fraction x ->
  parseEther x
  = Some (digitsValue 10 whole * 10 ^ 18
          + digitsValue 10 fraction * 10 ^ (18 - Z.of_nat (String.length fraction))).
Proof.
  intros (AW & AF & NE & LE) X.
  assert (S : splitPoint x = (whole, Some fraction) \/
              (fraction = EmptyString /\ splitPoint x = (whole, None))).
  { destruct X as [->|[-> ->]].
    - left. apply splitPoint_point, AW.
    - right. split; [reflexivity|]. apply splitPoint_digits, AW. }
  assert (P : parseEther x
              = (let fraction := fraction in
                 if allChars (isDigitOf 10) whole && allChars (isDigitOf 10) fraction
                    && negb (Nat.eqb (String.length whole + String.length fraction) 0)
                    && allChars (Ascii.eqb "0") (dropChars decimals fraction)
                 then
                   let kept := firstChars decimals fraction in
                   let scaled := kept +:+ zeros (decimals - String.length kept) in
                   Some (digitsValue 10 whole * 10 ^ Z.of_nat decimals
                         + digitsValue 10 scaled)
                 else None)).
  { unfold parseEther. destruct S as [->|[-> ->]]; reflexivity. }
  rewrite P. cbv zeta. unfold decimals.
  rewrite AW, AF, (dropChars_all 18 fraction LE), (firstChars_all 18 fraction LE).
  replace (Nat.eqb (String.length whole + String.length fraction) 0) with false
    by (symmetry; apply Nat.eqb_neq; lia).
  cbn [andb negb allChars]. f_equal. f_equal.
  rewrite digitsValue_append, digitsValue_zeros, length_zeros.
  rewrite Nat2Z.inj_sub by lia. change (Z.of_nat 18) with 18. lia.
Qed.

Lemma bigintToString_nonneg n : 0 <= n -> bigintToString n = integerToString 10 n.
Proof.
  intros H. unfold bigintToString.
  replace (n <? 0) with false by (symmetry; apply Z.ltb_ge; lia).
  rewrite Z.abs_eq by lia. reflexivity.
Qed.

Lemma formatEther_value n :
  0 <= n ->
  formatEther (bigintToString n)
  = Some (integerToString 10 (n / 10 ^ 18) +:+ "."
          +:+ trimFraction (fractionDigits (n mod 10 ^ 18))).
Proof.
  intros H. rewrite bigintToString_nonneg by assumption.
  destruct (integerToString_spec 10 n ltac:(lia) H) as (V & A & N).
  unfold formatEther. rewrite A, V.
  destruct (integerToString 10 n); [congruence | reflexivity].
Qed.

Lemma weiToEth_value n y :
  0 <= n -> formatEther (bigintToString n) = Some y -> weiToEth (bigintToString n) = y.
Proof.
  intros H F. unfold weiToEth. rewrite F.
  rewrite bigintToString_nonneg by assumption.
  destruct (integerToString_spec 10 n ltac:(lia) H) as (_ & _ & N).
  destruct (integerToString 10 n); [congruence | reflexivity].
Qed.

(** C3.  A non-negative decimal amount with at most 18 fractional digits
    converts to the integer [whole * 10^18 + fraction * 10^(18 - digits)],
    and formatting that integer gives back the same number in canonical
    form: the whole part as a numeral without leading zeros, a point, and
    the fraction digits entered with their trailing zeros trimmed (one
    digit is kept).  In the display
    unit, entering "1.0" stores the base-unit value
    1000000000000000000. *)
Theorem ether_round_trip (whole fraction x : string) :
  validAmount whole fraction ->
  amountString whole fraction x ->
  (exists weiValue whole' fraction',
      parseEther x = Some weiValue /\
      weiValue = digitsValue 10 whole * 10 ^ 18
                 + digitsValue 10 fraction
                   * 10 ^ (18 - Z.of_nat (String.length fraction)) /\
      formatEther (bigintToString weiValue) = Some (whole' +:+ "." +:+ fraction') /\
      weiToEth (bigintToString weiValue) = whole' +:+ "." +:+ fraction' /\
      sameAmount whole' fraction' whole fraction /\
      whole' = integerToString 10 (digitsValue 10 whole) /\
      fraction' = trimFraction fraction) /\
  (forall st,
      valueUnit st = eth ->
      TransactionRequest.value (formData (handleValueChange "1.0" st))
      = Some "1000000000000000000").
Proof.
  intros VA X. split.
  - pose proof (parseEther_value whole fraction x VA X) as P.
    destruct VA as (AW & AF & NE & LE).
    set (W := digitsValue 10 whole) in *.
    set (V := digitsValue 10 fraction) in *.
    set (k := Z.of_nat (String.length fraction)) in *.
    assert (BW : 0 <= W) by (apply digitsValue_nonneg; lia).
    assert (BV : 0 <= V < 10 ^ k) by (apply digitsValue_bound; [lia | assumption]).
    assert (K : 0 <= k <= 18) by (subst k; lia).
    assert (P18 : 10 ^ 18 = 10 ^ k * 10 ^ (18 - k)).
    { rewrite <- Z.pow_add_r by lia. f_equal. lia. }
    assert (PK : 0 < 10 ^ k) by (apply Z.pow_pos_nonneg; lia).
    assert (PJ : 0 < 10 ^ (18 - k)) by (apply Z.pow_pos_nonneg; lia).
    set (F := V * 10 ^ (18 - k)) in *.
    assert (BF : 0 <= F < 10 ^ 18) by (subst F; nia).
    set (n := W * 10 ^ 18 + F) in *.
    assert (BN : 0 <= n) by (subst n; nia).
    assert (Q : n / 10 ^ 18 = W).
    { subst n. rewrite Z.add_comm, Z.div_add by lia.
      rewrite Z.div_small by lia. reflexivity. }
    assert (R : n mod 10 ^ 18 = F).
    { subst n. rewrite Z.add_comm, Z.mod_add by lia.
      apply Z.mod_small. lia. }
    pose proof (formatEther_value n BN) as FE. rewrite Q, R in FE.
    destruct (fixedDigits_spec 18 F ltac:(lia)) as (L18 & A18 & V18).
    change (10 ^ Z.of_nat 18) with (10 ^ 18) in V18.
    rewrite Z.mod_small in V18 by lia.
    fold decimals in L18, A18, V18. fold (fractionDigits F) in L18, A18, V18.
    destruct (trimFraction_spec (fractionDigits F) A18) as (AT & T).
    exists n, (integerToString 10 W), (trimFraction (fractionDigits F)).
    split; [exact P|]. split; [reflexivity|]. split; [exact FE|].
    split; [apply weiToEth_value; assumption|].
    split; [|split; [reflexivity|]].
    2: { unfold F, V, k. rewrite fractionDigits_padded by assumption.
         unfold trimFraction. rewrite dropTrailingZeros_append_zeros. reflexivity. }
    (* the same number *)
    unfold sameAmount. rewrite !digitsValue_append.
    destruct (integerToString_spec 10 W ltac:(lia) BW) as (VW & _ & _).
    rewrite VW. fold W V k.
    set (t := trimFraction (fractionDigits F)) in *.
    set (kt := Z.of_nat (String.length t)).
    assert (PT : 0 < 10 ^ kt) by (apply Z.pow_pos_nonneg; subst kt; lia).
    destruct T as [[j E]|[E Z0]].
    + assert (LT : kt + Z.of_nat j = 18).
      { apply (f_equal String.length) in E.
        rewrite L18, length_append, length_zeros in E. subst kt. unfold decimals in E. lia. }
      assert (VT : F = digitsValue 10 t * 10 ^ Z.of_nat j).
      { rewrite <- V18, E, digitsValue_append, digitsValue_zeros, length_zeros. lia. }
      assert (PJ' : 0 < 10 ^ Z.of_nat j) by (apply Z.pow_pos_nonneg; lia).
      assert (P18' : 10 ^ 18 = 10 ^ kt * 10 ^ Z.of_nat j).
      { rewrite <- Z.pow_add_r by (subst kt; lia). f_equal. lia. }
      assert (C : digitsValue 10 t * 10 ^ k = V * 10 ^ kt).
      { apply (Z.mul_reg_r _ _ (10 ^ 18)); [lia|].
        rewrite P18' at 1. rewrite P18 at 1.
        transitivity (digitsValue 10 t * 10 ^ Z.of_nat j * (10 ^ k * 10 ^ kt));
          [ring|].
        rewrite <- VT. unfold F. ring. }
      nia.
    + rewrite E in *. subst kt. cbn [String.length] in *.
      rewrite V18 in Z0. unfold F in Z0.
      assert (V = 0) by nia.
      replace (digitsValue 10 "0") with 0 by reflexivity. nia.
  - intros st U. unfold handleValueChange. rewrite U. reflexivity.
Qed.

Lemma ether_round_trip_witness :
  parseEther "1.50" = Some 1500000000000000000 /\
  weiToEth (bigintToString 1500000000000000000) = "1.5".
Proof.
  assert (VA : validAmount "1" "50").
  { repeat split; simpl; lia. }
  destruct (proj1 (ether_round_trip "1" "50" "1.50" VA (or_introl eq_refl)))
    as (weiValue & whole' & fraction' & P & -> & _ & Wei & _).
  split; [exact P|]. reflexivity.
Defined.

End EthersFacts.

(** * Further properties of the code *)

Module CalldataFacts.
Import Regex Validation Spec StringFacts RegexFacts ValidationFacts.

Lemma Matches_star_class rs s :
  Matches (Star (Class rs)) s <-> allChars (inClass rs) s = true.
Proof.
  split.
  - intros H. remember (Star (Class rs)) as r eqn:E.
    induction H; try discriminate; [reflexivity|].
    injection E as ->. invert H. rewrite append_cons, append_empty_l. simpl.
    apply andb_true_iff. auto.
  - induction s as [|c s IH]; simpl; intros A; [constructor|].
    apply andb_true_iff in A as [C A].
    change (String c s) with (String.append (String c EmptyString) s).
    constructor; [constructor; assumption | auto].
Qed.

(** X1.  [isValidCalldata] accepts exactly the strings made of [0x]
    followed by any number of hexadecimal characters, none included; the
    number of characters need not be even. *)
Theorem isValidCalldata_iff (s : string) :
  isValidCalldata s = true <->
  exists h, s = String.append "0x" h /\ allChars isHexChar h = true.
Proof.
  unfold isValidCalldata, calldataPattern.
  rewrite test_spec, Matches_seq. split.
  - intros (s1 & s2 & -> & H1 & H2).
    apply Matches_lit in H1. apply Matches_star_class in H2.
    subst s1. exists s2. rewrite <- (allChars_ext _ _ _ hexClass_spec). auto.
  - intros (h & -> & A). exists "0x", h.
    repeat split; [apply Matches_lit; reflexivity|].
    apply Matches_star_class. rewrite (allChars_ext _ _ _ hexClass_spec). auto.
Qed.

Lemma isValidCalldata_iff_witness :
  isValidCalldata "0x" = true /\ isValidCalldata "0xa9059cbb0" = true.
Proof.
  split; apply (proj2 (isValidCalldata_iff _));
    [exists "" | exists "a9059cbb0"]; split; reflexivity.
Defined.

End CalldataFacts.

Module WalletUtilsFacts.
Import Number Js Async Wallet Ethers WalletUtils Validation Spec
       StringFacts EthersFacts ValidationFacts.

Lemma length_firstChars n s :
  String.length (firstChars n s) = Nat.min n (String.length s).
Proof.
  revert s. induction n as [|n IH]; intros [|c s]; simpl; try reflexivity.
  rewrite IH. reflexivity.
Qed.

Lemma length_dropChars n s :
  String.length (dropChars n s) = (String.length s - n)%nat.
Proof.
  revert s. induction n as [|n IH]; intros [|c s]; simpl; try reflexivity.
  apply IH.
Qed.

Lemma firstChars_min n s : firstChars (Nat.min n (String.length s)) s = firstChars n s.
Proof.
  revert s. induction n as [|n IH]; intros [|c s]; simpl; try reflexivity.
  rewrite IH. reflexivity.
Qed.

Lemma slice_head s n : 0 <= n -> slice s 0 (Some n) = firstChars (Z.to_nat n) s.
Proof.
  intros H. unfold slice. cbv zeta.
  replace (n <? 0) with false by (symmetry; apply Z.ltb_ge; lia).
  change (0 <? 0) with false. cbv iota.
  rewrite (Z.min_l 0) by lia. rewrite Z.sub_0_r.
  change (dropChars (Z.to_nat 0) s) with s.
  rewrite <- (firstChars_min (Z.to_nat n)). f_equal. lia.
Qed.

Lemma slice_tail s n :
  n < 0 -> slice s n None = dropChars (String.length s - Z.to_nat (- n)) s.
Proof.
  intros H. unfold slice.
  replace (n <? 0) with true by (symmetry; apply Z.ltb_lt; lia).
  replace (Z.to_nat (Z.max (Z.of_nat (String.length s) + n) 0))
    with (String.length s - Z.to_nat (- n))%nat by lia.
  apply firstChars_all. rewrite length_dropChars. lia.
Qed.

Lemma truthy_Str_nonempty s : s <> EmptyString -> truthy (Str s) = true.
Proof. destruct s; [congruence | reflexivity]. Qed.

(** X2.  For a non-empty address [formatAddress] shows its first six
    characters, three dots and its last four characters: thirteen
    characters as soon as the address has six; an address of at most four
    characters is shown whole on both sides of the dots. *)
Theorem formatAddress_shape (address : string) :
  address <> EmptyString ->
  formatAddress address
  = String.append (firstChars 6 address)
      (String.append "..." (dropChars (String.length address - 4) address))
  /\ ((6 <= String.length address)%nat ->
      String.length (formatAddress address) = 13%nat)
  /\ ((String.length address <= 4)%nat ->
      formatAddress address = String.append address (String.append "..." address)).
Proof.
  intros NE.
  assert (E : formatAddress address
              = String.append (firstChars 6 address)
                  (String.append "..." (dropChars (String.length address - 4) address))).
  { unfold formatAddress. rewrite truthy_Str_nonempty by assumption. simpl negb.
    cbv iota. rewrite slice_head by lia. rewrite (slice_tail address (-4)) by lia.
    reflexivity. }
  split; [exact E|]. split.
  - intros L. rewrite E, !length_append, length_firstChars, length_dropChars.
    change (String.length "...") with 3%nat. lia.
  - intros L. rewrite E. rewrite firstChars_all by lia.
    replace (String.length address - 4)%nat with 0%nat by lia.
    destruct address; reflexivity.
Qed.

Lemma formatAddress_shape_witness :
  formatAddress "0x6B175474E89094C44Da98b954EedeAC495271d0F" = "0x6B17...1d0F"
  /\ formatAddress "0xab" = "0xab...0xab".
Proof.
  split.
  - exact (proj1 (formatAddress_shape "0x6B175474E89094C44Da98b954EedeAC495271d0F"
                    ltac:(discriminate))).
  - apply (proj2 (proj2 (formatAddress_shape "0xab" ltac:(discriminate)))).
    simpl. lia.
Defined.

(** X3.  A provider found by [detectRabbyWallet] is cached: every later
    detection returns it without consulting the window, whatever the
    window then holds; an unsuccessful detection leaves the cache empty
    and the world unchanged.  No detection issues a request. *)
Theorem detectRabbyWallet_cache (window : option Window) (w : World) :
  match detectRabbyWallet window w with
  | (Normal (Some p), w1) =>
      cachedProvider w1 = Some p /\ requests w1 = requests w
      /\ forall window', detectRabbyWallet window' w1 = (Normal (Some p), w1)
  | (Normal None, w1) => w1 = w /\ cachedProvider w = None
  | (Abrupt _, _) => False
  end.
Proof.
  unfold detectRabbyWallet, bind, getCache, setCache, ret.
  destruct w as [cache reqs]. simpl.
  destruct cache as [p|]; simpl; [auto|].
  destruct window as [win|]; simpl; [|auto].
  destruct (rabby win) as [p|]; simpl; [auto|].
  destruct (ethereum win) as [p|]; simpl; [|auto].
  destruct (WalletProvider.isRabby p) as [[|]|]; simpl; auto.
Qed.

(** X4.  Once [clearWalletCache] has run, [detectRabbyWallet] looks at the
    window again and returns the provider that [getAvailableWallets] lists
    first, or [null] when that list is empty; every listed wallet is named
    Rabby and at most two are listed. *)
Theorem detect_after_clear (window : option Window) (w : World) :
  let w0 := snd (clearWalletCache w) in
  fst (detectRabbyWallet window w0)
  = Normal (hd_error (map AvailableWallet.provider (getAvailableWallets window)))
  /\ Forall (fun a => AvailableWallet.name a = "Rabby") (getAvailableWallets window)
  /\ (length (getAvailableWallets window) <= 2)%nat.
Proof.
  unfold clearWalletCache, detectRabbyWallet, getAvailableWallets,
    bind, getCache, setCache, ret.
  destruct w as [cache reqs]. simpl.
  destruct window as [win|]; simpl; [|auto].
  destruct (rabby win) as [p|], (ethereum win) as [q|]; simpl;
    try destruct (WalletProvider.isRabby q) as [[|]|]; simpl;
    repeat split; repeat constructor.
Qed.

End WalletUtilsFacts.

Module NetworkFacts.
Import Number Js Wallet Header Spec StringFacts NumberFacts RegistryFacts.

Lemma NETWORKS_Some k n :
  NETWORKS !! k = Some n ->
  (k = "1" /\ NetworkInfo.name n = "Ethereum Mainnet" /\ NetworkInfo.currencySymbol n = "ETH")
  \/ (k = "56" /\ NetworkInfo.name n = "BNB Smart Chain" /\ NetworkInfo.currencySymbol n = "BNB")
  \/ (k = "8453" /\ NetworkInfo.name n = "Base" /\ NetworkInfo.currencySymbol n = "ETH").
Proof.
  unfold NETWORKS. intros H.
  apply lookup_insert_Some in H as [[<- <-]|[_ H]]; [auto|].
  apply lookup_insert_Some in H as [[<- <-]|[_ H]]; [auto|].
  apply lookup_singleton_Some in H as [<- <-]. auto.
Qed.

Lemma NETWORKS_None k :
  k <> "1" -> k <> "56" -> k <> "8453" -> NETWORKS !! k = None.
Proof.
  intros A B C. unfold NETWORKS.
  rewrite !lookup_insert_ne by congruence.
  apply lookup_singleton_ne. congruence.
Qed.

Lemma NETWORKS_keys k :
  is_Some (NETWORKS !! k) <-> k = "1" \/ k = "56" \/ k = "8453".
Proof.
  split.
  - intros [n H]. apply NETWORKS_Some in H. tauto.
  - intros [-> | [-> | ->]]; eexists; reflexivity.
Qed.

Lemma objectPrototype_digits d : decimalDigits d -> objectPrototype d = None.
Proof.
  intros [N A]. destruct d as [|c d]; [congruence|].
  simpl in A. apply andb_true_iff in A as [C _].
  apply digit10_cases in C. simpl in C.
  repeat (destruct C as [<-|C]; [reflexivity|]). destruct C.
Qed.

Lemma prefix_digits d : decimalDigits d -> String.prefix "0x" d = false.
Proof.
  intros [N A]. destruct d as [|c1 d]; [congruence|].
  simpl in A. apply andb_true_iff in A as [C1 A].
  apply digit10_cases in C1. simpl in C1.
  destruct d as [|c2 d].
  - repeat (destruct C1 as [<-|C1]; [reflexivity|]). destruct C1.
  - simpl in A. apply andb_true_iff in A as [C2 _].
    apply digit10_cases in C2. simpl in C2.
    repeat (destruct C1 as [<-|C1];
            [repeat (destruct C2 as [<-|C2]; [reflexivity|]); destruct C2|]).
    destruct C1.
Qed.

Lemma normalizeChainId_digits d : decimalDigits d -> normalizeChainId d = d.
Proof. intros D. unfold normalizeChainId. rewrite prefix_digits by assumption. reflexivity. Qed.

Lemma readNETWORKS_digits d :
  decimalDigits d ->
  definedRead (readNETWORKS d) = true <-> d = "1" \/ d = "56" \/ d = "8453".
Proof.
  intros D. rewrite <- NETWORKS_keys. unfold readNETWORKS.
  rewrite objectPrototype_digits by assumption.
  destruct (NETWORKS !! d); simpl; split; eauto; try discriminate.
  intros [n E]. discriminate.
Qed.

Lemma integerToString_digits n : 0 <= n -> decimalDigits (integerToString 10 n).
Proof.
  intros H. destruct (integerToString_spec 10 n ltac:(lia) H) as (_ & A & N).
  split; assumption.
Qed.

Lemma integerToString_is n d :
  0 <= n -> integerToString 10 n = d -> n = digitsValue 10 d.
Proof.
  intros H <-. destruct (integerToString_spec 10 n ltac:(lia) H) as (V & _). auto.
Qed.

Lemma integerToString_known n :
  0 <= n ->
  (integerToString 10 n = "1" \/ integerToString 10 n = "56"
   \/ integerToString 10 n = "8453")
  <-> n = 1 \/ n = 56 \/ n = 8453.
Proof.
  intros H. split.
  - intros [E|[E|E]]; apply integerToString_is in E; auto.
  - intros [-> | [-> | ->]]; auto.
Qed.

(** X5.  [isChainSupported] accepts exactly three chains: an identifier
    written in decimal digits is supported when and only when it is
    ["1"], ["56"] or ["8453"], and an identifier written as [0x] followed
    by hexadecimal digits (denoting less than [2^53]) when and only when
    the integer it denotes is 1, 56 or 8453, however many leading zeros
    or capitals it is written with. *)
Theorem isChainSupported_exact :
  (forall d,
      decimalDigits d ->
      isChainSupported (Some d) = true <-> d = "1" \/ d = "56" \/ d = "8453")
  /\ (forall ds,
         hexDigits ds -> digitsValue 16 ds < 2 ^ 53 ->
         isChainSupported (Some (String.append "0x" ds)) = true
         <-> digitsValue 16 ds = 1 \/ digitsValue 16 ds = 56
             \/ digitsValue 16 ds = 8453).
Proof.
  split.
  - intros d D. rewrite isChainSupported_normalized, normalizeChainId_digits by assumption.
    apply readNETWORKS_digits. assumption.
  - intros ds Hx B.
    pose proof (digitsValue_nonneg 16 ds ltac:(lia)) as P.
    rewrite isChainSupported_normalized, normalizeChainId_hex by assumption.
    rewrite readNETWORKS_digits by (apply integerToString_digits; assumption).
    apply integerToString_known. assumption.
Qed.

Lemma isChainSupported_exact_witness :
  isChainSupported (Some "137") = false
  /\ isChainSupported (Some "0x0038") = true
  /\ isChainSupported (Some "0x89") = false.
Proof.
  destruct isChainSupported_exact as [Dec Hex].
  split; [|split].
  - destruct (isChainSupported (Some "137")) eqn:E; [|reflexivity].
    apply (Dec "137") in E; [|split; [discriminate | reflexivity]].
    destruct E as [E|[E|E]]; discriminate E.
  - apply (Hex "0038"); [split; [discriminate | reflexivity] | reflexivity |].
    right; left; reflexivity.
  - destruct (isChainSupported (Some "0x89")) eqn:E; [|reflexivity].
    apply (Hex "89") in E; [|split; [discriminate | reflexivity] | reflexivity].
    destruct E as [E|[E|E]]; discriminate E.
Defined.

(** X6.  [getCurrencySymbol] only ever answers ["ETH"] or ["BNB"], and it
    answers ["BNB"] exactly for the identifiers whose normal form is
    ["56"]; whenever it answers ["BNB"] the chain is a supported one. *)
Theorem getCurrencySymbol_range (chainId : option string) :
  (getCurrencySymbol chainId = "ETH" \/ getCurrencySymbol chainId = "BNB")
  /\ (getCurrencySymbol chainId = "BNB"
      <-> exists id, chainId = Some id /\ normalizeChainId id = "56")
  /\ (getCurrencySymbol chainId = "BNB" -> isChainSupported chainId = true).
Proof.
  destruct chainId as [id|].
  - rewrite getCurrencySymbol_normalized, isChainSupported_normalized.
    unfold readNETWORKS.
    destruct (NETWORKS !! normalizeChainId id) as [n|] eqn:K.
    + apply NETWORKS_Some in K as [(E & _ & S)|[(E & _ & S)|(E & _ & S)]];
        simpl; rewrite S; simpl; (split; [auto|]); (split; [|auto]);
        split; try discriminate; eauto;
        intros (id' & [= <-] & E'); rewrite E in E'; discriminate E'.
    + assert (N : normalizeChainId id <> "56") by (intros E; rewrite E in K; discriminate K).
      destruct (objectPrototype (normalizeChainId id)); simpl;
        (split; [auto|]); (split; [|discriminate]);
        split; try discriminate; intros (id' & [= <-] & E'); contradiction.
  - simpl. split; [auto|]. split; [|discriminate].
    split; [discriminate|]. intros (id & E & _). discriminate E.
Qed.

(** X7.  [getNetworkName] never shows an empty name.  It shows the
    registered name for an identifier whose normal form is a key of the
    registry, and ["Chain ID: "] followed by the decimal identifier for
    every other numeric identifier, decimal or hexadecimal. *)
Theorem getNetworkName_shown :
  (forall chainId, getNetworkName chainId <> EmptyString)
  /\ (forall id n,
         NETWORKS !! normalizeChainId id = Some n ->
         id <> EmptyString /\ getNetworkName (Some id) = NetworkInfo.name n)
  /\ (forall d,
         decimalDigits d -> NETWORKS !! d = None ->
         getNetworkName (Some d) = String.append "Chain ID: " d)
  /\ (forall ds,
         hexDigits ds -> digitsValue 16 ds < 2 ^ 53 ->
         NETWORKS !! integerToString 10 (digitsValue 16 ds) = None ->
         getNetworkName (Some (String.append "0x" ds))
         = String.append "Chain ID: " (integerToString 10 (digitsValue 16 ds))).
Proof.
  assert (G : forall id, id <> EmptyString ->
            getNetworkName (Some id)
            = let fallback := String.append "Chain ID: " (normalizeChainId id) in
              match readNETWORKS (normalizeChainId id) with
              | Registered network =>
                  if truthy (Str (NetworkInfo.name network))
                  then NetworkInfo.name network else fallback
              | Inherited (Some f) => if truthy (Str f) then f else fallback
              | Inherited None | Unset => fallback
              end).
  { intros [|c id] N; [congruence | reflexivity]. }
  assert (F : forall s, String.append "Chain ID: " s <> EmptyString).
  { intros s. rewrite append_cons. discriminate. }
  assert (T : forall s, truthy (Str s) = true -> s <> EmptyString).
  { intros [|c s]; [discriminate | discriminate]. }
  split; [|split; [|split]].
  - intros [[|c id]|]; [discriminate| |discriminate].
    rewrite G by discriminate. cbv zeta.
    destruct (readNETWORKS _) as [n|[f|]|]; auto.
    + destruct (truthy (Str (NetworkInfo.name n))) eqn:E; auto.
    + destruct (truthy (Str f)) eqn:E; auto.
  - intros id n K.
    assert (N : id <> EmptyString).
    { intros ->. discriminate K. }
    split; [exact N|]. rewrite G by exact N. cbv zeta.
    unfold readNETWORKS. rewrite K.
    apply NETWORKS_Some in K as [(_ & -> & _)|[(_ & -> & _)|(_ & -> & _)]]; reflexivity.
  - intros d D K. rewrite G by apply D. cbv zeta.
    rewrite normalizeChainId_digits by assumption.
    unfold readNETWORKS. rewrite K, objectPrototype_digits by assumption. reflexivity.
  - intros ds Hx B K.
    pose proof (digitsValue_nonneg 16 ds ltac:(lia)) as P.
    rewrite G by (rewrite append_cons; discriminate). cbv zeta.
    rewrite normalizeChainId_hex by assumption.
    unfold readNETWORKS.
    rewrite K, objectPrototype_digits by (apply integerToString_digits; assumption).
    reflexivity.
Qed.

Lemma getNetworkName_shown_witness :
  getNetworkName (Some "0x2105") = "Base"
  /\ getNetworkName (Some "137") = "Chain ID: 137"
  /\ getNetworkName (Some "0x89") = "Chain ID: 137".
Proof.
  destruct getNetworkName_shown as (_ & Reg & Dec & Hex).
  split; [|split].
  - apply (Reg "0x2105"
             (NetworkInfo.mk "8453" "Base" None (Some "https://basescan.org") "ETH")).
    reflexivity.
  - apply (Dec "137"); [split; [discriminate | reflexivity] | reflexivity].
  - apply (Hex "89"); [split; [discriminate | reflexivity] | reflexivity | reflexivity].
Defined.

(** X8.  [getNetworkIcon] shows the link emoji exactly for the chains
    [isChainSupported] rejects, one of the three network images exactly
    when the normal form of the identifier is a key of the registry, and
    the question-mark placeholder exactly for the keys the registry
    object inherits from its prototype. *)
Theorem getNetworkIcon_cases (chainId : option string) :
  (getNetworkIcon chainId = LinkEmoji <-> isChainSupported chainId = false)
  /\ (In (getNetworkIcon chainId) [EthereumIcon; BnbIcon; BaseIcon]
      <-> exists id, chainId = Some id /\ is_Some (NETWORKS !! normalizeChainId id))
  /\ (getNetworkIcon chainId = Placeholder
      <-> exists id, chainId = Some id /\ id <> EmptyString
                     /\ NETWORKS !! normalizeChainId id = None
                     /\ is_Some (objectPrototype (normalizeChainId id))).
Proof.
  destruct chainId as [[|c id]|].
  - simpl. split; [tauto|]. split.
    + split; [intros [E|[E|[E|[]]]]; discriminate E|].
      intros (id & [= <-] & [n K]). discriminate K.
    + split; [discriminate|]. intros (id & [= <-] & N & _). congruence.
  - set (s := String c id).
    change (getNetworkIcon (Some s))
      with (match readNETWORKS (normalizeChainId s) with
            | Unset => LinkEmoji
            | Registered _ | Inherited _ =>
                if String.eqb (normalizeChainId s) "1" then EthereumIcon
                else if String.eqb (normalizeChainId s) "56" then BnbIcon
                else if String.eqb (normalizeChainId s) "8453" then BaseIcon
                else Placeholder
            end).
    rewrite isChainSupported_normalized. unfold readNETWORKS.
    destruct (NETWORKS !! normalizeChainId s) as [n|] eqn:K.
    + assert (I : In (if String.eqb (normalizeChainId s) "1" then EthereumIcon
                      else if String.eqb (normalizeChainId s) "56" then BnbIcon
                      else if String.eqb (normalizeChainId s) "8453" then BaseIcon
                      else Placeholder) [EthereumIcon; BnbIcon; BaseIcon]).
      { destruct (NETWORKS_Some _ _ K) as [(E & _)|[(E & _)|(E & _)]];
          rewrite E; simpl; tauto. }
      simpl definedRead. split; [|split].
      * split; [|discriminate]. intros E. rewrite E in I.
        destruct I as [F|[F|[F|[]]]]; discriminate F.
      * split; [|intros _; exact I]. intros _. exists s. split; [reflexivity|].
        eexists; exact K.
      * split.
        -- intros E. rewrite E in I. destruct I as [F|[F|[F|[]]]]; discriminate F.
        -- intros (id' & [= <-] & _ & K' & _). rewrite K in K'. discriminate K'.
    + destruct (objectPrototype (normalizeChainId s)) as [m|] eqn:O.
      * assert (N1 : String.eqb (normalizeChainId s) "1" = false).
        { apply String.eqb_neq. intros E. rewrite E in O. discriminate O. }
        assert (N2 : String.eqb (normalizeChainId s) "56" = false).
        { apply String.eqb_neq. intros E. rewrite E in O. discriminate O. }
        assert (N3 : String.eqb (normalizeChainId s) "8453" = false).
        { apply String.eqb_neq. intros E. rewrite E in O. discriminate O. }
        rewrite N1, N2, N3. simpl.
        split; [split; discriminate|]. split.
        -- split; [intros [E|[E|[E|[]]]]; discriminate E|].
           intros (id' & [= <-] & [n K']). rewrite K in K'. discriminate K'.
        -- split; [|reflexivity]. intros _. exists s.
           repeat split; [discriminate | assumption | rewrite O; eexists; reflexivity].
      * simpl. split; [tauto|]. split.
        -- split; [intros [E|[E|[E|[]]]]; discriminate E|].
           intros (id' & [= <-] & [n K']). rewrite K in K'. discriminate K'.
        -- split; [discriminate|].
           intros (id' & [= <-] & _ & _ & [m O']). rewrite O in O'. discriminate O'.
  - simpl. split; [tauto|]. split.
    + split; [intros [E|[E|[E|[]]]]; discriminate E|].
      intros (id & E & _). discriminate E.
    + split; [discriminate|]. intros (id & E & _). discriminate E.
Qed.

End NetworkFacts.

Module RequestFacts.
Import Number Js Async Wallet Eip7702 Spec JsFacts WalletFacts ConnectFacts.

Lemma sendTransaction_outcome provider transaction w :
  exists result w',
    sendTransaction provider transaction w = (Normal result, w') /\
    cachedProvider w' = cachedProvider w /\
    (TransactionResult.success result = true ->
     TransactionResult.error result = None) /\
    (TransactionResult.success result = false ->
     exists msg, TransactionResult.error result = Some msg) /\
    (requests w' = requests w ++ [ethAccounts]
     \/ exists accounts,
          WalletProvider.request provider (requests w) ethAccounts = Resolved accounts
          /\ accountsMissing accounts = false
          /\ requests w'
             = requests w ++ [ethAccounts; ethSendTransaction (firstOf accounts) transaction]).
Proof.
  rewrite sendTransaction_run.
  destruct (WalletProvider.request provider (requests w) ethAccounts)
    as [accounts|e] eqn:R.
  - destruct (accountsMissing accounts) eqn:A.
    + destruct (caught_total (newError "No accounts connected") (after w [ethAccounts]))
        as (msg & -> & _).
      eexists _, _. split; [reflexivity|]. simpl. repeat split; eauto; discriminate.
    + cbv zeta.
      destruct (WalletProvider.request provider (requests w ++ [ethAccounts]) _)
        as [txHash|e].
      * eexists _, _. split; [reflexivity|]. simpl.
        repeat split; eauto; discriminate.
      * destruct (caught_total e
                    (after w [ethAccounts; ethSendTransaction (firstOf accounts) transaction]))
          as (msg & -> & _).
        eexists _, _. split; [reflexivity|]. simpl. repeat split; eauto; discriminate.
  - destruct (caught_total e (after w [ethAccounts])) as (msg & -> & _).
    eexists _, _. split; [reflexivity|]. simpl. repeat split; eauto; discriminate.
Qed.

(** X9.  [sendTransaction] issues either the account query alone or the
    account query followed by exactly one [eth_sendTransaction], whose
    sender is the first account the wallet listed and whose recipient and
    data are the transaction's; nothing is sent when the wallet lists no
    account, and the cached provider is left as it was. *)
Theorem sendTransaction_requests
    (provider : WalletProvider.t) (transaction : TransactionRequest.t) (w : World) :
  let w' := snd (sendTransaction provider transaction w) in
  cachedProvider w' = cachedProvider w
  /\ (requests w' = requests w ++ [ethAccounts]
      \/ exists accounts,
           WalletProvider.request provider (requests w) ethAccounts = Resolved accounts
           /\ accountsMissing accounts = false
           /\ requests w'
              = requests w
                ++ [ethAccounts;
                    RequestArgs.mk "eth_sendTransaction"
                      (Some [Obj false
                               ([("from", firstOf accounts);
                                 ("to", Str (TransactionRequest.to transaction));
                                 ("data", Str (TransactionRequest.data transaction))]
                                ++ match TransactionRequest.value transaction with
                                   | Some (String c v) => [("value", Str (String c v))]
                                   | _ => []
                                   end)])])
  /\ (forall accounts,
         WalletProvider.request provider (requests w) ethAccounts = Resolved accounts ->
         noAccounts accounts ->
         requests w' = requests w ++ [ethAccounts]).
Proof.
  cbv zeta.
  destruct (sendTransaction_outcome provider transaction w)
    as (result & w' & E & C & _ & _ & Q).
  split; [rewrite E; exact C|]. split.
  - rewrite E. simpl. destruct Q as [Q|(accounts & R & A & Q)]; [left; exact Q|].
    right. exists accounts. split; [exact R|]. split; [exact A|].
    rewrite Q. unfold ethSendTransaction, txParams.
    destruct (TransactionRequest.value transaction) as [[|c v]|]; reflexivity.
  - intros accounts R N. rewrite sendTransaction_run, R.
    rewrite (accountsMissing_noAccounts _ N).
    destruct (caught_total (newError "No accounts connected") (after w [ethAccounts]))
      as (msg & -> & _).
    reflexivity.
Qed.

Lemma sendTransaction_requests_witness :
  requests (snd (sendTransaction
                   (WalletProvider.mk (fun _ _ => Resolved (Arr [])) (Some true))
                   sampleTransaction freshWorld))
  = [ethAccounts].
Proof.
  apply (proj2 (proj2 (sendTransaction_requests
                         (WalletProvider.mk (fun _ _ => Resolved (Arr [])) (Some true))
                         sampleTransaction freshWorld)) (Arr [])).
  - reflexivity.
  - right; right; reflexivity.
Defined.


Lemma detectRabbyWallet_found window w0 provider w :
  detectRabbyWallet window w0 = (Normal (Some provider), w) ->
  cachedProvider w = Some provider /\ requests w = requests w0.
Proof.
  unfold detectRabbyWallet, bind, getCache, setCache, ret.
  destruct w0 as [cache reqs]. simpl.
  destruct cache as [p|]; simpl; [intros [= <- <-]; auto|].
  destruct window as [win|]; simpl; [|discriminate].
  destruct (rabby win) as [p|]; simpl; [intros [= <- <-]; auto|].
  destruct (ethereum win) as [p|]; simpl; [|discriminate].
  destruct (WalletProvider.isRabby p) as [[|]|]; simpl; try discriminate.
  intros [= <- <-]; auto.
Qed.

Section WithEngine.
Variable stringIsPositive : string -> bool.

(** X10.  [connectWallet] only ever queries the wallet: whatever the
    provider answers, the requests it adds are [eth_accounts], then
    possibly [eth_requestAccounts], then possibly [eth_chainId], at most
    three and in that order.  When it returns a connection the last
    request was [eth_chainId], and the provider it returns is the one
    left in the cache. *)
Theorem connectWallet_requests (window : option Window) (w0 : World) :
  exists more,
    requests (snd (connectWallet stringIsPositive window w0)) = requests w0 ++ more
    /\ In more [[]; [ethAccounts]; [ethAccounts; ethChainId];
                [ethAccounts; ethRequestAccounts];
                [ethAccounts; ethRequestAccounts; ethChainId]]
    /\ forall connection,
         fst (connectWallet stringIsPositive window w0) = Normal connection ->
         last more = Some ethChainId
         /\ cachedProvider (snd (connectWallet stringIsPositive window w0))
            = Some (Connection.provider connection).
Proof.
  destruct (detectRabbyWallet_requests window w0) as ([provider|] & w & D & Q).
  2: { rewrite (connectWallet_undetected _ _ _ _ D). exists []. simpl.
       rewrite List.app_nil_r. split; [exact Q|]. split; [auto|]. discriminate. }
  destruct (detectRabbyWallet_found _ _ _ _ D) as [C _].
  rewrite <- Q.
  pattern (connectWallet stringIsPositive window w0).
  match goal with |- ?P _ => remember P as goal eqn:G end.
  unfold connectWallet; unfold bind at 1; rewrite D;
    unfold tryCatch, bind, await_request, lift, ret, throw;
    fold ethAccounts ethRequestAccounts ethChainId.
  repeat (match goal with
          | |- context [match ?x with _ => _ end] =>
              lazymatch x with
              | context [match _ with _ => _ end] => fail
              | _ => destruct x eqn:?
              end
          end; simpl);
    subst goal; simpl; rewrite <- ?List.app_assoc; simpl;
    eexists; (split; [reflexivity|]); (split; [simpl; tauto|]);
    try discriminate; intros connection [= <-]; simpl; auto.
Qed.

End WithEngine.

Lemma switchNetworkAndUpdateState_run provider chainId currentState w :
  let updated :=
    WalletState.mk (WalletState.isConnected currentState)
      (WalletState.account currentState) (Some chainId)
      (WalletState.provider currentState) in
  switchNetworkAndUpdateState provider chainId currentState w
  = match switchNetwork provider chainId w with
    | (Normal _, w') => (Normal updated, w')
    | (Abrupt e, w') => (Abrupt e, w')
    end.
Proof.
  unfold switchNetworkAndUpdateState, tryCatch, bind, ret, throw.
  destruct (switchNetwork provider chainId w) as [[[]|e] w']; reflexivity.
Qed.

(** X11.  Whenever [switchNetworkAndUpdateState] returns, the state it
    returns is the current state with only [chainId] replaced by the
    requested identifier.  It returns when the switch request resolves;
    it also returns, after that one request, when the request was
    rejected with code 4902 for an identifier the registry has no entry
    for, although no chain was switched or added.  A rejection with
    another code is rethrown as it is. *)
Theorem switchNetworkAndUpdateState_result
    (provider : WalletProvider.t) (chainId : string)
    (currentState : WalletState.t) (w : World) :
  let updated :=
    WalletState.mk (WalletState.isConnected currentState)
      (WalletState.account currentState) (Some chainId)
      (WalletState.provider currentState) in
  let run := switchNetworkAndUpdateState provider chainId currentState w in
  (forall state, fst run = Normal state -> state = updated)
  /\ (forall v,
         WalletProvider.request provider (requests w) (switchRequest chainId)
           = Resolved v ->
         run = (Normal updated, after w [switchRequest chainId]))
  /\ (forall e,
         WalletProvider.request provider (requests w) (switchRequest chainId)
           = Rejected e ->
         getProp e "code" = Normal (Num (Int 4902)) ->
         readNETWORKS chainId = Unset ->
         run = (Normal updated, after w [switchRequest chainId]))
  /\ (forall e code,
         WalletProvider.request provider (requests w) (switchRequest chainId)
           = Rejected e ->
         getProp e "code" = Normal code ->
         strictEquals code (Num (Int 4902)) = false ->
         run = (Abrupt e, after w [switchRequest chainId])).
Proof.
  cbv zeta. rewrite switchNetworkAndUpdateState_run, switchNetwork_run. cbv zeta.
  split; [|split; [|split]].
  - intros state.
    destruct (WalletProvider.request provider (requests w) (switchRequest chainId))
      as [v|e]; simpl; [intros [= <-]; reflexivity|].
    destruct (getProp e "code") as [code|t]; simpl; [|discriminate].
    destruct (strictEquals code (Num (Int 4902))); simpl; [|discriminate].
    destruct (readNETWORKS chainId) as [network|member|]; simpl;
      try (destruct (WalletProvider.request provider _ _)); simpl;
      try discriminate; intros [= <-]; reflexivity.
  - intros v ->. reflexivity.
  - intros e -> -> ->. reflexivity.
  - intros e code -> -> ->. reflexivity.
Qed.

Lemma switchNetworkAndUpdateState_result_witness :
  fst (switchNetworkAndUpdateState unknownChainProvider "137"
         (WalletState.mk true None (Some "1") (Some unknownChainProvider)) freshWorld)
  = Normal (WalletState.mk true None (Some "137") (Some unknownChainProvider)).
Proof.
  rewrite (proj1 (proj2 (proj2 (switchNetworkAndUpdateState_result
                                  unknownChainProvider "137"
                                  (WalletState.mk true None (Some "1")
                                     (Some unknownChainProvider)) freshWorld)))
             unknownChain eq_refl eq_refl eq_refl).
  reflexivity.
Defined.

(** X12.  [detectEIP7702User] is [checkAddressHasCode]: its own [catch]
    is never entered, and on every provider and address the two end in
    the same way, with the same answer, after the same single
    [eth_getCode] request. *)
Theorem detectEIP7702User_is_check
    (provider : WalletProvider.t) (userAddress : string) (w : World) :
  detectEIP7702User provider userAddress w = checkAddressHasCode provider userAddress w
  /\ requests (snd (detectEIP7702User provider userAddress w))
     = requests w ++ [ethGetCode userAddress]
  /\ exists b, fst (detectEIP7702User provider userAddress w) = Normal b.
Proof.
  unfold detectEIP7702User, checkAddressHasCode, tryCatch, bind, await_request, ret.
  fold (ethGetCode userAddress).
  destruct (WalletProvider.request provider (requests w) (ethGetCode userAddress));
    simpl; eauto.
Qed.

End RequestFacts.

Module AppFacts.
Import Number Js Async Wallet Spec NumberFacts WalletFacts ConnectFacts RequestFacts.

Lemma digitsOf_nonempty fuel radix n acc :
  acc <> EmptyString -> digitsOf fuel radix n acc <> EmptyString.
Proof.
  revert n acc. induction fuel as [|f IH]; intros n acc N; simpl; [exact N|].
  destruct (n <? radix); [discriminate|]. apply IH. discriminate.
Qed.

Lemma integerToString_nonempty radix n : integerToString radix n <> EmptyString.
Proof.
  unfold integerToString. simpl.
  destruct (n <? radix); [discriminate|]. apply digitsOf_nonempty. discriminate.
Qed.

Lemma toString10_nonempty x : toString 10 x <> EmptyString.
Proof.
  destruct x as [|[|]|z]; try discriminate.
  unfold toString. change (10 =? 10) with true. cbv iota.
  intros E. apply StringFacts.append_eq_empty in E as [_ E]. revert E.
  unfold decimalMagnitude.
  destruct (Z.abs z <? 2 ^ 53); [apply integerToString_nonempty|].
  cbv zeta. destruct (shortestDecimal (Z.abs z) <? 10 ^ 21);
    [apply integerToString_nonempty|].
  unfold exponential. cbv zeta.
  destruct (dropTrailingZeros _) as [|d [|c rest]]; discriminate.
Qed.

(** X13.  [handleTransactionSubmit] never throws and leaves the wallet
    state and the unsupported-chain flag alone.  Without a provider it
    issues no request and reports "No wallet connected".  With a provider
    it ends with [isSubmitting] false, and the error is cleared exactly
    when [sendTransaction] reported success.  In every case the
    notification is shown exactly when an error is set, and the error
    shown is never the empty string. *)
Theorem handleTransactionSubmit_outcome
    (transaction : TransactionRequest.t) (st : App.State) (w : World) :
  exists st' w',
    App.handleTransactionSubmit transaction st w = (Normal st', w')
    /\ App.walletState st' = App.walletState st
    /\ App.isUnsupportedChain st' = App.isUnsupportedChain st
    /\ (App.showNotification st' = true <-> App.error st' <> None)
    /\ App.error st' <> Some EmptyString
    /\ match WalletState.provider (App.walletState st) with
       | None =>
           w' = w /\ App.error st' = Some "No wallet connected"
           /\ App.isSubmitting st' = App.isSubmitting st
       | Some provider =>
           App.isSubmitting st' = false
           /\ exists result,
                sendTransaction provider transaction w = (Normal result, w')
                /\ (App.error st' = None <-> TransactionResult.success result = true)
       end.
Proof.
  unfold App.handleTransactionSubmit.
  destruct (WalletState.provider (App.walletState st)) as [provider|].
  - destruct (sendTransaction_outcome provider transaction w)
      as (result & w' & E & _ & OK & KO & _).
    unfold tryCatch, bind, ret. rewrite E.
    destruct (TransactionResult.success result) eqn:S; simpl.
    + eexists _, _. split; [reflexivity|]. simpl.
      split; [reflexivity|]. split; [reflexivity|].
      split; [split; [discriminate | congruence]|].
      split; [discriminate|]. split; [reflexivity|].
      exists result. tauto.
    + eexists _, _. split; [reflexivity|]. simpl.
      split; [reflexivity|]. split; [reflexivity|].
      split; [split; [discriminate | reflexivity]|].
      split; [destruct (TransactionResult.error result) as [[|c m]|]; simpl; discriminate|].
      split; [reflexivity|].
      exists result. split; [reflexivity|]. split; [discriminate | congruence].
  - eexists _, _. split; [reflexivity|]. simpl.
    split; [reflexivity|]. split; [reflexivity|].
    split; [split; [discriminate | reflexivity]|].
    split; [discriminate|]. auto.
Qed.

Lemma handleChainSelect_run chainId st provider w :
  WalletState.provider (App.walletState st) = Some provider ->
  WalletState.isConnected (App.walletState st) = true ->
  App.handleChainSelect chainId st w
  = match switchNetwork provider chainId w with
    | (Normal _, w') =>
        (Normal
           (App.mkState
              (WalletState.mk (WalletState.isConnected (App.walletState st))
                 (WalletState.account (App.walletState st)) (Some chainId)
                 (WalletState.provider (App.walletState st)))
              (App.isSubmitting st) (App.error st) (App.showNotification st)
              (negb (isChainSupported (Some chainId)))), w')
    | (Abrupt _, w') => (Normal st, w')
    end.
Proof.
  intros P C. unfold App.handleChainSelect. rewrite P, C.
  unfold tryCatch at 1. unfold bind at 1.
  rewrite switchNetworkAndUpdateState_run. cbv zeta.
  destruct (switchNetwork provider chainId w) as [[[]|e] w']; rewrite ?P, ?C; reflexivity.
Qed.

(** X14.  [handleChainSelect] never throws, and it either leaves the
    whole state as it was or sets the chain identifier to the selected
    one together with the matching unsupported-chain flag, touching
    nothing else.  Without a connected wallet it takes the second course
    and issues no request.  With one, a rejected switch (any code but
    4902) is swallowed: the state stays as it was and no error is
    recorded. *)
Theorem handleChainSelect_outcome (chainId : string) (st : App.State) (w : World) :
  let selected :=
    App.mkState
      (WalletState.mk (WalletState.isConnected (App.walletState st))
         (WalletState.account (App.walletState st)) (Some chainId)
         (WalletState.provider (App.walletState st)))
      (App.isSubmitting st) (App.error st) (App.showNotification st)
      (negb (isChainSupported (Some chainId))) in
  exists st' w',
    App.handleChainSelect chainId st w = (Normal st', w')
    /\ (st' = st \/ st' = selected)
    /\ (WalletState.provider (App.walletState st) = None
        \/ WalletState.isConnected (App.walletState st) = false ->
        st' = selected /\ w' = w)
    /\ (forall provider e code,
           WalletState.provider (App.walletState st) = Some provider ->
           WalletState.isConnected (App.walletState st) = true ->
           WalletProvider.request provider (requests w) (switchRequest chainId)
             = Rejected e ->
           getProp e "code" = Normal code ->
           strictEquals code (Num (Int 4902)) = false ->
           st' = st /\ w' = after w [switchRequest chainId]).
Proof.
  cbv zeta.
  destruct (WalletState.provider (App.walletState st)) as [provider|] eqn:P;
    [destruct (WalletState.isConnected (App.walletState st)) eqn:C|].
  - rewrite (handleChainSelect_run chainId st provider w P C).
    rewrite P, C.
    destruct (switchNetwork provider chainId w) as [[[]|e] w'] eqn:E.
    + eexists _, _. split; [reflexivity|]. split; [right; reflexivity|].
      split; [intros [F|F]; discriminate F|].
      intros provider' e code [= <-] _ R G S.
      rewrite switchNetwork_run in E. cbv zeta in E. rewrite R, G, S in E.
      discriminate E.
    + eexists _, _. split; [reflexivity|]. split; [left; reflexivity|].
      split; [intros [F|F]; discriminate F|].
      intros provider' e' code [= <-] _ R G S.
      rewrite switchNetwork_run in E. cbv zeta in E. rewrite R, G, S in E.
      injection E as _ <-. auto.
  - unfold App.handleChainSelect. rewrite P, C.
    eexists _, _. split; [reflexivity|]. split; [right; reflexivity|].
    split; [auto|]. intros provider' e code _ F. discriminate F.
  - unfold App.handleChainSelect. rewrite P.
    eexists _, _. split; [reflexivity|]. split; [right; reflexivity|].
    split; [auto|]. intros provider' e code F. discriminate F.
Qed.


Section WithEngine.
Variable stringIsPositive : string -> bool.

Lemma connectWallet_chainId window w0 :
  match connectWallet stringIsPositive window w0 with
  | (Normal connection, _) =>
      exists x, Connection.chainId connection = toString 10 x
  | (Abrupt _, _) => True
  end.
Proof.
  destruct (detectRabbyWallet_requests window w0) as ([provider|] & w & D & Q).
  2: { rewrite (connectWallet_undetected _ _ _ _ D). exact I. }
  pattern (connectWallet stringIsPositive window w0).
  match goal with |- ?P _ => remember P as goal eqn:G end.
  unfold connectWallet; unfold bind at 1; rewrite D;
    unfold tryCatch, bind, await_request, lift, ret, throw.
  repeat (match goal with
          | |- context [match ?x with _ => _ end] =>
              lazymatch x with
              | context [match _ with _ => _ end] => fail
              | _ => destruct x eqn:?
              end
          end; simpl);
    subst goal; simpl; eauto.
Qed.

(** X15.  Connecting from the header and connecting automatically on
    mount agree.  Neither throws and both issue the same requests; the
    header ends with [isConnecting] false.  When the connection fails
    the header hands nothing over and the automatic connect leaves the
    application state as it was, with no error shown.  When it succeeds
    the wallet state the header hands over is connected, it is the one
    the automatic connect stores, and [handleWalletConnect] computes
    for it the same unsupported-chain flag. *)
Theorem connect_paths_agree
    (window : option Window) (hst : Header.State) (st : App.State) (w : World) :
  exists hst' handed st' w',
    Header.handleConnect stringIsPositive window hst w = (Normal (hst', handed), w')
    /\ App.autoConnect stringIsPositive window st w = (Normal st', w')
    /\ w' = snd (connectWallet stringIsPositive window w)
    /\ Header.isConnecting hst' = false
    /\ Header.showChainSelector hst' = Header.showChainSelector hst
    /\ App.error st' = App.error st
    /\ App.showNotification st' = App.showNotification st
    /\ match handed with
       | None =>
           st' = st
           /\ exists e, fst (connectWallet stringIsPositive window w) = Abrupt e
       | Some state =>
           WalletState.isConnected state = true
           /\ App.walletState st' = state
           /\ App.walletState (App.handleWalletConnect state st) = state
           /\ App.isUnsupportedChain st'
              = App.isUnsupportedChain (App.handleWalletConnect state st)
       end.
Proof.
  unfold Header.handleConnect, App.autoConnect, tryCatch, bind, ret.
  pose proof (connectWallet_chainId window w) as K.
  destruct (connectWallet stringIsPositive window w) as [[connection|e] w'].
  - destruct K as [x K]. eexists _, _, _, _. split; [reflexivity|].
    split; [reflexivity|]. simpl. repeat split.
    rewrite K. pose proof (toString10_nonempty x) as N.
    destruct (toString 10 x); [congruence | reflexivity].
  - eexists _, _, _, _. split; [reflexivity|]. split; [reflexivity|].
    simpl. repeat split. eauto.
Qed.

End WithEngine.

(** X16.  The state the header hands over on an [accountsChanged] event
    keeps the chain and the provider; with an empty account list it is
    disconnected and has no account, and [handleWalletConnect] then
    clears the error, the notification and the unsupported-chain flag.
    After [handleDisconnect] the provider is gone as well, so a submitted
    transaction issues no request and reports "No wallet connected". *)
Theorem disconnect_outcome
    (walletState : WalletState.t) (accounts : list value) (st : App.State)
    (transaction : TransactionRequest.t) (w : World) :
  let changed := Header.handleAccountsChanged walletState accounts in
  WalletState.chainId changed = WalletState.chainId walletState
  /\ WalletState.provider changed = WalletState.provider walletState
  /\ (accounts = [] ->
      WalletState.isConnected changed = false
      /\ WalletState.account changed = None
      /\ App.handleWalletConnect changed st
         = App.mkState changed (App.isSubmitting st) None false false)
  /\ (forall first rest,
         accounts = first :: rest ->
         WalletState.account changed = Some first
         /\ WalletState.isConnected changed = WalletState.isConnected walletState)
  /\ (let st' := App.handleWalletConnect Header.handleDisconnect st in
      App.isUnsupportedChain st' = false
      /\ exists st'',
           App.handleTransactionSubmit transaction st' w = (Normal st'', w)
           /\ App.error st'' = Some "No wallet connected").
Proof.
  cbv zeta. unfold Header.handleAccountsChanged.
  split; [destruct accounts; reflexivity|].
  split; [destruct accounts; reflexivity|].
  split; [intros ->; auto|].
  split; [intros first rest ->; auto|].
  split; [reflexivity|]. eexists. split; reflexivity.
Qed.

Lemma disconnect_outcome_witness :
  WalletState.isConnected
    (Header.handleAccountsChanged
       (WalletState.mk true (Some (Str "0xab")) (Some "1") None) [])
  = false.
Proof.
  exact (proj1 (proj1 (proj2 (proj2 (disconnect_outcome
           (WalletState.mk true (Some (Str "0xab")) (Some "1") None) []
           App.initialState sampleTransaction freshWorld))) eq_refl)).
Defined.

End AppFacts.

Module SwitchFacts.
Import Regex Number Js Async Wallet Spec StringFacts NumberFacts WalletFacts
       EthersFacts.

Lemma objectPrototype_leading c s : In c ["N"; "I"; "-"; "0"; "1"; "2"; "3"; "4"; "5"; "6"; "7"; "8"; "9"]%char ->
  objectPrototype (String c s) = None.
Proof.
  simpl. intros H.
  repeat (destruct H as [<-|H]; [reflexivity|]). destruct H.
Qed.

Lemma digitsOf_digits fuel n acc :
  allChars (isDigitOf 10) acc = true ->
  allChars (isDigitOf 10) (digitsOf fuel 10 n acc) = true.
Proof.
  revert n acc. induction fuel as [|f IH]; intros n acc A; simpl; [exact A|].
  assert (D : isDigitOf 10 (digitChar (n mod 10)) = true).
  { apply isDigitOf_digitChar; [apply Z.mod_pos_bound|]; lia. }
  destruct (n <? 10); [simpl; rewrite D; exact A|].
  apply IH. simpl. rewrite D. exact A.
Qed.

Lemma integerToString_leading n :
  exists c s,
    integerToString 10 n = String c s
    /\ In c ["N"; "I"; "-"; "0"; "1"; "2"; "3"; "4"; "5"; "6"; "7"; "8"; "9"]%char.
Proof.
  assert (A : allChars (isDigitOf 10) (integerToString 10 n) = true)
    by (apply digitsOf_digits; reflexivity).
  pose proof (AppFacts.integerToString_nonempty 10 n) as N.
  destruct (integerToString 10 n) as [|c s]; [congruence|].
  simpl in A. apply andb_true_iff in A as [C _].
  exists c, s. split; [reflexivity|].
  apply digit10_cases in C. simpl in *. tauto.
Qed.

Lemma exponential_leading v :
  exists c s,
    exponential v = String c s
    /\ In c ["N"; "I"; "-"; "0"; "1"; "2"; "3"; "4"; "5"; "6"; "7"; "8"; "9"]%char.
Proof.
  unfold exponential. cbv zeta.
  assert (A : allChars (isDigitOf 10) (dropTrailingZeros (integerToString 10 v)) = true).
  { assert (A : allChars (isDigitOf 10) (integerToString 10 v) = true)
      by (apply digitsOf_digits; reflexivity).
    destruct (dropTrailingZeros_spec (integerToString 10 v)) as [j E].
    rewrite E, allChars_append in A. apply andb_true_iff in A. tauto. }
  destruct (dropTrailingZeros (integerToString 10 v)) as [|d rest].
  - eexists _, _. split; [reflexivity|]. simpl. tauto.
  - simpl in A. apply andb_true_iff in A as [C _].
    apply digit10_cases in C.
    destruct rest; eexists _, _; (split; [reflexivity|]);
      simpl in *; tauto.
Qed.

Lemma toString10_leading x :
  exists c s,
    toString 10 x = String c s
    /\ In c ["N"; "I"; "-"; "0"; "1"; "2"; "3"; "4"; "5"; "6"; "7"; "8"; "9"]%char.
Proof.
  destruct x as [|[|]|z]; try (eexists _, _; split; [reflexivity|];
                               simpl; tauto).
  unfold toString. change (10 =? 10) with true. cbv iota.
  destruct (z <? 0).
  - rewrite append_cons. eexists _, _. split; [reflexivity|].
    simpl. tauto.
  - rewrite append_empty_l. unfold decimalMagnitude.
    destruct (Z.abs z <? 2 ^ 53); [apply integerToString_leading|].
    cbv zeta. destruct (shortestDecimal (Z.abs z) <? 10 ^ 21);
      [apply integerToString_leading | apply exponential_leading].
Qed.

Lemma readNETWORKS_selected chainId :
  Header.selects chainId -> NETWORKS !! chainId = None -> readNETWORKS chainId = Unset.
Proof.
  intros S K. unfold readNETWORKS. rewrite K.
  destruct S as [chainId network R | event]; [congruence|].
  unfold Header.handleChainChanged.
  destruct (toString10_leading (parseInt (ToString event) (Some 16)))
    as (c & s & -> & L).
  rewrite (objectPrototype_leading c s L). reflexivity.
Qed.

(** C10.  For every chain identifier the application passes to
    [switchNetwork] (the header selects the key of a network option, or
    the decimal rendering of the identifier of a [chainChanged] event):
    when it is not a key of [NETWORKS] and the provider rejects
    [wallet_switchEthereumChain] with code 4902, [switchNetwork] ends
    normally, and the switch request is the only request it has issued:
    no [wallet_addEthereumChain] and no second switch. *)
Theorem switchNetwork_unregistered_chain
    (provider : WalletProvider.t) (chainId : string) (w : World) (e : value) :
  Header.selects chainId ->
  NETWORKS !! chainId = None ->
  WalletProvider.request provider (requests w) (switchRequest chainId) = Rejected e ->
  getProp e "code" = Normal (Num (Int 4902)) ->
  switchNetwork provider chainId w = (Normal tt, after w [switchRequest chainId])
  /\ requests (snd (switchNetwork provider chainId w))
     = requests w ++ [switchRequest chainId].
Proof.
  intros S K R C.
  pose proof (readNETWORKS_selected chainId S K) as U.
  rewrite (switchNetwork_unset_key provider chainId w e R C U).
  split; reflexivity.
Qed.

Lemma switchNetwork_unregistered_chain_witness :
  switchNetwork unknownChainProvider "137" freshWorld
  = (Normal tt, after freshWorld [switchRequest "137"]).
Proof.
  exact (proj1 (switchNetwork_unregistered_chain unknownChainProvider "137" freshWorld
                  unknownChain (Header.selects_changed (Str "0x89"))
                  eq_refl eq_refl eq_refl)).
Defined.

End SwitchFacts.

Module ChainIdFacts.
Import Number Js Wallet Spec StringFacts NumberFacts RegistryFacts NetworkFacts.

Lemma hexChainId_decimal d :
  decimalDigits d -> digitsValue 10 d < 2 ^ 53 ->
  hexChainId d = String.append "0x" (integerToString 16 (digitsValue 10 d)).
Proof.
  intros [N A] B. unfold hexChainId.
  pose proof (digitsValue_nonneg 10 d ltac:(lia)) as P.
  rewrite parseInt_decimal by assumption.
  rewrite toDouble_small by lia.
  rewrite toString16_nonneg by assumption. reflexivity.
Qed.

(** X17.  The hexadecimal identifier [switchNetwork] sends for a decimal
    chain identifier (below [2^53]) is [0x] followed by the hexadecimal
    digits of the same integer, and the header's [chainChanged] handler,
    like the normalisation of the registry lookups, decodes it back to
    the decimal numeral of that integer: the identifier itself when it is
    written without leading zeros. *)
Theorem chain_id_round_trip (d : string) :
  decimalDigits d -> digitsValue 10 d < 2 ^ 53 ->
  hexChainId d = String.append "0x" (integerToString 16 (digitsValue 10 d))
  /\ Header.handleChainChanged (Str (hexChainId d))
     = integerToString 10 (digitsValue 10 d)
  /\ normalizeChainId (hexChainId d) = integerToString 10 (digitsValue 10 d)
  /\ (forall n, 0 <= n -> d = integerToString 10 n ->
      Header.handleChainChanged (Str (hexChainId d)) = d).
Proof.
  intros D B.
  pose proof (digitsValue_nonneg 10 d ltac:(lia)) as P.
  destruct (integerToString_spec 16 (digitsValue 10 d) ltac:(lia) P) as (V & A & N).
  assert (H : hexDigits (integerToString 16 (digitsValue 10 d))) by (split; assumption).
  assert (E : Header.handleChainChanged (Str (hexChainId d))
              = integerToString 10 (digitsValue 10 d)).
  { unfold Header.handleChainChanged. simpl ToString.
    rewrite hexChainId_decimal by assumption.
    rewrite normalize_hex by (try assumption; rewrite V; assumption).
    rewrite V. reflexivity. }
  split; [apply hexChainId_decimal; assumption|].
  split; [exact E|]. split.
  - rewrite hexChainId_decimal by assumption.
    rewrite normalizeChainId_hex by (try assumption; rewrite V; assumption).
    rewrite V. reflexivity.
  - intros n Hn ->. rewrite E.
    destruct (integerToString_spec 10 n ltac:(lia) Hn) as (-> & _). reflexivity.
Qed.

Lemma chain_id_round_trip_witness :
  hexChainId "8453" = "0x2105"
  /\ Header.handleChainChanged (Str (hexChainId "8453")) = "8453".
Proof.
  destruct (chain_id_round_trip "8453") as (E & _ & _ & R).
  - split; [discriminate | reflexivity].
  - reflexivity.
  - split; [exact E|]. apply (R 8453); [lia | reflexivity].
Defined.

End ChainIdFacts.

Module NotificationFacts.
Import Notification.

Lemma show_nonempty message st :
  message <> EmptyString ->
  show message st = (mkState 10 true, timeLeft st =? 0).
Proof.
  intros N. unfold show. cbv zeta.
  replace (Js.truthy (Js.Str message)) with true
    by (destruct message; [congruence | reflexivity]).
  unfold closes. f_equal.
  rewrite !andb_true_r. change (10 =? 0) with false.
  rewrite andb_false_r, orb_false_r. reflexivity.
Qed.

Lemma afterTicks_countdown n :
  afterTicks n (mkState 10 true) = mkState (Z.max 0 (10 - Z.of_nat n)) true.
Proof.
  induction n as [|n IH]; [reflexivity|].
  unfold afterTicks in *. rewrite Nat.iter_succ, IH.
  unfold interval. simpl. f_equal. unfold tick.
  destruct (Z.max 0 (10 - Z.of_nat n) <=? 1) eqn:L;
    [apply Z.leb_le in L | apply Z.leb_gt in L]; lia.
Qed.

Lemma interval_closes t :
  0 <= t -> snd (interval (mkState t true)) = true <-> t = 1.
Proof.
  intros H. unfold interval, closes, tick. simpl.
  rewrite andb_true_r, andb_true_iff, negb_true_iff, Z.eqb_neq, Z.eqb_eq.
  destruct (t <=? 1) eqn:L; [apply Z.leb_le in L | apply Z.leb_gt in L]; lia.
Qed.

(** X18.  Every showing with a message sets the countdown to 10 and
    starts the interval; [n] ticks later it shows [10 - n], and the
    closing effect calls [onClose] at the tenth tick and at no other.
    But [timeLeft] is kept while the notification is hidden, and the
    closing effect of the commit that shows it tests the value kept: the
    showing is closed at once, before any tick, exactly when the kept
    value is 0.  That is the case after every automatic close, so the
    showing that follows an automatic close is closed at once; the value
    kept after it is 10 again. *)
Theorem countdown_closes (message : string) (st : State) :
  message <> EmptyString ->
  let shown := fst (show message st) in
  snd (show message st) = (timeLeft st =? 0)
  /\ timeLeft shown = 10 /\ timer shown = true
  /\ (forall n,
         timeLeft (afterTicks n shown) = Z.max 0 (10 - Z.of_nat n)
         /\ (snd (interval (afterTicks n shown)) = true <-> n = 9%nat))
  /\ (let dismissed := hide (afterTicks 10 shown) in
      timeLeft dismissed = 0
      /\ forall message',
           message' <> EmptyString ->
           snd (show message' dismissed) = true
           /\ timeLeft (hide (fst (show message' dismissed))) = 10).
Proof.
  intros N. cbv zeta. rewrite (show_nonempty message st N). cbn [fst snd].
  split; [reflexivity|]. split; [reflexivity|]. split; [reflexivity|]. split.
  - intros n. rewrite afterTicks_countdown. split; [reflexivity|].
    rewrite interval_closes by lia. lia.
  - rewrite afterTicks_countdown. split; [reflexivity|].
    intros message' N'. rewrite (show_nonempty message' _ N'). split; reflexivity.
Qed.

Lemma countdown_closes_witness :
  snd (show "Transaction failed" initialState) = false
  /\ snd (show "Transaction failed"
            (hide (afterTicks 10 (fst (show "Transaction failed" initialState)))))
     = true.
Proof.
  destruct (countdown_closes "Transaction failed" initialState ltac:(discriminate))
    as (A & _ & _ & _ & _ & B).
  split; [exact A|]. apply (B "Transaction failed"). discriminate.
Defined.

End NotificationFacts.

Module FormHandlerFacts.
Import Regex Number Js Validation Ethers TransactionForm Spec
       StringFacts NumberFacts FormFacts EthersFacts.

Section WithEngine.
Variable parseFloatRejects : string -> bool.

Lemma newErrors_to st :
  newErrors parseFloatRejects st !! "to"
  = if negb (truthy (Str (TransactionRequest.to (formData st))))
    then Some "Contract address is required"
    else if negb (isValidAddress (TransactionRequest.to (formData st)))
    then Some "Invalid Ethereum address format"
    else None.
Proof.
  unfold newErrors. cbv zeta.
  repeat match goal with
         | |- context [match ?x with _ => _ end] =>
             lazymatch x with
             | context [match _ with _ => _ end] => fail
             | _ => destruct x eqn:?
             end
         end; simplify_map_eq; reflexivity.
Qed.

Lemma newErrors_data st :
  newErrors parseFloatRejects st !! "data"
  = if negb (truthy (Str (TransactionRequest.data (formData st))))
    then Some "Calldata is required"
    else if negb (isValidCalldata (TransactionRequest.data (formData st)))
    then Some "Invalid calldata format (must start with 0x and contain hex characters)"
    else None.
Proof.
  unfold newErrors. cbv zeta.
  repeat match goal with
         | |- context [match ?x with _ => _ end] =>
             lazymatch x with
             | context [match _ with _ => _ end] => fail
             | _ => destruct x eqn:?
             end
         end; simplify_map_eq; reflexivity.
Qed.


Lemma validateForm_valid st :
  fst (validateForm parseFloatRejects st) = true ->
  newErrors parseFloatRejects st = ∅
  /\ isValidAddress (TransactionRequest.to (formData st)) = true
  /\ isValidCalldata (TransactionRequest.data (formData st)) = true.
Proof.
  unfold validateForm. simpl. intros V.
  apply bool_decide_eq_true in V. apply map_size_empty_iff in V.
  split; [exact V|].
  pose proof (newErrors_to st) as T. pose proof (newErrors_data st) as D.
  rewrite V, lookup_empty in T, D.
  destruct (truthy (Str (TransactionRequest.to (formData st)))); [|discriminate T].
  destruct (truthy (Str (TransactionRequest.data (formData st)))); [|discriminate D].
  simpl in T, D.
  destruct (isValidAddress _); [|discriminate T].
  destruct (isValidCalldata _); [|discriminate D].
  auto.
Qed.

Lemma handleSubmit_cases st :
  handleSubmit parseFloatRejects st
  = let st1 := setErrors (fun _ => newErrors parseFloatRejects st) st in
    if fst (validateForm parseFloatRejects st)
    then
      match valueUnit st, truthy (Str (ethValue st)) with
      | eth, true =>
          match parseEther (ethValue st) with
          | Some n =>
              (st1,
               Some (TransactionRequest.mk
                       (TransactionRequest.to (formData st))
                       (TransactionRequest.data (formData st))
                       (if truthy (Str (bigintToString n))
                        then Some ("0x" +:+ toString 16 (parseInt (bigintToString n) None))
                        else None)))
          | None =>
              (setErrors
                 (fun prev =>
                    <["value" := "Invalid " +:+ currentCurrencySymbol st +:+ " value"]> prev)
                 st1, None)
          end
      | _, _ =>
          (st1,
           Some (TransactionRequest.mk
                   (TransactionRequest.to (formData st))
                   (TransactionRequest.data (formData st))
                   (match TransactionRequest.value (formData st) with
                    | Some v =>
                        if truthy (Str v)
                        then Some ("0x" +:+ toString 16 (parseInt v None))
                        else None
                    | None => None
                    end)))
      end
    else (st1, None).
Proof.
  unfold handleSubmit, validateForm. cbv zeta. simpl fst.
  destruct (bool_decide _); [|reflexivity].
  destruct (valueUnit st); [reflexivity|].
  destruct (truthy (Str (ethValue st))); [|reflexivity].
  destruct (parseEther (ethValue st)); reflexivity.
Qed.

(** X19.  [handleSubmit] only ever hands a validated transaction to
    [onSubmit]: its recipient passes [isValidAddress], its data passes
    [isValidCalldata], both are the form's own fields unchanged, a
    value, when present, is a string that starts with [0x], and no
    validation error is left in the form. *)
Theorem handleSubmit_only_valid (st : State) (transaction : TransactionRequest.t) :
  snd (handleSubmit parseFloatRejects st) = Some transaction ->
  isValidAddress (TransactionRequest.to transaction) = true
  /\ isValidCalldata (TransactionRequest.data transaction) = true
  /\ TransactionRequest.to transaction = TransactionRequest.to (formData st)
  /\ TransactionRequest.data transaction = TransactionRequest.data (formData st)
  /\ (forall v, TransactionRequest.value transaction = Some v ->
                String.prefix "0x" v = true)
  /\ errors (fst (handleSubmit parseFloatRejects st)) = ∅.
Proof.
  rewrite handleSubmit_cases. cbv zeta.
  destruct (fst (validateForm parseFloatRejects st)) eqn:V; [|discriminate].
  destruct (validateForm_valid st V) as (E & A & D).
  assert (P : forall s, String.prefix "0x" ("0x" +:+ s) = true).
  { intros s. rewrite !append_cons, append_empty_l. destruct s; reflexivity. }
  destruct (valueUnit st), (truthy (Str (ethValue st)));
    try destruct (parseEther (ethValue st)); simpl; try discriminate;
    intros [= <-]; simpl; (repeat split; try assumption);
    intros v;
    repeat match goal with
           | |- context [match ?x with _ => _ end] => destruct x
           end;
    try discriminate; intros [= <-]; apply P.
Qed.

(** X20.  A form whose address or calldata does not validate is never
    submitted, and the reason is recorded under the field: "required"
    when the field is empty, "invalid" when it is filled in but does
    not match, whatever the other fields hold. *)
Theorem handleSubmit_blocked (st : State) :
  let st' := fst (handleSubmit parseFloatRejects st) in
  (isValidAddress (TransactionRequest.to (formData st)) = false
   \/ isValidCalldata (TransactionRequest.data (formData st)) = false ->
   snd (handleSubmit parseFloatRejects st) = None)
  /\ (isValidAddress (TransactionRequest.to (formData st)) = false ->
      errors st' !! "to"
      = Some (if String.eqb (TransactionRequest.to (formData st)) ""
              then "Contract address is required"
              else "Invalid Ethereum address format"))
  /\ (isValidCalldata (TransactionRequest.data (formData st)) = false ->
      errors st' !! "data"
      = Some (if String.eqb (TransactionRequest.data (formData st)) ""
              then "Calldata is required"
              else "Invalid calldata format (must start with 0x and contain hex characters)")).
Proof.
  cbv zeta. rewrite handleSubmit_cases. cbv zeta.
  destruct (fst (validateForm parseFloatRejects st)) eqn:V.
  - destruct (validateForm_valid st V) as (_ & A & D). rewrite A, D.
    split; [intros [F|F]; discriminate F|]. split; discriminate.
  - simpl. split; [reflexivity|].
    rewrite newErrors_to, newErrors_data. split; intros ->.
    + destruct (TransactionRequest.to (formData st)); reflexivity.
    + destruct (TransactionRequest.data (formData st)); reflexivity.
Qed.

(** X21.  In the display unit an amount that [parseEther] rejects is
    never submitted, whatever else the form holds: the typed text is
    kept for display, the stored value is emptied, and [handleSubmit]
    either fails validation or stops with the error "Invalid ... value"
    under [value].  An emptied amount field, in either unit, leads to a
    transaction without a value. *)
Theorem rejected_amount_not_submitted (st : State) (inputValue : string) :
  (valueUnit st = eth -> inputValue <> EmptyString ->
   parseEther inputValue = None ->
   let typed := handleValueChange inputValue st in
   ethValue typed = inputValue
   /\ TransactionRequest.value (formData typed) = Some EmptyString
   /\ snd (handleSubmit parseFloatRejects typed) = None
   /\ (fst (validateForm parseFloatRejects typed) = true ->
       errors (fst (handleSubmit parseFloatRejects typed)) !! "value"
       = Some ("Invalid " +:+ currentCurrencySymbol st +:+ " value")))
  /\ (forall transaction,
         snd (handleSubmit parseFloatRejects (handleValueChange "" st))
           = Some transaction ->
         TransactionRequest.value transaction = None).
Proof.
  split.
  - intros U N R. cbv zeta.
    assert (E : handleValueChange inputValue st
                = handleInputChange value "" (setEthValue inputValue st)).
    { unfold handleValueChange. rewrite U, R.
      destruct (truthy (Str inputValue) && negb (inputValue =? "."))%string;
        reflexivity. }
    rewrite E. split; [reflexivity|]. split; [reflexivity|].
    rewrite handleSubmit_cases. cbv zeta.
    destruct (fst (validateForm parseFloatRejects _));
      [|split; [reflexivity | discriminate]].
    simpl valueUnit. simpl ethValue. rewrite U, R.
    rewrite (truthy_Str _ N). simpl. split; [reflexivity|]. intros _.
    apply lookup_insert_eq.
  - intros transaction.
    assert (E : handleValueChange "" st
                = handleInputChange value "" (setEthValue "" st)).
    { unfold handleValueChange. destruct (valueUnit st); reflexivity. }
    rewrite E, handleSubmit_cases. cbv zeta.
    destruct (fst (validateForm parseFloatRejects _)); [|discriminate].
    simpl. destruct (valueUnit st); intros [= <-]; reflexivity.
Qed.

End WithEngine.

Lemma handleSubmit_only_valid_witness :
  isValidAddress "0x6B175474E89094C44Da98b954EedeAC495271d0F" = true
  /\ isValidCalldata "0xa9059cbb" = true.
Proof.
  pose (st := mkState wei
                (TransactionRequest.mk "0x6B175474E89094C44Da98b954EedeAC495271d0F"
                   "0xa9059cbb" (Some "1000"))
                ∅ "" "ETH").
  destruct (handleSubmit_only_valid (fun _ => false) st
              (TransactionRequest.mk "0x6B175474E89094C44Da98b954EedeAC495271d0F"
                 "0xa9059cbb" (Some "0x3e8")))
    as (A & D & _).
  - vm_compute. reflexivity.
  - split; [exact A | exact D].
Defined.

Lemma handleSubmit_blocked_witness :
  snd (handleSubmit (fun _ => false)
         (mkState wei (TransactionRequest.mk "0x12" "0xa9059cbb" None) ∅ "" "ETH"))
  = None.
Proof.
  apply (proj1 (handleSubmit_blocked (fun _ => false)
                  (mkState wei (TransactionRequest.mk "0x12" "0xa9059cbb" None)
                     ∅ "" "ETH"))).
  left. vm_compute. reflexivity.
Defined.

Lemma rejected_amount_not_submitted_witness :
  snd (handleSubmit (fun _ => false)
         (handleValueChange "1e18"
            (mkState eth
               (TransactionRequest.mk "0x6B175474E89094C44Da98b954EedeAC495271d0F"
                  "0xa9059cbb" None) ∅ "" "ETH")))
  = None.
Proof.
  apply (proj1 (rejected_amount_not_submitted (fun _ => false)
                  (mkState eth
                     (TransactionRequest.mk "0x6B175474E89094C44Da98b954EedeAC495271d0F"
                        "0xa9059cbb" None) ∅ "" "ETH") "1e18")
           eq_refl ltac:(discriminate) eq_refl).
Defined.

Lemma fieldName_inj f g : fieldName f = fieldName g -> f = g.
Proof. destruct f, g; simpl; intros E; try reflexivity; discriminate E. Qed.

(** X22.  Editing a field with [handleInputChange] writes that field and
    no other, leaves no error showing for the edited field, and touches
    neither the error of any other field nor the unit, the typed amount
    or the currency symbol. *)
Theorem handleInputChange_local (field : Field) (v : string) (st : State) :
  let st' := handleInputChange field v st in
  nonEmpty (errors st' !! fieldName field) = false
  /\ (forall other, other <> fieldName field ->
                    errors st' !! other = errors st !! other)
  /\ match field with
     | to => TransactionRequest.to (formData st') = v
     | data => TransactionRequest.data (formData st') = v
     | value => TransactionRequest.value (formData st') = Some v
     end
  /\ (field <> to ->
      TransactionRequest.to (formData st') = TransactionRequest.to (formData st))
  /\ (field <> data ->
      TransactionRequest.data (formData st') = TransactionRequest.data (formData st))
  /\ (field <> value ->
      TransactionRequest.value (formData st') = TransactionRequest.value (formData st))
  /\ valueUnit st' = valueUnit st /\ ethValue st' = ethValue st
  /\ currentCurrencySymbol st' = currentCurrencySymbol st.
Proof.
  cbv zeta. unfold handleInputChange. simpl.
  split; [|split].
  - destruct (nonEmpty (errors st !! fieldName field)) eqn:E; [|exact E].
    rewrite lookup_insert_eq. reflexivity.
  - intros other N.
    destruct (nonEmpty (errors st !! fieldName field)); [|reflexivity].
    apply lookup_insert_ne. congruence.
  - destruct field; simpl; repeat split; congruence.
Qed.

Lemma parseEther_nonneg x n : parseEther x = Some n -> 0 <= n.
Proof.
  unfold parseEther. destruct (splitPoint x) as [whole rest]. cbv zeta.
  set (scaled := _ +:+ zeros _).
  pose proof (digitsValue_nonneg 10 whole ltac:(lia)).
  pose proof (digitsValue_nonneg 10 scaled ltac:(lia)).
  destruct (_ && _); [|discriminate]. intros E.
  assert (n = digitsValue 10 whole * 10 ^ Z.of_nat decimals + digitsValue 10 scaled)
    by congruence.
  assert (0 < 10 ^ Z.of_nat decimals) by (apply Z.pow_pos_nonneg; lia).
  nia.
Qed.

Lemma length_trimFraction_fractionDigits r :
  0 <= r ->
  allChars (isDigitOf 10) (trimFraction (fractionDigits r)) = true
  /\ (String.length (trimFraction (fractionDigits r)) <= 18)%nat
  /\ digitsValue 10 (trimFraction (fractionDigits r))
     * 10 ^ (18 - Z.of_nat (String.length (trimFraction (fractionDigits r))))
     = r mod 10 ^ 18.
Proof.
  intros H. unfold fractionDigits.
  destruct (fixedDigits_spec decimals r H) as (L & A & V).
  change (Z.of_nat decimals) with 18 in V.
  assert (D18 : decimals = 18%nat) by reflexivity.
  destruct (trimFraction_spec _ A) as (AT & [[j E]|[E Z]]).
  - split; [exact AT|].
    assert (LJ : (String.length (trimFraction (fixedDigits decimals r)) + j = 18)%nat).
    { pose proof (f_equal String.length E) as LE.
      rewrite length_append, length_zeros, L in LE. lia. }
    split; [lia|].
    rewrite <- V.
    pose proof (f_equal (digitsValue 10) E) as VE.
    rewrite digitsValue_append, length_zeros, digitsValue_zeros in VE. rewrite VE.
    replace (18 - Z.of_nat (String.length (trimFraction (fixedDigits decimals r))))
      with (Z.of_nat j) by lia.
    lia.
  - rewrite E. split; [reflexivity|]. split; [simpl; lia|].
    rewrite <- V, Z. reflexivity.
Qed.

Lemma parseEther_formatted n :
  0 <= n ->
  parseEther (integerToString 10 (n / 10 ^ 18) +:+ "."
              +:+ trimFraction (fractionDigits (n mod 10 ^ 18)))
  = Some n.
Proof.
  intros H.
  assert (Q : 0 <= n / 10 ^ 18) by (apply Z.div_pos; lia).
  assert (R : 0 <= n mod 10 ^ 18 < 10 ^ 18) by (apply Z.mod_pos_bound; lia).
  destruct (integerToString_spec 10 (n / 10 ^ 18) ltac:(lia) Q) as (V & A & N).
  destruct (length_trimFraction_fractionDigits (n mod 10 ^ 18) (proj1 R))
    as (AT & LT & VT).
  rewrite (parseEther_value (integerToString 10 (n / 10 ^ 18))
             (trimFraction (fractionDigits (n mod 10 ^ 18)))).
  - rewrite V, VT. rewrite Z.mod_mod by lia. f_equal.
    rewrite (Z.div_mod n (10 ^ 18)) at 3 by lia. lia.
  - split; [exact A|]. split; [exact AT|]. split; [|exact LT].
    destruct (integerToString 10 (n / 10 ^ 18)); [congruence | simpl; lia].
  - left. reflexivity.
Qed.

(** X23.  Switching the unit keeps the amount.  After an amount that
    [parseEther] accepts has been typed in the display unit, the form
    stores its base-unit numeral; switching to base units shows that
    stored numeral alone, and switching back shows a display amount that
    [parseEther] converts to the very same integer, the stored value
    being untouched throughout. *)
Theorem unit_toggle_keeps_amount (st : State) (inputValue : string) (n : Z) :
  valueUnit st = eth ->
  inputValue <> EmptyString -> inputValue <> "." ->
  parseEther inputValue = Some n ->
  let typed := handleValueChange inputValue st in
  let inWei := handleUnitChange wei typed in
  let back := handleUnitChange eth inWei in
  TransactionRequest.value (formData typed) = Some (integerToString 10 n)
  /\ ethValue inWei = EmptyString
  /\ formData inWei = formData typed
  /\ formData back = formData typed
  /\ valueUnit back = eth
  /\ parseEther (ethValue back) = Some n.
Proof.
  intros U N P R. cbv zeta.
  pose proof (parseEther_nonneg _ _ R) as H.
  assert (E : handleValueChange inputValue st
              = handleInputChange value (integerToString 10 n)
                  (setEthValue inputValue st)).
  { unfold handleValueChange. rewrite U, R, (truthy_Str _ N).
    apply String.eqb_neq in P. rewrite P. simpl.
    rewrite bigintToString_nonneg by assumption. reflexivity. }
  rewrite E. simpl.
  repeat (split; [reflexivity|]).
  destruct (integerToString_spec 10 n ltac:(lia) H) as (_ & _ & NE).
  apply String.eqb_neq in NE. rewrite NE. simpl negb. cbv iota.
  rewrite <- (bigintToString_nonneg n H).
  rewrite (weiToEth_value n _ H (formatEther_value n H)).
  apply parseEther_formatted. assumption.
Qed.

Lemma unit_toggle_keeps_amount_witness :
  parseEther
    (ethValue
       (handleUnitChange eth
          (handleUnitChange wei
             (handleValueChange "1.50"
                (mkState eth (TransactionRequest.mk "" "" None) ∅ "" "ETH")))))
  = Some 1500000000000000000.
Proof.
  apply (unit_toggle_keeps_amount
           (mkState eth (TransactionRequest.mk "" "" None) ∅ "" "ETH") "1.50"
           1500000000000000000 eq_refl ltac:(discriminate) ltac:(discriminate)
           eq_refl).
Defined.

End FormHandlerFacts.

Module FormEffectsFacts.
Import Number Js Async Wallet TransactionForm FormEffects Spec
       StringFacts NumberFacts RegistryFacts NetworkFacts.

Lemma symbolOf_readNETWORKS k :
  (symbolOf (readNETWORKS k) = "ETH" \/ symbolOf (readNETWORKS k) = "BNB")
  /\ (symbolOf (readNETWORKS k) = "BNB" <-> k = "56").
Proof.
  unfold readNETWORKS. destruct (NETWORKS !! k) as [n|] eqn:K.
  - apply NETWORKS_Some in K as [(-> & _ & S)|[(-> & _ & S)|(-> & _ & S)]];
      simpl; rewrite S; simpl; (split; [auto|]); split;
      first [discriminate | reflexivity].
  - assert (N : k <> "56") by (intros ->; discriminate K).
    destruct (objectPrototype k); simpl; split; auto; split;
      try discriminate; contradiction.
Qed.

(** X24.  [updateCurrencySymbol] never throws and changes nothing but
    the currency symbol.  Without a provider it does nothing at all; with
    one it issues the single request [eth_chainId], shows ["ETH"] when
    the request is rejected, and otherwise shows what the form's
    [chainChanged] listener shows for the same answer, which is always
    ["ETH"] or ["BNB"], and ["BNB"] exactly when a hexadecimal chain
    identifier (below [2^53]) denotes 56. *)
Theorem updateCurrencySymbol_outcome
    (provider : option WalletProvider.t) (st : State) (w : World) :
  (exists st' w',
      updateCurrencySymbol provider st w = (Normal st', w')
      /\ valueUnit st' = valueUnit st /\ formData st' = formData st
      /\ errors st' = errors st /\ ethValue st' = ethValue st
      /\ match provider with
         | None => st' = st /\ w' = w
         | Some p =>
             w' = after w [ethChainId]
             /\ match WalletProvider.request p (requests w) ethChainId with
                | Rejected _ => currentCurrencySymbol st' = "ETH"
                | Resolved chainId => st' = handleChainChanged chainId st
                end
         end)
  /\ (forall chainId,
         currentCurrencySymbol (handleChainChanged chainId st) = "ETH"
         \/ currentCurrencySymbol (handleChainChanged chainId st) = "BNB")
  /\ (forall ds,
         hexDigits ds -> digitsValue 16 ds < 2 ^ 53 ->
         currentCurrencySymbol (handleChainChanged (Str (String.append "0x" ds)) st)
           = "BNB"
         <-> digitsValue 16 ds = 56).
Proof.
  split; [|split].
  - destruct provider as [p|]; simpl.
    + unfold tryCatch, bind, await_request, ret. fold ethChainId.
      fold (after w [ethChainId]).
      destruct (WalletProvider.request p (requests w) ethChainId) as [chainId|e];
        eexists _, _; (split; [reflexivity|]); simpl; repeat split; reflexivity.
    + eexists _, _. split; [reflexivity|]. repeat split; reflexivity.
  - intros chainId.
    change (currentCurrencySymbol (handleChainChanged chainId st))
      with (getCurrencySymbol
              (Some (toString 10 (parseInt (ToString chainId) (Some 16))))).
    rewrite getCurrencySymbol_normalized. apply symbolOf_readNETWORKS.
  - intros ds [N A] B.
    change (currentCurrencySymbol (handleChainChanged (Str (String.append "0x" ds)) st))
      with (getCurrencySymbol
              (Some (toString 10 (parseInt (String.append "0x" ds) (Some 16))))).
    pose proof (digitsValue_nonneg 16 ds ltac:(lia)) as P.
    rewrite normalize_hex by assumption.
    rewrite getCurrencySymbol_normalized.
    rewrite normalizeChainId_digits by (apply integerToString_digits; assumption).
    rewrite (proj2 (symbolOf_readNETWORKS _)).
    split.
    + intros E. apply integerToString_is in E; assumption.
    + intros ->. reflexivity.
Qed.

Lemma updateCurrencySymbol_outcome_witness :
  currentCurrencySymbol
    (handleChainChanged (Str "0x38")
       (mkState wei (TransactionRequest.mk "" "" None) ∅ "" "ETH"))
  = "BNB".
Proof.
  apply (proj2 (proj2 (updateCurrencySymbol_outcome None
                         (mkState wei (TransactionRequest.mk "" "" None) ∅ "" "ETH")
                         freshWorld)) "38").
  - split; [discriminate | reflexivity].
  - reflexivity.
  - reflexivity.
Defined.

(** X25.  The two EIP-7702 effects keep the address field consistent
    with the detection.  For a user without EIP-7702 the reset effect
    never leaves the user's own address in the field; for a user with it
    the auto-fill effect puts the user's address there and the reset
    effect then leaves it alone.  Neither effect touches anything but the
    address. *)
Theorem eip7702_effects (isEIP7702User : bool) (userAddress : string) (st : State) :
  userAddress <> EmptyString ->
  TransactionRequest.to (formData (resetEffect false (Some userAddress) st))
    <> userAddress
  /\ TransactionRequest.to (formData (autoFillEffect true (Some userAddress) st))
     = userAddress
  /\ resetEffect true (Some userAddress) (autoFillEffect true (Some userAddress) st)
     = autoFillEffect true (Some userAddress) st
  /\ autoFillEffect false (Some userAddress) st = st
  /\ (forall effect,
         effect = resetEffect isEIP7702User (Some userAddress)
         \/ effect = autoFillEffect isEIP7702User (Some userAddress) ->
         TransactionRequest.data (formData (effect st))
           = TransactionRequest.data (formData st)
         /\ TransactionRequest.value (formData (effect st))
            = TransactionRequest.value (formData st)
         /\ errors (effect st) = errors st
         /\ valueUnit (effect st) = valueUnit st
         /\ ethValue (effect st) = ethValue st).
Proof.
  intros N. assert (T : truthy (Str userAddress) = true)
    by (destruct userAddress; [congruence | reflexivity]).
  unfold resetEffect, autoFillEffect. rewrite T. simpl.
  split; [|split; [|split; [|split]]]; try reflexivity.
  - destruct (String.eqb_spec (TransactionRequest.to (formData st)) userAddress) as [E|E];
      simpl; congruence.
  - intros effect [-> | ->].
    + destruct (negb isEIP7702User && true
                && (TransactionRequest.to (formData st) =? userAddress)%string);
        repeat split; reflexivity.
    + destruct (isEIP7702User && true); repeat split; reflexivity.
Qed.

Lemma eip7702_effects_witness :
  TransactionRequest.to
    (formData (resetEffect false (Some "0xab")
                 (mkState wei (TransactionRequest.mk "0xab" "" None) ∅ "" "ETH")))
  <> "0xab".
Proof.
  exact (proj1 (eip7702_effects false "0xab"
                  (mkState wei (TransactionRequest.mk "0xab" "" None) ∅ "" "ETH")
                  ltac:(discriminate))).
Defined.

End FormEffectsFacts.
